(** * ntpsync: a shallow embedding of the NTP client and its properties

    The development follows the Go package [ntpsync]: timestamp
    conversion (time_utils.go), the single exchange (ntp_binary.go and
    sync.go), the server manager, the multi-server strategies
    (multi_server.go), the client API (ntp_api.go, ntpsync.go) and the
    periodic scheduler.  Definitions come first, theorems afterwards. *)

From stdpp Require Import gmap strings list fin_maps sorting.
From Stdlib Require Import ZArith Lia.
From Stdlib Require Import Strings.Byte.

Local Open Scope Z_scope.
Set Warnings "-register-all".

(* ===================================================================== *)
(** ** Machine integers *)
(* ===================================================================== *)

(** Conversion to [int64]: two's complement wrap-around. *)
Definition int64 (x : Z) : Z := (x + 2 ^ 63) mod 2 ^ 64 - 2 ^ 63.

(** Conversion to [uint32]: the low 32 bits. *)
Definition uint32 (x : Z) : Z := x mod 2 ^ 32.

(** Go's [/] on integers truncates toward zero. *)
Definition div64 (a b : Z) : Z := int64 (a ÷ b).
Definition add64 (a b : Z) : Z := int64 (a + b).
Definition sub64 (a b : Z) : Z := int64 (a - b).
Definition mul64 (a b : Z) : Z := int64 (a * b).

(* ===================================================================== *)
(** ** The part of Go's [time] package the client uses *)
(* ===================================================================== *)

(** [time.Duration] is an [int64] count of nanoseconds. *)
Definition Duration := Z.

Definition minDuration : Duration := - 2 ^ 63.
Definition maxDuration : Duration := 2 ^ 63 - 1.
Definition Millisecond : Duration := 1000000.
Definition Second : Duration := 1000000000.
Definition Hour : Duration := 3600 * Second.

(** A [time.Time] is a wall-clock instant, here in nanoseconds since the
    Unix epoch, and an optional monotonic-clock reading in nanoseconds.
    Values returned by [time.Now] carry a monotonic reading, values built
    by [time.Unix] do not. *)
Record Time := mkTime { wall : Z; mono : option Z }.

(** The zero [time.Time]: January 1, year 1, 00:00:00 UTC. *)
Definition zeroTime : Time := mkTime (- 62135596800 * 1000000000) None.

(** [t.Unix()]: whole seconds since the Unix epoch (rounded down). *)
Definition Time_Unix (t : Time) : Z := wall t / 1000000000.

(** [t.Nanosecond()]: the nanosecond within the second, in [0, 999999999]. *)
Definition Time_Nanosecond (t : Time) : Z := wall t mod 1000000000.

(** [time.Unix(sec, nsec)]: any [nsec] is carried into the seconds. *)
Definition time_Unix (sec nsec : Z) : Time := mkTime (sec * 1000000000 + nsec) None.

(** Out-of-range differences are clamped to the extreme durations. *)
Definition saturate (d : Z) : Duration :=
  if d <? minDuration then minDuration
  else if maxDuration <? d then maxDuration
  else d.

(** The difference [t - u] before clamping: measured on the monotonic clock
    when both values carry a reading, on the wall clock otherwise. *)
Definition elapsed (t u : Time) : Z :=
  match mono t, mono u with
  | Some mt, Some mu => mt - mu
  | _, _ => wall t - wall u
  end.

(** [t.Sub(u)]. *)
Definition Time_Sub (t u : Time) : Duration := saturate (elapsed t u).

(** [t.Add(d)]: the monotonic reading is dropped when it would overflow. *)
Definition Time_Add (t : Time) (d : Duration) : Time :=
  mkTime (wall t + d)
         (match mono t with
          | Some m => if decide (int64 (m + d) = m + d) then Some (m + d) else None
          | None => None
          end).

(** [t.IsZero()]. *)
Definition Time_IsZero (t : Time) : bool := wall t =? wall zeroTime.

(* ===================================================================== *)
(** ** time_utils.go *)
(* ===================================================================== *)

(** NTP timestamps count from 1900-01-01T00:00:00Z. *)
Definition ntpEpoch : Z := 2208988800.

(** [timeToNTPTime]: both results are [uint32]. *)
Definition timeToNTPTime (t : Time) : Z * Z :=
  let seconds := uint32 (add64 (Time_Unix t) ntpEpoch) in
  let fraction := uint32 (div64 (mul64 (Time_Nanosecond t) 0x100000000) 1000000000) in
  (seconds, fraction).

(** [ntpTimeToTime]: [seconds - ntpEpoch] is a [uint32] subtraction. *)
Definition ntpTimeToTime (seconds fraction : Z) : Time :=
  let secs := uint32 (seconds - ntpEpoch) in
  let nanos := div64 (mul64 fraction 1000000000) 0x100000000 in
  time_Unix secs nanos.

(* ===================================================================== *)
(** ** Packets, results and errors *)
(* ===================================================================== *)

(** The error values of the package.  Go builds them with [errors.New] and
    [fmt.Errorf]; a constructor stands for one message, its arguments for
    what the message interpolates.  [cause] is the text of an error of the
    operating system or of the [net] package. *)
Inductive error : Type :=
| ErrNoServersConfigured
| ErrNoServersProvided
| ErrConnect (server : string) (cause : string)
| ErrSetDeadline (cause : string)
| ErrSend (cause : string)
| ErrRead (cause : string)
| ErrResponseSize (bytesRead : Z)
| ErrZeroStratum
| ErrNegativeRTT
| ErrAllServersFailed (lastErr : option error)
| ErrAllServersFailedNoCause
| ErrAlreadyRunning
| ErrServerExists (server : string)
| ErrServerUnknown (server : string)
| ErrNoServerAvailable.

(** A Go function returning [(T, error)]. *)
Inductive result (T : Type) : Type :=
| Ok (v : T)
| Err (e : error).
Arguments Ok {T} v.
Arguments Err {T} e.

(** A Go call that returns a value or panics (here: dereferences the nil
    pointer that a map yields for a missing key). *)
Inductive outcome (T : Type) : Type :=
| Returns (v : T)
| Panics.
Arguments Returns {T} v.
Arguments Panics {T}.

Definition DefaultNTPPort : string := "123".
Definition DefaultTimeout : Duration := 5 * Second.
Definition DefaultSyncInterval : Duration := 1 * Hour.

Module NTPPacket.
Record t := mk {
  Settings : Z;
  Stratum : Z;
  Poll : Z;
  Precision : Z;
  RootDelay : Z;
  RootDispersion : Z;
  ReferenceID : Z;
  RefTimeSec : Z;
  RefTimeFrac : Z;
  OrigTimeSec : Z;
  OrigTimeFrac : Z;
  RxTimeSec : Z;
  RxTimeFrac : Z;
  TxTimeSec : Z;
  TxTimeFrac : Z
}.
End NTPPacket.

Module SyncResult.
Record t := mk {
  Server : string;
  Time : Time;
  Offset : Duration;
  RTT : Duration;
  Stratum : Z;
  Error : option error
}.
End SyncResult.

Module ServerStatus.
Record t := mk {
  Address : string;
  Reachable : bool;
  LastResponse : Time;
  RTT : Duration;
  Stratum : Z;
  Offset : Duration
}.
(** [ServerStatus{Address: server}]: every other field has its zero value. *)
Definition fresh (server : string) : t := mk server false zeroTime 0 0 0.
End ServerStatus.

(* ===================================================================== *)
(** ** What the outside world does during one exchange *)
(* ===================================================================== *)

(** One call of [syncWithServerBinary] or [syncWithServer] talks to the
    [net] package and reads the clock three times.  [Net R] records what
    it meets: for each fallible operation the error text if it fails, the
    clock readings, and what the read delivers ([R] is a datagram for the
    byte-level variant, a decoded packet for the struct variant). *)
Record Net (R : Type) := mkNet {
  splitHostPortErr : bool;
  dialErr : option string;
  setDeadlineErr : option string;
  now1 : Time;
  writeErr : option string;
  readRes : string + R;
  now4 : Time;
  nowResult : Time
}.
Arguments mkNet {R}.
Arguments splitHostPortErr {R}.
Arguments dialErr {R}.
Arguments setDeadlineErr {R}.
Arguments now1 {R}.
Arguments writeErr {R}.
Arguments readRes {R}.
Arguments now4 {R}.
Arguments nowResult {R}.

(** [net.JoinHostPort]: a host with a colon is an IPv6 literal. *)
Fixpoint hasColon (s : string) : bool :=
  match s with
  | EmptyString => false
  | String c rest => if Ascii.eqb c (Ascii.ascii_of_nat 58) then true else hasColon rest
  end.

Definition JoinHostPort (host port : string) : string :=
  if hasColon host then "[" +:+ host +:+ "]:" +:+ port
  else host +:+ ":" +:+ port.

(** [respBytes[i]] as an unsigned number; the buffer has 48 bytes. *)
Definition byteAt (buf : list Byte.byte) (i : nat) : Z :=
  Z.of_N (Byte.to_N (nth i buf Byte.x00)).

(** [binary.BigEndian.Uint32(buf[i:i+4])]. *)
Definition BigEndian_Uint32 (buf : list Byte.byte) (i : nat) : Z :=
  Z.lor (Z.lor (Z.lor (Z.shiftl (byteAt buf i) 24)
                      (Z.shiftl (byteAt buf (i + 1)) 16))
               (Z.shiftl (byteAt buf (i + 2)) 8))
        (byteAt buf (i + 3)).

(** The byte with the low 8 bits of [z]. *)
Definition byteOf (z : Z) : Byte.byte :=
  default Byte.x00 (Byte.of_N (Z.to_N (z mod 256))).

(** [binary.BigEndian.PutUint32]: the four bytes written. *)
Definition BigEndian_PutUint32 (v : Z) : list Byte.byte :=
  [byteOf (Z.shiftr v 24); byteOf (Z.shiftr v 16); byteOf (Z.shiftr v 8); byteOf v].

(** The request of [syncWithServerBinary]: 48 zero bytes with the settings
    byte LI 0, VN 4, mode 3 and the transmit timestamp at offset 40. *)
Definition requestBytes (t1 : Time) : list Byte.byte :=
  let '(seconds, fraction) := timeToNTPTime t1 in
  [byteOf (Z.lor (Z.lor (Z.shiftl 0 6) (Z.shiftl 4 3)) 3)] ++ replicate 39 Byte.x00
  ++ BigEndian_PutUint32 seconds ++ BigEndian_PutUint32 fraction.

(** [conn.Read(respBytes)] on a 48-byte zeroed buffer: the datagram is
    copied into the buffer, cut at 48 bytes. *)
Definition conn_Read (datagram : list Byte.byte) : list Byte.byte * Z :=
  (take 48 datagram ++ replicate (48 - length datagram)%nat Byte.x00,
   Z.of_nat (Nat.min 48 (length datagram))).

(** The two expressions of the exchange:
    [(t2.Sub(t1) + t3.Sub(t4)) / 2] and [t4.Sub(t1) - t3.Sub(t2)]. *)
Definition exchangeOffset (t1 t2 t3 t4 : Time) : Duration :=
  div64 (add64 (Time_Sub t2 t1) (Time_Sub t3 t4)) 2.

Definition exchangeRTT (t1 t2 t3 t4 : Time) : Duration :=
  sub64 (Time_Sub t4 t1) (Time_Sub t3 t2).

(* ===================================================================== *)
(** ** ntp_binary.go: the exchange on raw bytes *)
(* ===================================================================== *)

Definition syncWithServerBinary (server : string) (timeout : Duration)
    (w : Net (list Byte.byte)) : result SyncResult.t :=
  let server := if splitHostPortErr w then JoinHostPort server DefaultNTPPort else server in
  match dialErr w with
  | Some err => Err (ErrConnect server err)
  | None =>
  match setDeadlineErr w with
  | Some err => Err (ErrSetDeadline err)
  | None =>
  let t1 := now1 w in
  match writeErr w with
  | Some err => Err (ErrSend err)
  | None =>
  match readRes w with
  | inl err => Err (ErrRead err)
  | inr datagram =>
  let '(respBytes, bytesRead) := conn_Read datagram in
  if negb (bytesRead =? 48) then Err (ErrResponseSize bytesRead)
  else
  let t4 := now4 w in
  let stratum := byteAt respBytes 1 in
  if stratum =? 0 then Err ErrZeroStratum
  else
  let rxSeconds := BigEndian_Uint32 respBytes 32 in
  let rxFraction := BigEndian_Uint32 respBytes 36 in
  let txSeconds := BigEndian_Uint32 respBytes 40 in
  let txFraction := BigEndian_Uint32 respBytes 44 in
  let t2 := ntpTimeToTime rxSeconds rxFraction in
  let t3 := ntpTimeToTime txSeconds txFraction in
  let offset := exchangeOffset t1 t2 t3 t4 in
  let rtt := exchangeRTT t1 t2 t3 t4 in
  if rtt <? 0 then Err ErrNegativeRTT
  else
  Ok (SyncResult.mk server (Time_Add (nowResult w) offset) offset rtt stratum None)
  end end end end.

(* ===================================================================== *)
(** ** sync.go: the exchange on the packet struct *)
(* ===================================================================== *)

Definition syncWithServer (server : string) (timeout : Duration)
    (w : Net NTPPacket.t) : result SyncResult.t :=
  let server := if splitHostPortErr w then JoinHostPort server DefaultNTPPort else server in
  match dialErr w with
  | Some err => Err (ErrConnect server err)
  | None =>
  match setDeadlineErr w with
  | Some err => Err (ErrSetDeadline err)
  | None =>
  let t1 := now1 w in
  match writeErr w with
  | Some err => Err (ErrSend err)
  | None =>
  match readRes w with
  | inl err => Err (ErrRead err)
  | inr resp =>
  let t4 := now4 w in
  if NTPPacket.Stratum resp =? 0 then Err ErrZeroStratum
  else
  let t2 := ntpTimeToTime (NTPPacket.RxTimeSec resp) (NTPPacket.RxTimeFrac resp) in
  let t3 := ntpTimeToTime (NTPPacket.TxTimeSec resp) (NTPPacket.TxTimeFrac resp) in
  let offset := exchangeOffset t1 t2 t3 t4 in
  let rtt := exchangeRTT t1 t2 t3 t4 in
  if rtt <? 0 then Err ErrNegativeRTT
  else
  Ok (SyncResult.mk server (Time_Add (nowResult w) offset) offset rtt
        (NTPPacket.Stratum resp) None)
  end end end end.

(* ===================================================================== *)
(** ** Go's [sort.SliceStable] *)
(* ===================================================================== *)

(** The inner loop of Go's insertion sort: the new element moves left past
    every element it is strictly less than.  The sorted prefix is kept
    reversed, nearest neighbour first. *)
Fixpoint sinkLeft {A : Type} (less : A -> A -> bool) (x : A) (rprefix : list A) : list A :=
  match rprefix with
  | [] => [x]
  | y :: r => if less x y then y :: sinkLeft less x r else x :: y :: r
  end.

(** [sort.SliceStable] runs this insertion sort on slices of up to 20
    elements and merges sorted blocks of 20 beyond that; for a strict weak
    order both give the one stable arrangement. *)
Definition SliceStable {A : Type} (less : A -> A -> bool) (l : list A) : list A :=
  rev (fold_left (fun rprefix x => sinkLeft less x rprefix) l []).

(* ===================================================================== *)
(** ** The server manager *)
(* ===================================================================== *)

Module ServerManager.

Record t := mk {
  servers : gmap string ServerStatus.t;
  serverOrder : list string;
  timeout : Duration
}.

(** [sm.servers[a]] for an address of the map (a missing address would be
    a nil dereference; every caller takes the address from the map). *)
Definition status (m : gmap string ServerStatus.t) (a : string) : ServerStatus.t :=
  default (ServerStatus.fresh a) (m !! a).

(** [range] over a Go map yields every key once, in an order the language
    leaves unspecified (and randomises).  [mapRange m iter] says that
    [iter] is one such order. *)
Definition mapRange (m : gmap string ServerStatus.t) (iter : list string) : Prop :=
  NoDup iter /\ forall a, a ∈ iter <-> is_Some (m !! a).

Definition NewServerManager (srvs : list string) (tmo : Duration) : result t :=
  if (length srvs =? 0)%nat then Err ErrNoServersProvided
  else
    let tmo := if tmo <=? 0 then DefaultTimeout else tmo in
    Ok (fold_left
          (fun sm server =>
             mk (<[server := ServerStatus.fresh server]> (servers sm))
                (serverOrder sm ++ [server]) (timeout sm))
          srvs (mk ∅ [] tmo)).

Definition AddServer (server : string) (sm : t) : t * option error :=
  match servers sm !! server with
  | Some _ => (sm, Some (ErrServerExists server))
  | None =>
      (mk (<[server := ServerStatus.fresh server]> (servers sm))
          (serverOrder sm ++ [server]) (timeout sm), None)
  end.

(** Removes the first occurrence, as the loop with [break] does. *)
Fixpoint removeFirst (server : string) (l : list string) : list string :=
  match l with
  | [] => []
  | s :: rest => if String.eqb s server then rest else s :: removeFirst server rest
  end.

Definition RemoveServer (server : string) (sm : t) : t * option error :=
  match servers sm !! server with
  | None => (sm, Some (ErrServerUnknown server))
  | Some _ =>
      (mk (delete server (servers sm)) (removeFirst server (serverOrder sm)) (timeout sm),
       None)
  end.

Definition GetServers (sm : t) : list string := serverOrder sm.

Definition GetServerStatus (server : string) (sm : t) : result ServerStatus.t :=
  match servers sm !! server with
  | Some st => Ok st
  | None => Err (ErrServerUnknown server)
  end.

(** [GetAllServerStatuses] copies [*sm.servers[server]] for every address
    of the ranking; an address missing from the map makes it panic. *)
Fixpoint derefAll (m : gmap string ServerStatus.t) (order : list string)
    : outcome (list ServerStatus.t) :=
  match order with
  | [] => Returns []
  | server :: rest =>
      match m !! server with
      | None => Panics
      | Some st =>
          match derefAll m rest with
          | Panics => Panics
          | Returns statuses => Returns (st :: statuses)
          end
      end
  end.

Definition GetAllServerStatuses (sm : t) : outcome (list ServerStatus.t) :=
  derefAll (servers sm) (serverOrder sm).

(** The comparison passed to [sort.SliceStable]. *)
Definition less (m : gmap string ServerStatus.t) (a b : string) : bool :=
  let si := status m a in
  let sj := status m b in
  if negb (Bool.eqb (ServerStatus.Reachable si) (ServerStatus.Reachable sj))
  then ServerStatus.Reachable si
  else if negb (ServerStatus.Stratum si =? ServerStatus.Stratum sj)
  then ServerStatus.Stratum si <? ServerStatus.Stratum sj
  else ServerStatus.RTT si <? ServerStatus.RTT sj.

(** [reorderServers]: the slice to sort is filled by ranging over the map;
    [iter] is the order in which that range yields the addresses. *)
Definition reorderServers (iter : list string) (sm : t) : t :=
  let srvs := iter in
  mk (servers sm) (SliceStable (less (servers sm)) srvs) (timeout sm).

Definition UpdateServerStatus (server : string) (st : ServerStatus.t)
    (iter : list string) (sm : t) : t * option error :=
  match servers sm !! server with
  | None => (sm, Some (ErrServerUnknown server))
  | Some _ =>
      let sm := mk (<[server := st]> (servers sm)) (serverOrder sm) (timeout sm) in
      (reorderServers iter sm, None)
  end.

(** The loop of [GetBestServer] over the ranking: the first address whose
    status is reachable.  [sm.servers[server].Reachable] panics on an
    address missing from the map. *)
Fixpoint firstReachable (m : gmap string ServerStatus.t) (order : list string)
    : outcome (option string) :=
  match order with
  | [] => Returns None
  | server :: rest =>
      match m !! server with
      | None => Panics
      | Some st =>
          if ServerStatus.Reachable st then Returns (Some server)
          else firstReachable m rest
      end
  end.

Definition GetBestServer (sm : t) : outcome (result string) :=
  match serverOrder sm with
  | [] => Returns (Err ErrNoServerAvailable)
  | first :: _ =>
      match firstReachable (servers sm) (serverOrder sm) with
      | Panics => Panics
      | Returns (Some server) => Returns (Ok server)
      | Returns None => Returns (Ok first)
      end
  end.

End ServerManager.

(* ===================================================================== *)
(** ** ntpsync.go: the client *)
(* ===================================================================== *)

(** [stopChan] carries no values; it is only ever open or closed. *)
Inductive chanState : Type := chanOpen | chanClosed.

(** The goroutines the client starts. *)
Inductive goroutine : Type :=
| goInitialSync
| goPeriodicSyncLoop
| goSyncLoop.

Module Options.
Record t := mk {
  Servers : list string;
  Timeout : Duration;
  SyncInterval : Duration;
  AutoSync : bool;
  EnableMultiServer : bool
}.
End Options.

Module NTPSync.
Record t := mk {
  Servers : list string;
  Timeout : Duration;
  SyncInterval : Duration;
  TimeOffset : Duration;
  LastSync : Time;
  AutoSync : bool;
  stopChan : chanState;
  syncWaitGroup : Z;
  serverManager : option ServerManager.t;
  lastError : option error;
  successCount : Z;
  errorCount : Z
}.

Definition set_Servers (v : list string) (n : t) : t :=
  mk v (Timeout n) (SyncInterval n) (TimeOffset n) (LastSync n) (AutoSync n)
     (stopChan n) (syncWaitGroup n) (serverManager n) (lastError n)
     (successCount n) (errorCount n).

Definition set_Timeout (v : Duration) (n : t) : t :=
  mk (Servers n) v (SyncInterval n) (TimeOffset n) (LastSync n) (AutoSync n)
     (stopChan n) (syncWaitGroup n) (serverManager n) (lastError n)
     (successCount n) (errorCount n).

Definition set_SyncInterval (v : Duration) (n : t) : t :=
  mk (Servers n) (Timeout n) v (TimeOffset n) (LastSync n) (AutoSync n)
     (stopChan n) (syncWaitGroup n) (serverManager n) (lastError n)
     (successCount n) (errorCount n).

Definition set_TimeOffset (v : Duration) (n : t) : t :=
  mk (Servers n) (Timeout n) (SyncInterval n) v (LastSync n) (AutoSync n)
     (stopChan n) (syncWaitGroup n) (serverManager n) (lastError n)
     (successCount n) (errorCount n).

Definition set_LastSync (v : Time) (n : t) : t :=
  mk (Servers n) (Timeout n) (SyncInterval n) (TimeOffset n) v (AutoSync n)
     (stopChan n) (syncWaitGroup n) (serverManager n) (lastError n)
     (successCount n) (errorCount n).

Definition set_AutoSync (v : bool) (n : t) : t :=
  mk (Servers n) (Timeout n) (SyncInterval n) (TimeOffset n) (LastSync n) v
     (stopChan n) (syncWaitGroup n) (serverManager n) (lastError n)
     (successCount n) (errorCount n).

Definition set_stopChan (v : chanState) (n : t) : t :=
  mk (Servers n) (Timeout n) (SyncInterval n) (TimeOffset n) (LastSync n) (AutoSync n)
     v (syncWaitGroup n) (serverManager n) (lastError n)
     (successCount n) (errorCount n).

Definition set_syncWaitGroup (v : Z) (n : t) : t :=
  mk (Servers n) (Timeout n) (SyncInterval n) (TimeOffset n) (LastSync n) (AutoSync n)
     (stopChan n) v (serverManager n) (lastError n)
     (successCount n) (errorCount n).

Definition set_serverManager (v : option ServerManager.t) (n : t) : t :=
  mk (Servers n) (Timeout n) (SyncInterval n) (TimeOffset n) (LastSync n) (AutoSync n)
     (stopChan n) (syncWaitGroup n) v (lastError n)
     (successCount n) (errorCount n).

Definition set_lastError (v : option error) (n : t) : t :=
  mk (Servers n) (Timeout n) (SyncInterval n) (TimeOffset n) (LastSync n) (AutoSync n)
     (stopChan n) (syncWaitGroup n) (serverManager n) v
     (successCount n) (errorCount n).

Definition set_successCount (v : Z) (n : t) : t :=
  mk (Servers n) (Timeout n) (SyncInterval n) (TimeOffset n) (LastSync n) (AutoSync n)
     (stopChan n) (syncWaitGroup n) (serverManager n) (lastError n)
     v (errorCount n).

Definition set_errorCount (v : Z) (n : t) : t :=
  mk (Servers n) (Timeout n) (SyncInterval n) (TimeOffset n) (LastSync n) (AutoSync n)
     (stopChan n) (syncWaitGroup n) (serverManager n) (lastError n)
     (successCount n) v.
End NTPSync.

(* ===================================================================== *)
(** ** The periodic scheduler *)
(* ===================================================================== *)

(** [StartPeriodicSync].  The [select] on [stopChan] takes its first case
    only when the channel is closed.  The result lists the goroutines the
    call starts. *)
Definition StartPeriodicSync (n : NTPSync.t) : NTPSync.t * list goroutine * option error :=
  match NTPSync.stopChan n with
  | chanClosed =>
      let n := NTPSync.set_stopChan chanOpen n in
      let n := NTPSync.set_syncWaitGroup (NTPSync.syncWaitGroup n + 1) n in
      let n := NTPSync.set_AutoSync true n in
      (n, [goInitialSync; goPeriodicSyncLoop], None)
  | chanOpen => (n, [], Some ErrAlreadyRunning)
  end.

(** [StopPeriodicSync]: closing the channel makes the loop return, and
    [syncWaitGroup.Wait] returns once the loop has called [Done]. *)
Definition StopPeriodicSync (n : NTPSync.t) : NTPSync.t :=
  match NTPSync.stopChan n with
  | chanClosed => n
  | chanOpen =>
      let n := NTPSync.set_stopChan chanClosed n in
      let n := NTPSync.set_AutoSync false n in
      NTPSync.set_syncWaitGroup 0 n
  end.

Definition IsPeriodicSyncRunning (n : NTPSync.t) : bool :=
  match NTPSync.stopChan n with
  | chanClosed => false
  | chanOpen => NTPSync.AutoSync n
  end.

(** [New]: [stopChan] is made with [make(chan struct{})], an open channel. *)
Definition New (opts : Options.t) : result (NTPSync.t * list goroutine) :=
  if (length (Options.Servers opts) =? 0)%nat then Err ErrNoServersProvided
  else
    let timeout := if Options.Timeout opts <=? 0 then DefaultTimeout
                   else Options.Timeout opts in
    let syncInterval := if Options.SyncInterval opts <=? 0 then DefaultSyncInterval
                        else Options.SyncInterval opts in
    let ntp := NTPSync.mk (Options.Servers opts) timeout syncInterval 0 zeroTime
                 (Options.AutoSync opts) chanOpen 0 None None 0 0 in
    let withManager :=
      if Options.EnableMultiServer opts then
        match ServerManager.NewServerManager (Options.Servers opts) timeout with
        | Ok sm => Ok (NTPSync.set_serverManager (Some sm) ntp)
        | Err e => Err e
        end
      else Ok ntp in
    match withManager with
    | Err e => Err e
    | Ok ntp =>
        if Options.AutoSync opts then
          match StartPeriodicSync ntp with
          | (_, _, Some err) => Err err
          | (ntp, started, None) => Ok (ntp, started)
          end
        else Ok (ntp, [])
    end.

(* ===================================================================== *)
(** ** ntp_api.go *)
(* ===================================================================== *)

(** The loop of [AddServer] and [RemoveServer]: is [server] in the list? *)
Fixpoint hasServer (server : string) (l : list string) : bool :=
  match l with
  | [] => false
  | s :: rest => if String.eqb s server then true else hasServer server rest
  end.

Definition AddServer (server : string) (n : NTPSync.t) : NTPSync.t :=
  if hasServer server (NTPSync.Servers n) then n
  else NTPSync.set_Servers (NTPSync.Servers n ++ [server]) n.

Definition RemoveServer (server : string) (n : NTPSync.t) : NTPSync.t * bool :=
  if hasServer server (NTPSync.Servers n)
  then (NTPSync.set_Servers (ServerManager.removeFirst server (NTPSync.Servers n)) n, true)
  else (n, false).

Definition GetServers (n : NTPSync.t) : list string := NTPSync.Servers n.

Definition SetSyncInterval (interval : Duration) (n : NTPSync.t) : NTPSync.t :=
  NTPSync.set_SyncInterval (if interval <=? 0 then DefaultSyncInterval else interval) n.

Definition SetTimeout (timeout : Duration) (n : NTPSync.t) : NTPSync.t :=
  NTPSync.set_Timeout (if timeout <=? 0 then DefaultTimeout else timeout) n.

Definition TimeOffsetDuration (n : NTPSync.t) : Duration := NTPSync.TimeOffset n.

Definition LastSyncTime (n : NTPSync.t) : Time := NTPSync.LastSync n.

(* ===================================================================== *)
(** ** multi_server.go *)
(* ===================================================================== *)

(** The success path of every strategy:
    [n.TimeOffset = result.Offset; n.LastSync = time.Now()]. *)
Definition adopt (result : SyncResult.t) (now : Time) (n : NTPSync.t) : NTPSync.t :=
  NTPSync.set_LastSync now (NTPSync.set_TimeOffset (SyncResult.Offset result) n).

(** The loop of [SyncWithMultiServer] over the remaining servers.  [nets i]
    is what the exchange with the server at index [i] meets.  The loop
    stops at the first success; otherwise it ends with the last error.
    The third component lists the servers contacted, in order. *)
Fixpoint failover (timeout : Duration) (nets : nat -> Net (list Byte.byte))
    (i : nat) (servers : list string) (lastErr : option error)
    (contacted : list string) : option SyncResult.t * option error * list string :=
  match servers with
  | [] => (None, lastErr, contacted)
  | server :: rest =>
      match syncWithServerBinary server timeout (nets i) with
      | Err err => failover timeout nets (S i) rest (Some err) (contacted ++ [server])
      | Ok result => (Some result, lastErr, contacted ++ [server])
      end
  end.

(** [SyncWithMultiServer]; [now] is the clock reading taken on success. *)
Definition SyncWithMultiServer (n : NTPSync.t) (nets : nat -> Net (list Byte.byte))
    (now : Time) : NTPSync.t * option error * list string :=
  let servers := NTPSync.Servers n in
  let timeout := NTPSync.Timeout n in
  if (length servers =? 0)%nat then (n, Some ErrNoServersConfigured, [])
  else
    match failover timeout nets 0 servers None [] with
    | (Some result, _, contacted) => (adopt result now n, None, contacted)
    | (None, lastErr, contacted) => (n, Some (ErrAllServersFailed lastErr), contacted)
    end.

(** [SyncWithBinary] (ntp_binary.go) is the same loop; [Sync] calls it. *)
Definition SyncWithBinary (n : NTPSync.t) (nets : nat -> Net (list Byte.byte))
    (now : Time) : NTPSync.t * option error * list string :=
  let servers := NTPSync.Servers n in
  let timeout := NTPSync.Timeout n in
  if (length servers =? 0)%nat then (n, Some ErrNoServersConfigured, [])
  else
    match failover timeout nets 0 servers None [] with
    | (Some result, _, contacted) => (adopt result now n, None, contacted)
    | (None, lastErr, contacted) => (n, Some (ErrAllServersFailed lastErr), contacted)
    end.

Definition Sync := SyncWithBinary.

(** The body of [for r := range resultChan]: keep the better result. *)
Definition better (result : option SyncResult.t) (r : SyncResult.t) : option SyncResult.t :=
  match result with
  | None => Some r
  | Some cur =>
      if (SyncResult.Stratum r <? SyncResult.Stratum cur)
         || ((SyncResult.Stratum r =? SyncResult.Stratum cur)
             && (SyncResult.RTT r <? SyncResult.RTT cur))
      then Some r
      else Some cur
  end.

(** What the goroutines send on [resultChan] and on [errChan]. *)
Fixpoint sentResults (outcomes : list (result SyncResult.t)) : list SyncResult.t :=
  match outcomes with
  | [] => []
  | Ok r :: rest => r :: sentResults rest
  | Err _ :: rest => sentResults rest
  end.

Fixpoint sentErrors (outcomes : list (result SyncResult.t)) : list error :=
  match outcomes with
  | [] => []
  | Ok _ :: rest => sentErrors rest
  | Err e :: rest => e :: sentErrors rest
  end.

(** [SyncWithMultiServerParallel].  One goroutine per configured server
    runs the exchange; [completion] lists the goroutines (by index of
    their server) in the order in which they finish, which is the order
    of arrival on the two channels.  Both channels are closed only after
    every goroutine is done, so the two [range] loops see every value. *)
Definition SyncWithMultiServerParallel (n : NTPSync.t)
    (nets : nat -> Net (list Byte.byte)) (completion : list nat)
    (now : Time) : NTPSync.t * option error :=
  let servers := NTPSync.Servers n in
  let timeout := NTPSync.Timeout n in
  if (length servers =? 0)%nat then (n, Some ErrNoServersConfigured)
  else
    let outcomes :=
      map (fun i => syncWithServerBinary (nth i servers ""%string) timeout (nets i))
          completion in
    let resultChan := sentResults outcomes in
    let errChan := sentErrors outcomes in
    match fold_left better resultChan None with
    | None =>
        match fold_left (fun _ err => Some err) errChan None with
        | Some lastErr => (n, Some (ErrAllServersFailed (Some lastErr)))
        | None => (n, Some ErrAllServersFailedNoCause)
        end
    | Some result => (adopt result now n, None)
    end.

(* ===================================================================== *)
(** ** sync.go: the request packet and its wire form *)
(* ===================================================================== *)

(** Conversion to [uint8] and to [int8]. *)
Definition uint8 (x : Z) : Z := x mod 2 ^ 8.
Definition int8 (x : Z) : Z := (x + 2 ^ 7) mod 2 ^ 8 - 2 ^ 7.

(** [createNTPPacket]; [now] is its clock reading. *)
Definition createNTPPacket (now : Time) : NTPPacket.t :=
  let '(seconds, fraction) := timeToNTPTime now in
  NTPPacket.mk (uint8 (Z.lor (Z.lor (Z.shiftl 0 6) (Z.shiftl 4 3)) 3))
               0 0 0 0 0 0 0 0 0 0 0 0 seconds fraction.

(** [binary.Write(conn, binary.BigEndian, packet)]: the fields in
    declaration order, the 32-bit ones most significant byte first. *)
Definition binary_Write (p : NTPPacket.t) : list Byte.byte :=
  [byteOf (NTPPacket.Settings p); byteOf (NTPPacket.Stratum p);
   byteOf (NTPPacket.Poll p); byteOf (NTPPacket.Precision p)]
  ++ BigEndian_PutUint32 (NTPPacket.RootDelay p)
  ++ BigEndian_PutUint32 (NTPPacket.RootDispersion p)
  ++ BigEndian_PutUint32 (NTPPacket.ReferenceID p)
  ++ BigEndian_PutUint32 (NTPPacket.RefTimeSec p)
  ++ BigEndian_PutUint32 (NTPPacket.RefTimeFrac p)
  ++ BigEndian_PutUint32 (NTPPacket.OrigTimeSec p)
  ++ BigEndian_PutUint32 (NTPPacket.OrigTimeFrac p)
  ++ BigEndian_PutUint32 (NTPPacket.RxTimeSec p)
  ++ BigEndian_PutUint32 (NTPPacket.RxTimeFrac p)
  ++ BigEndian_PutUint32 (NTPPacket.TxTimeSec p)
  ++ BigEndian_PutUint32 (NTPPacket.TxTimeFrac p).

(** [binary.Read(conn, binary.BigEndian, resp)] on the 48 bytes read. *)
Definition binary_Read (buf : list Byte.byte) : NTPPacket.t :=
  NTPPacket.mk (byteAt buf 0) (byteAt buf 1)
               (int8 (byteAt buf 2)) (int8 (byteAt buf 3))
               (BigEndian_Uint32 buf 4) (BigEndian_Uint32 buf 8)
               (BigEndian_Uint32 buf 12) (BigEndian_Uint32 buf 16)
               (BigEndian_Uint32 buf 20) (BigEndian_Uint32 buf 24)
               (BigEndian_Uint32 buf 28) (BigEndian_Uint32 buf 32)
               (BigEndian_Uint32 buf 36) (BigEndian_Uint32 buf 40)
               (BigEndian_Uint32 buf 44).

(** A packet whose fields fit their Go types. *)
Definition wellTyped (p : NTPPacket.t) : Prop :=
  0 <= NTPPacket.Settings p < 2 ^ 8 /\ 0 <= NTPPacket.Stratum p < 2 ^ 8
  /\ - 2 ^ 7 <= NTPPacket.Poll p < 2 ^ 7 /\ - 2 ^ 7 <= NTPPacket.Precision p < 2 ^ 7
  /\ 0 <= NTPPacket.RootDelay p < 2 ^ 32 /\ 0 <= NTPPacket.RootDispersion p < 2 ^ 32
  /\ 0 <= NTPPacket.ReferenceID p < 2 ^ 32
  /\ 0 <= NTPPacket.RefTimeSec p < 2 ^ 32 /\ 0 <= NTPPacket.RefTimeFrac p < 2 ^ 32
  /\ 0 <= NTPPacket.OrigTimeSec p < 2 ^ 32 /\ 0 <= NTPPacket.OrigTimeFrac p < 2 ^ 32
  /\ 0 <= NTPPacket.RxTimeSec p < 2 ^ 32 /\ 0 <= NTPPacket.RxTimeFrac p < 2 ^ 32
  /\ 0 <= NTPPacket.TxTimeSec p < 2 ^ 32 /\ 0 <= NTPPacket.TxTimeFrac p < 2 ^ 32.

(** The network of the struct variant that receives the same datagram as
    [w]: [binary.Read] decodes the 48 bytes it reads. *)
Definition decoded (w : Net (list Byte.byte)) : Net NTPPacket.t :=
  mkNet (splitHostPortErr w) (dialErr w) (setDeadlineErr w) (now1 w) (writeErr w)
        (match readRes w with
         | inl err => inl err
         | inr datagram => inr (binary_Read (take 48 datagram))
         end)
        (now4 w) (nowResult w).

(* ===================================================================== *)
(** ** ntp_api.go and ntp_binary.go: status queries and the calibrated clock *)
(* ===================================================================== *)

(** [Now]; [now] is the reading of [time.Now()]. *)
Definition Now (n : NTPSync.t) (now : Time) : Time := Time_Add now (NTPSync.TimeOffset n).

(** The status a probe of [server] records: unreachable with zero fields
    on an error, otherwise the measurements of the result and the time of
    the answer.  The same block appears in [GetStatusBinary],
    [GetMultiServerStatus] and [ProbeAllServers]. *)
Definition probeStatus (server : string) (res : result SyncResult.t) (now : Time)
    : ServerStatus.t :=
  match res with
  | Err _ => ServerStatus.mk server false zeroTime 0 0 0
  | Ok r =>
      ServerStatus.mk server true now (SyncResult.RTT r) (SyncResult.Stratum r)
                      (SyncResult.Offset r)
  end.

(** The loop of [GetStatusBinary]: one status per server, in list order.
    [nows i] is the clock reading after the answer of server [i]. *)
Fixpoint statusLoop (timeout : Duration) (nets : nat -> Net (list Byte.byte))
    (nows : nat -> Time) (i : nat) (servers : list string) : list ServerStatus.t :=
  match servers with
  | [] => []
  | server :: rest =>
      probeStatus server (syncWithServerBinary server timeout (nets i)) (nows i)
      :: statusLoop timeout nets nows (S i) rest
  end.

Definition GetStatusBinary (n : NTPSync.t) (nets : nat -> Net (list Byte.byte))
    (nows : nat -> Time) : result (list ServerStatus.t) :=
  let servers := NTPSync.Servers n in
  let timeout := NTPSync.Timeout n in
  if (length servers =? 0)%nat then Err ErrNoServersConfigured
  else Ok (statusLoop timeout nets nows 0 servers).

Definition GetStatus := GetStatusBinary.

(** [GetMultiServerStatus]: one goroutine per server sends its status on
    [statusChan]; [completion] is the order in which they arrive. *)
Definition GetMultiServerStatus (n : NTPSync.t) (nets : nat -> Net (list Byte.byte))
    (nows : nat -> Time) (completion : list nat) : result (list ServerStatus.t) :=
  let servers := NTPSync.Servers n in
  let timeout := NTPSync.Timeout n in
  if (length servers =? 0)%nat then Err ErrNoServersConfigured
  else
    Ok (map (fun i =>
               let server := nth i servers ""%string in
               probeStatus server (syncWithServerBinary server timeout (nets i)) (nows i))
            completion).

(* ===================================================================== *)
(** ** The scheduler: counters, forced sync, the loop, the older API *)
(* ===================================================================== *)

Module PeriodicSyncStatus.
Record t := mk {
  Running : bool;
  LastSync : Time;
  LastError : option error;
  Interval : Duration;
  SuccessCount : Z;
  ErrorCount : Z
}.
End PeriodicSyncStatus.

(** [ForceSyncNow]: [now] is the reading [Sync] takes when it adopts a
    result, [now'] the one taken afterwards for [LastSync].  The counters
    are [int64] values incremented with [atomic.AddInt64]. *)
Definition ForceSyncNow (n : NTPSync.t) (nets : nat -> Net (list Byte.byte))
    (now now' : Time) : NTPSync.t * option error :=
  let '(n, err, _) := Sync n nets now in
  match err with
  | Some e =>
      let n := NTPSync.set_errorCount (add64 (NTPSync.errorCount n) 1) n in
      (NTPSync.set_lastError (Some e) n, Some e)
  | None =>
      let n := NTPSync.set_successCount (add64 (NTPSync.successCount n) 1) n in
      (NTPSync.set_LastSync now' n, None)
  end.

(** One firing of the timer in [periodicSyncLoop]: what the network and
    the clock do during that iteration. *)
Record Tick := mkTick {
  tickNets : nat -> Net (list Byte.byte);
  tickNow : Time;
  tickNow' : Time
}.

(** [periodicSyncLoop], run on its own: one iteration per firing of the
    timer, then the stop signal, on which the loop returns and the
    deferred [syncWaitGroup.Done] runs.  Failures are recorded, never
    returned. *)
Fixpoint periodicSyncLoop (ticks : list Tick) (n : NTPSync.t) : NTPSync.t :=
  match ticks with
  | [] => NTPSync.set_syncWaitGroup (NTPSync.syncWaitGroup n - 1) n
  | tick :: rest =>
      let '(n, err, _) := Sync n (tickNets tick) (tickNow tick) in
      let n :=
        match err with
        | Some e =>
            let n := NTPSync.set_errorCount (add64 (NTPSync.errorCount n) 1) n in
            NTPSync.set_lastError (Some e) n
        | None =>
            let n := NTPSync.set_successCount (add64 (NTPSync.successCount n) 1) n in
            NTPSync.set_LastSync (tickNow' tick) n
        end in
      periodicSyncLoop rest n
  end.

Definition GetPeriodicSyncStatus (n : NTPSync.t) : PeriodicSyncStatus.t :=
  PeriodicSyncStatus.mk (IsPeriodicSyncRunning n) (NTPSync.LastSync n)
    (NTPSync.lastError n) (NTPSync.SyncInterval n)
    (NTPSync.successCount n) (NTPSync.errorCount n).

Definition SetPeriodicSyncInterval (interval : Duration) (n : NTPSync.t) : NTPSync.t :=
  NTPSync.set_SyncInterval (if interval <=? 0 then DefaultSyncInterval else interval) n.

Definition GetPeriodicSyncInterval (n : NTPSync.t) : Duration := NTPSync.SyncInterval n.

(** [Start], [Stop] and [IsRunning]: the older API on the same channel
    and wait group; its loop and initial sync keep no counters. *)
Definition Start (n : NTPSync.t) : NTPSync.t * list goroutine * option error :=
  match NTPSync.stopChan n with
  | chanClosed =>
      let n := NTPSync.set_stopChan chanOpen n in
      let n := NTPSync.set_syncWaitGroup (NTPSync.syncWaitGroup n + 1) n in
      let n := NTPSync.set_AutoSync true n in
      (n, [goInitialSync; goSyncLoop], None)
  | chanOpen => (n, [], Some ErrAlreadyRunning)
  end.

Definition Stop (n : NTPSync.t) : NTPSync.t :=
  match NTPSync.stopChan n with
  | chanClosed => n
  | chanOpen =>
      let n := NTPSync.set_stopChan chanClosed n in
      let n := NTPSync.set_AutoSync false n in
      NTPSync.set_syncWaitGroup 0 n
  end.

Definition IsRunning (n : NTPSync.t) : bool :=
  match NTPSync.stopChan n with
  | chanClosed => false
  | chanOpen => NTPSync.AutoSync n
  end.

(** The calls that start and stop the scheduler, for sequences of them. *)
Inductive schedulerCall : Type :=
| callStartPeriodicSync
| callStopPeriodicSync
| callStart
| callStop.

Definition call (c : schedulerCall) (n : NTPSync.t) : NTPSync.t :=
  match c with
  | callStartPeriodicSync => fst (fst (StartPeriodicSync n))
  | callStopPeriodicSync => StopPeriodicSync n
  | callStart => fst (fst (Start n))
  | callStop => Stop n
  end.

(** The goroutines a call starts. *)
Definition started (c : schedulerCall) (n : NTPSync.t) : list goroutine :=
  match c with
  | callStartPeriodicSync => snd (fst (StartPeriodicSync n))
  | callStart => snd (fst (Start n))
  | callStopPeriodicSync | callStop => []
  end.

(* ===================================================================== *)
(** ** The server manager: probing every server *)
(* ===================================================================== *)

(** The errors of [ProbeAllServers]. *)
Inductive probeError : Type :=
| ErrProbeNoServers
| ErrAllUnreachable (lastErr : error)
| ErrAllUnreachableNoCause.

(** The final loop of [ProbeAllServers] over the ranking: is some server
    reachable?  A missing address is a nil dereference. *)
Fixpoint anyReachable (m : gmap string ServerStatus.t) (order : list string) : outcome bool :=
  match order with
  | [] => Returns false
  | server :: rest =>
      match m !! server with
      | None => Panics
      | Some st => if ServerStatus.Reachable st then Returns true else anyReachable m rest
      end
  end.

(** What the goroutine of index [j] does to the manager: it probes its
    server and stores the status; the error of [UpdateServerStatus] is
    dropped.  [iters j] is the order in which the range over the map
    yields the addresses during that update. *)
Definition probeUpdate (servers : list string) (timeout : Duration)
    (nets : nat -> Net (list Byte.byte)) (nows : nat -> Time)
    (iters : nat -> list string) (sm : ServerManager.t) (j : nat) : ServerManager.t :=
  let server := nth j servers ""%string in
  let result := syncWithServerBinary server timeout (nets j) in
  fst (ServerManager.UpdateServerStatus server (probeStatus server result (nows j))
         (iters j) sm).

(** [ProbeAllServers].  One goroutine per address of the ranking.
    [errOrder] is the order in which the goroutines reach the write of
    [lastErr], [updOrder] the order in which they take the manager's lock
    for their update; both list every goroutine once. *)
Definition ProbeAllServers (sm : ServerManager.t) (nets : nat -> Net (list Byte.byte))
    (nows : nat -> Time) (iters : nat -> list string) (errOrder updOrder : list nat)
    : outcome (ServerManager.t * option probeError) :=
  let servers := ServerManager.serverOrder sm in
  let timeout := ServerManager.timeout sm in
  if (length servers =? 0)%nat then Returns (sm, Some ErrProbeNoServers)
  else
    let lastErr :=
      fold_left (fun lastErr j =>
                   match syncWithServerBinary (nth j servers ""%string) timeout (nets j) with
                   | Err err => Some err
                   | Ok _ => lastErr
                   end) errOrder None in
    let sm := fold_left (probeUpdate servers timeout nets nows iters) updOrder sm in
    match anyReachable (ServerManager.servers sm) (ServerManager.serverOrder sm) with
    | Panics => Panics
    | Returns true => Returns (sm, None)
    | Returns false =>
        match lastErr with
        | Some err => Returns (sm, Some (ErrAllUnreachable err))
        | None => Returns (sm, Some ErrAllUnreachableNoCause)
        end
    end.

(* ===================================================================== *)
(** ** Vocabulary of the statements *)
(* ===================================================================== *)

(** A time sent through [timeToNTPTime] and back through [ntpTimeToTime]. *)
Definition roundTrip (t : Time) : Time :=
  let '(seconds, fraction) := timeToNTPTime t in
  ntpTimeToTime seconds fraction.

(** The response buffer after [conn.Read], and the server's receive and
    transmit times as the exchange decodes them from it. *)
Definition respBuffer (datagram : list Byte.byte) : list Byte.byte :=
  fst (conn_Read datagram).

Definition rxTime (respBytes : list Byte.byte) : Time :=
  ntpTimeToTime (BigEndian_Uint32 respBytes 32) (BigEndian_Uint32 respBytes 36).

Definition txTime (respBytes : list Byte.byte) : Time :=
  ntpTimeToTime (BigEndian_Uint32 respBytes 40) (BigEndian_Uint32 respBytes 44).

(** The exchange a strategy runs with the server at index [i] of the
    client's list. *)
Definition attempt (n : NTPSync.t) (nets : nat -> Net (list Byte.byte)) (i : nat)
    : result SyncResult.t :=
  syncWithServerBinary (nth i (NTPSync.Servers n) ""%string) (NTPSync.Timeout n) (nets i).

(** The exchange [w] gets as far as computing a round-trip time, and
    computes [rtt]: nothing fails on the network, the response fills the
    buffer and its stratum is not zero. *)
Definition computesRTT (w : Net (list Byte.byte)) (rtt : Duration) : Prop :=
  dialErr w = None /\ setDeadlineErr w = None /\ writeErr w = None
  /\ exists datagram,
       readRes w = inr datagram /\ (48 <= length datagram)%nat
       /\ byteAt (respBuffer datagram) 1 <> 0
       /\ rtt = exchangeRTT (now1 w) (rxTime (respBuffer datagram))
                            (txTime (respBuffer datagram)) (now4 w).

(** A difference of two instants below [2^62] ns (about 146 years): sums
    and differences of two such values fit a [Duration]. *)
Definition moderate (d : Z) : Prop := - 2 ^ 62 < d < 2 ^ 62.

(** [a] ranks at least as well as [b] in the parallel race: lower stratum
    first, then lower round-trip time. *)
Definition ranksFirst (a b : SyncResult.t) : Prop :=
  SyncResult.Stratum a < SyncResult.Stratum b
  \/ (SyncResult.Stratum a = SyncResult.Stratum b /\ SyncResult.RTT a <= SyncResult.RTT b).

(** The round trip is within [2^-32] s when the error in nanoseconds,
    times [2^32], stays below [10^9]. *)
Definition roundTripWithinResolution (t : Time) : Prop :=
  Z.abs (wall (roundTrip t) - wall t) * 2 ^ 32 < 10 ^ 9.

(** The scheduler fields of a client are in one of two shapes: running
    (open channel, [AutoSync] set, one loop in the wait group) or stopped
    ([AutoSync] clear, no loop). *)
Definition schedulerShape (n : NTPSync.t) : Prop :=
  (NTPSync.stopChan n = chanOpen /\ NTPSync.AutoSync n = true
   /\ NTPSync.syncWaitGroup n = 1)
  \/ (NTPSync.AutoSync n = false /\ NTPSync.syncWaitGroup n = 0).

(** The two halves of a manager agree: the ranking lists the addresses of
    the map, each once. *)
Definition consistent (sm : ServerManager.t) : Prop :=
  ServerManager.mapRange (ServerManager.servers sm) (ServerManager.serverOrder sm).

(** Every status of the map is unreachable. *)
Definition allUnreachable (m : gmap string ServerStatus.t) : Prop :=
  forall a st, m !! a = Some st -> ServerStatus.Reachable st = false.

(* ===================================================================== *)
(** ** Sample data *)
(* ===================================================================== *)

(** 2036-02-07T06:28:16Z, the first instant whose NTP seconds need 33 bits. *)
Definition era1 : Time := mkTime (2085978496 * 1000000000) None.

(** A well-formed 48-byte server response (leap 0, version 4, mode 4)
    with the given stratum and receive and transmit timestamps. *)
Definition response (stratum : Z) (rxSec rxFrac txSec txFrac : Z) : list Byte.byte :=
  [Byte.x24; byteOf stratum] ++ replicate 30 Byte.x00
  ++ BigEndian_PutUint32 rxSec ++ BigEndian_PutUint32 rxFrac
  ++ BigEndian_PutUint32 txSec ++ BigEndian_PutUint32 txFrac.

(** An exchange with nothing failing on the network: sent at [t1],
    answered by [datagram], received at [t4]. *)
Definition delivered (t1 t4 : Time) (datagram : list Byte.byte) : Net (list Byte.byte) :=
  mkNet true None None t1 None (inr datagram) t4 t4.

(** An exchange whose connection attempt fails. *)
Definition unreachable : Net (list Byte.byte) :=
  mkNet true (Some "i/o timeout"%string) None zeroTime None (inl "unused"%string)
        zeroTime zeroTime.

(** Local clock readings around 2020-01-01T00:00:00Z: wall-clock
    nanoseconds after that instant, with a monotonic reading. *)
Definition at2020 (ns : Z) (m : Z) : Time :=
  mkTime (1577836800 * 1000000000 + ns) (Some m).

(** A stratum-2 server that receives and answers at 00:00:00.5, asked at
    00:00:00.0 and heard at 00:00:00.1 on the local clock. *)
Definition sampleResponse : list Byte.byte :=
  response 2 3786825600 0x80000000 3786825600 0x80000000.

Definition sampleNet : Net (list Byte.byte) :=
  delivered (at2020 0 5000000000) (at2020 100000000 5100000000) sampleResponse.

Definition sampleResult : SyncResult.t :=
  SyncResult.mk "pool.ntp.org:123" (at2020 550000000 5550000000)
                450000000 100000000 2 None.

(** The same exchange with a server that announces stratum 16. *)
Definition stratum16Net : Net (list Byte.byte) :=
  delivered (at2020 0 5000000000) (at2020 100000000 5100000000)
            (response 16 3786825600 0x80000000 3786825600 0x80000000).

Definition stratum16Result : SyncResult.t :=
  SyncResult.mk "pool.ntp.org:123" (at2020 550000000 5550000000)
                450000000 100000000 16 None.

(** The sample exchange while the wall clock is set back: the answer is
    heard 0.1 s after the request on the monotonic clock, and at
    23:59:59.0, one second before the request, on the wall clock. *)
Definition steppedNet : Net (list Byte.byte) :=
  delivered (at2020 0 5000000000) (at2020 (- 1000000000) 5100000000) sampleResponse.

Definition steppedResult : SyncResult.t :=
  SyncResult.mk "pool.ntp.org:123" (at2020 0 6100000000)
                1000000000 100000000 2 None.

(** The sample exchange on a machine whose clock shows
    2200-01-01T00:00:00Z, 180 years ahead of the server. *)
Definition farClockNet : Net (list Byte.byte) :=
  delivered (mkTime (7258118400 * 1000000000) (Some 5000000000))
            (mkTime (7258118400 * 1000000000 + 100000000) (Some 5100000000))
            sampleResponse.

Definition farClockResult : SyncResult.t :=
  SyncResult.mk "pool.ntp.org:123"
                (mkTime 10801208837404775808 (Some 3543090442404775808))
                3543090437304775808 100000000 2 None.

(** A server whose transmit time is 0.5 s after its receive time although
    the local clock saw only 0.1 s pass: the computed RTT is -0.4 s. *)
Definition negativeRTTNet : Net (list Byte.byte) :=
  delivered (at2020 0 5000000000) (at2020 100000000 5100000000)
            (response 2 3786825600 0 3786825600 0x80000000).

(** A client as [New] builds it for the given servers. *)
Definition client (servers : list string) : NTPSync.t :=
  NTPSync.mk servers DefaultTimeout DefaultSyncInterval 0 zeroTime false chanOpen 0
             None None 0 0.

(** The network seen by a client whose first server is unreachable and
    whose other servers answer like the sample. *)
Definition firstDown (i : nat) : Net (list Byte.byte) :=
  match i with
  | O => unreachable
  | S _ => sampleNet
  end.

(** The clock reading a strategy takes when it adopts a result. *)
Definition adoptionTime : Time := at2020 100001000 5100001000.

(** A stratum-2 answer with RTT 10 ms and a stratum-1 answer with RTT
    90 ms, for a parallel race between two servers. *)
Definition raceNets (i : nat) : Net (list Byte.byte) :=
  match i with
  | O => delivered (at2020 0 5000000000) (at2020 10000000 5010000000)
                   (response 2 3786825600 0x80000000 3786825600 0x80000000)
  | S _ => delivered (at2020 0 5000000000) (at2020 90000000 5090000000)
                     (response 1 3786825600 0x80000000 3786825600 0x80000000)
  end.

Definition raceWinner : SyncResult.t :=
  SyncResult.mk "b.example:123" (at2020 545000000 5545000000)
                455000000 90000000 1 None.

(** The options of a client for one server, without automatic sync. *)
Definition plainOptions : Options.t :=
  Options.mk ["pool.ntp.org"%string] 0 0 false false.

(** The manager [NewServerManager] builds for two servers. *)
Definition managerAB : ServerManager.t :=
  ServerManager.mk
    (<["b.example"%string := ServerStatus.fresh "b.example"]>
       (<["a.example"%string := ServerStatus.fresh "a.example"]> ∅))
    ["a.example"; "b.example"]%string DefaultTimeout.

(* ===================================================================== *)
(** * Theorems *)
(* ===================================================================== *)


(* ===================================================================== *)
(** ** Machine arithmetic *)
(* ===================================================================== *)

Lemma int64_small (x : Z) : - 2 ^ 63 <= x < 2 ^ 63 -> int64 x = x.
Proof.
  intros Hx. unfold int64.
  rewrite Z.mod_small by lia. lia.
Qed.

Lemma int64_range (x : Z) : - 2 ^ 63 <= int64 x < 2 ^ 63.
Proof.
  unfold int64.
  pose proof (Z.mod_pos_bound (x + 2 ^ 63) (2 ^ 64) ltac:(lia)). lia.
Qed.

Lemma uint32_small (x : Z) : 0 <= x < 2 ^ 32 -> uint32 x = x.
Proof. intros Hx. unfold uint32. apply Z.mod_small. lia. Qed.

Lemma uint32_range (x : Z) : 0 <= uint32 x < 2 ^ 32.
Proof. unfold uint32. apply Z.mod_pos_bound. lia. Qed.

(** Truncating a wrapped 64-bit value to 32 bits forgets the wrap. *)
Lemma uint32_int64 (x : Z) : uint32 (int64 x) = uint32 x.
Proof.
  unfold uint32, int64.
  rewrite (Z.mod_eq (x + 2 ^ 63) (2 ^ 64)) by lia.
  replace (x + 2 ^ 63 - 2 ^ 64 * ((x + 2 ^ 63) / 2 ^ 64) - 2 ^ 63)
    with (x + (- ((x + 2 ^ 63) / 2 ^ 64) * 2 ^ 32) * 2 ^ 32) by lia.
  apply Z.mod_add. lia.
Qed.

Lemma saturate_small (d : Z) : - 2 ^ 63 <= d < 2 ^ 63 -> saturate d = d.
Proof.
  intros Hd. unfold saturate, minDuration, maxDuration.
  destruct (Z.ltb_spec d (- 2 ^ 63)); [lia|].
  destruct (Z.ltb_spec (2 ^ 63 - 1) d); [lia|]. reflexivity.
Qed.

Lemma Time_Nanosecond_range (t : Time) : 0 <= Time_Nanosecond t < 1000000000.
Proof. unfold Time_Nanosecond. apply Z.mod_pos_bound. lia. Qed.

Lemma wall_split (t : Time) :
  wall t = Time_Unix t * 1000000000 + Time_Nanosecond t.
Proof.
  unfold Time_Unix, Time_Nanosecond.
  pose proof (Z.div_mod (wall t) 1000000000 ltac:(lia)). lia.
Qed.

(* ===================================================================== *)
(** ** Timestamp conversion *)
(* ===================================================================== *)

(** The fraction never overflows: the product stays below [2^62]. *)
Lemma timeToNTPTime_fraction (t : Time) :
  snd (timeToNTPTime t) = Time_Nanosecond t * 2 ^ 32 / 10 ^ 9
  /\ 0 <= snd (timeToNTPTime t) < 2 ^ 32.
Proof.
  pose proof (Time_Nanosecond_range t) as Hns.
  unfold timeToNTPTime, div64, mul64. cbn [snd].
  set (ns := Time_Nanosecond t) in *.
  change 0x100000000 with (2 ^ 32). change 1000000000 with (10 ^ 9) in *.
  rewrite (int64_small (ns * 2 ^ 32)) by lia.
  rewrite Z.quot_div_nonneg by lia.
  assert (Hq : 0 <= ns * 2 ^ 32 / 10 ^ 9 < 2 ^ 32).
  { split.
    - apply Z.div_pos; lia.
    - apply Z.div_lt_upper_bound; lia. }
  rewrite int64_small by lia.
  rewrite uint32_small by lia. auto.
Qed.

Lemma timeToNTPTime_seconds (t : Time) :
  fst (timeToNTPTime t) = (Time_Unix t + 2208988800) mod 2 ^ 32.
Proof.
  unfold timeToNTPTime, add64, ntpEpoch. cbn [fst].
  apply uint32_int64.
Qed.

(** C6, as stated, fails: at 2036-02-07T06:28:16Z the function returns
    seconds 0, not unix seconds + 2208988800 = 4294967296. *)
Lemma C6_seconds_wrap_counterexample :
  ~ (forall t : Time,
       timeToNTPTime t
       = (Time_Unix t + 2208988800, Time_Nanosecond t * 2 ^ 32 / 10 ^ 9)).
Proof.
  intros H. specialize (H era1). vm_compute in H. discriminate H.
Qed.

(** C6, amended: [timeToNTPTime t] returns seconds = (unix seconds of [t] +
    2208988800) reduced modulo 2^32, which is unix seconds + 2208988800
    itself whenever that sum fits 32 bits, and fraction = nanoseconds of
    [t] times 2^32 divided by 10^9, truncated.  2020-01-01T00:00:00Z maps
    to (3786825600, 0) and 2020-01-01T00:00:00.5Z to fraction 0x80000000. *)
Theorem C6_timeToNTPTime_value :
  (forall t : Time,
     timeToNTPTime t
     = ((Time_Unix t + 2208988800) mod 2 ^ 32, Time_Nanosecond t * 2 ^ 32 / 10 ^ 9)
     /\ (0 <= Time_Unix t + 2208988800 < 2 ^ 32 ->
         fst (timeToNTPTime t) = Time_Unix t + 2208988800))
  /\ timeToNTPTime (mkTime (1577836800 * 1000000000) None) = (3786825600, 0)
  /\ snd (timeToNTPTime (mkTime (1577836800 * 1000000000 + 500000000) None)) = 0x80000000.
Proof.
  split; [|split; reflexivity].
  intros t.
  pose proof (timeToNTPTime_seconds t) as Hs.
  pose proof (timeToNTPTime_fraction t) as [Hf _].
  split.
  - rewrite (surjective_pairing (timeToNTPTime t)), Hs, Hf. reflexivity.
  - intros Hr. rewrite Hs. apply Z.mod_small. lia.
Qed.

Lemma C6_timeToNTPTime_value_witness :
  0 <= Time_Unix (mkTime (1577836800 * 1000000000) None) + 2208988800 < 2 ^ 32
  /\ fst (timeToNTPTime (mkTime (1577836800 * 1000000000) None))
     = Time_Unix (mkTime (1577836800 * 1000000000) None) + 2208988800.
Proof.
  assert (Hr : 0 <= Time_Unix (mkTime (1577836800 * 1000000000) None) + 2208988800 < 2 ^ 32)
    by (vm_compute; split; [discriminate | reflexivity]).
  split; [exact Hr|].
  exact (proj2 (proj1 C6_timeToNTPTime_value (mkTime (1577836800 * 1000000000) None)) Hr).
Defined.

(** The nanoseconds survive the round trip up to one unit, downwards. *)
Lemma fraction_round_trip (ns : Z) :
  0 <= ns < 10 ^ 9 ->
  let f := ns * 2 ^ 32 / 10 ^ 9 in
  ns - 1 <= f * 10 ^ 9 / 2 ^ 32 <= ns /\ 0 <= f * 10 ^ 9 / 2 ^ 32.
Proof.
  intros Hns f.
  assert (Hf1 : f * 10 ^ 9 <= ns * 2 ^ 32).
  { unfold f. rewrite Z.mul_comm. apply Z.mul_div_le. lia. }
  assert (Hf2 : ns * 2 ^ 32 < (f + 1) * 10 ^ 9).
  { unfold f. pose proof (Z.mod_pos_bound (ns * 2 ^ 32) (10 ^ 9) ltac:(lia)).
    pose proof (Z.div_mod (ns * 2 ^ 32) (10 ^ 9) ltac:(lia)). lia. }
  assert (Hf0 : 0 <= f) by (unfold f; apply Z.div_pos; lia).
  repeat split.
  - apply Z.div_le_lower_bound; lia.
  - apply Z.div_le_upper_bound; lia.
  - apply Z.div_pos; lia.
Qed.

Lemma roundTrip_wall (t : Time) :
  wall (roundTrip t)
  = (Time_Unix t mod 2 ^ 32) * 10 ^ 9
    + (Time_Nanosecond t * 2 ^ 32 / 10 ^ 9) * 10 ^ 9 / 2 ^ 32.
Proof.
  pose proof (timeToNTPTime_seconds t) as Hs.
  pose proof (timeToNTPTime_fraction t) as [Hf Hfr].
  pose proof (Time_Nanosecond_range t) as Hns.
  unfold roundTrip.
  rewrite (surjective_pairing (timeToNTPTime t)), Hs.
  set (f := snd (timeToNTPTime t)) in *.
  unfold ntpTimeToTime, time_Unix, div64, mul64, ntpEpoch. cbn [wall].
  change 0x100000000 with (2 ^ 32). change 1000000000 with (10 ^ 9) in *.
  rewrite (int64_small (f * 10 ^ 9)) by lia.
  rewrite Z.quot_div_nonneg by lia.
  assert (Hq : 0 <= f * 10 ^ 9 / 2 ^ 32 < 10 ^ 9).
  { split; [apply Z.div_pos; lia | apply Z.div_lt_upper_bound; lia]. }
  rewrite int64_small by lia.
  rewrite Hf. f_equal. f_equal.
  unfold uint32. rewrite Zminus_mod_idemp_l.
  f_equal. lia.
Qed.

(** C3, as stated, fails twice.  The instant one nanosecond after the Unix
    epoch comes back as the epoch itself, an error of 1 ns, more than
    [2^-32] s.  The instant one second before the Unix epoch comes back
    [2^32] seconds later. *)
Lemma C3_round_trip_counterexample :
  ~ roundTripWithinResolution (mkTime 1 None)
  /\ wall (roundTrip (mkTime 1 None)) = 0
  /\ ~ roundTripWithinResolution (mkTime (- 1000000000) None)
  /\ wall (roundTrip (mkTime (- 1000000000) None)) = (2 ^ 32 - 1) * 1000000000.
Proof.
  unfold roundTripWithinResolution.
  repeat split; try (vm_compute; congruence).
Qed.

(** C3, amended: for every instant from 1970-01-01T00:00:00Z up to (not
    including) 2106-02-07T06:28:16Z, that is with unix seconds in
    [0, 2^32), the round trip gives back the same second and a nanosecond
    count that is the original one or one less: the result is never later
    than the original and at most 1 ns earlier. *)
Theorem C3_round_trip_within_1ns (t : Time) :
  0 <= Time_Unix t < 2 ^ 32 ->
  wall t - 1 <= wall (roundTrip t) <= wall t
  /\ Time_Unix (roundTrip t) = Time_Unix t.
Proof.
  intros Hu.
  pose proof (Time_Nanosecond_range t) as Hns.
  pose proof (fraction_round_trip (Time_Nanosecond t) Hns) as Hrt. cbv zeta in Hrt.
  pose proof (roundTrip_wall t) as Hw.
  rewrite Z.mod_small in Hw by lia.
  pose proof (wall_split t) as Ht.
  change 1000000000 with (10 ^ 9) in *.
  split; [lia|].
  unfold Time_Unix at 1. rewrite Hw.
  change 1000000000 with (10 ^ 9).
  rewrite Z.add_comm, Z.div_add by lia.
  rewrite Z.div_small by lia. lia.
Qed.

Lemma C3_round_trip_within_1ns_witness :
  0 <= Time_Unix (mkTime 1577836800123456789 None) < 2 ^ 32
  /\ wall (mkTime 1577836800123456789 None) - 1
     <= wall (roundTrip (mkTime 1577836800123456789 None))
     <= wall (mkTime 1577836800123456789 None).
Proof.
  assert (Hr : 0 <= Time_Unix (mkTime 1577836800123456789 None) < 2 ^ 32)
    by (vm_compute; split; [discriminate | reflexivity]).
  split; [exact Hr|].
  exact (proj1 (C3_round_trip_within_1ns (mkTime 1577836800123456789 None) Hr)).
Defined.

(* ===================================================================== *)
(** ** The exchange *)
(* ===================================================================== *)

Lemma byteAt_range (buf : list Byte.byte) (i : nat) : 0 <= byteAt buf i < 256.
Proof.
  unfold byteAt. pose proof (Byte.to_N_bounded (nth i buf Byte.x00)). lia.
Qed.

Lemma lor_below (n a b : Z) :
  0 <= n -> 0 <= a < 2 ^ n -> 0 <= b < 2 ^ n -> 0 <= Z.lor a b < 2 ^ n.
Proof.
  intros Hn Ha Hb.
  assert (H0 : 0 <= Z.lor a b) by (apply Z.lor_nonneg; lia).
  split; [exact H0|].
  destruct (Z.eq_dec a 0) as [-> | Ha0]; [rewrite Z.lor_0_l; lia|].
  destruct (Z.eq_dec b 0) as [-> | Hb0]; [rewrite Z.lor_0_r; lia|].
  destruct (Z.eq_dec (Z.lor a b) 0) as [-> | Hl0]; [lia|].
  apply Z.log2_lt_pow2; [lia|].
  rewrite Z.log2_lor by lia.
  apply Z.max_lub_lt; apply Z.log2_lt_pow2; lia.
Qed.

Lemma BigEndian_Uint32_range (buf : list Byte.byte) (i : nat) :
  0 <= BigEndian_Uint32 buf i < 2 ^ 32.
Proof.
  unfold BigEndian_Uint32.
  pose proof (byteAt_range buf i).
  pose proof (byteAt_range buf (i + 1)).
  pose proof (byteAt_range buf (i + 2)).
  pose proof (byteAt_range buf (i + 3)).
  rewrite !Z.shiftl_mul_pow2 by lia.
  repeat apply lor_below; lia.
Qed.

(** The decoded server times lie between 1970 and 2106 and carry no
    monotonic reading. *)
Lemma ntpTimeToTime_range (seconds fraction : Z) :
  0 <= fraction < 2 ^ 32 ->
  0 <= wall (ntpTimeToTime seconds fraction) < 2 ^ 32 * 10 ^ 9
  /\ mono (ntpTimeToTime seconds fraction) = None.
Proof.
  intros Hf.
  unfold ntpTimeToTime, time_Unix, div64, mul64. cbn [wall mono].
  pose proof (uint32_range (seconds - ntpEpoch)) as Hs.
  change 0x100000000 with (2 ^ 32). change 1000000000 with (10 ^ 9).
  rewrite (int64_small (fraction * 10 ^ 9)) by lia.
  rewrite Z.quot_div_nonneg by lia.
  assert (Hq : 0 <= fraction * 10 ^ 9 / 2 ^ 32 < 10 ^ 9).
  { split; [apply Z.div_pos; lia | apply Z.div_lt_upper_bound; lia]. }
  rewrite int64_small by lia.
  split; [nia | reflexivity].
Qed.

Lemma conn_Read_full (datagram : list Byte.byte) :
  (snd (conn_Read datagram) =? 48) = true <-> (48 <= length datagram)%nat.
Proof.
  unfold conn_Read. cbn [snd]. rewrite Z.eqb_eq. lia.
Qed.

(** What a successful exchange went through. *)
Lemma syncWithServerBinary_Ok (server : string) (timeout : Duration)
    (w : Net (list Byte.byte)) (r : SyncResult.t) :
  syncWithServerBinary server timeout w = Ok r ->
  exists datagram,
    readRes w = inr datagram
    /\ (48 <= length datagram)%nat
    /\ byteAt (respBuffer datagram) 1 <> 0
    /\ 0 <= exchangeRTT (now1 w) (rxTime (respBuffer datagram))
                        (txTime (respBuffer datagram)) (now4 w)
    /\ SyncResult.Offset r
       = exchangeOffset (now1 w) (rxTime (respBuffer datagram))
                        (txTime (respBuffer datagram)) (now4 w)
    /\ SyncResult.RTT r
       = exchangeRTT (now1 w) (rxTime (respBuffer datagram))
                     (txTime (respBuffer datagram)) (now4 w)
    /\ SyncResult.Stratum r = byteAt (respBuffer datagram) 1.
Proof.
  unfold syncWithServerBinary.
  destruct (dialErr w); [discriminate|].
  destruct (setDeadlineErr w); [discriminate|].
  destruct (writeErr w); [discriminate|].
  destruct (readRes w) as [err | datagram]; [discriminate|].
  pose proof (conn_Read_full datagram) as Hfull.
  destruct (conn_Read datagram) as [respBytes bytesRead] eqn:Hread.
  cbn [fst snd] in Hfull.
  destruct (bytesRead =? 48); [|discriminate]. cbn [negb].
  destruct (Z.eqb_spec (byteAt respBytes 1) 0) as [|Hst]; [discriminate|].
  match goal with |- context [?x <? 0] => destruct (Z.ltb_spec x 0) as [|Hrtt] end;
    [discriminate|].
  intros [= <-]. exists datagram.
  unfold respBuffer, rxTime, txTime. rewrite Hread. cbn.
  repeat split; try assumption; try reflexivity.
  apply Hfull. reflexivity.
Qed.

(** What a successful struct-level exchange went through. *)
Lemma syncWithServer_Ok (server : string) (timeout : Duration)
    (w : Net NTPPacket.t) (r : SyncResult.t) :
  syncWithServer server timeout w = Ok r ->
  exists resp,
    readRes w = inr resp
    /\ NTPPacket.Stratum resp <> 0
    /\ let t2 := ntpTimeToTime (NTPPacket.RxTimeSec resp) (NTPPacket.RxTimeFrac resp) in
       let t3 := ntpTimeToTime (NTPPacket.TxTimeSec resp) (NTPPacket.TxTimeFrac resp) in
       0 <= exchangeRTT (now1 w) t2 t3 (now4 w)
       /\ SyncResult.Offset r = exchangeOffset (now1 w) t2 t3 (now4 w)
       /\ SyncResult.RTT r = exchangeRTT (now1 w) t2 t3 (now4 w)
       /\ SyncResult.Stratum r = NTPPacket.Stratum resp.
Proof.
  unfold syncWithServer.
  destruct (dialErr w); [discriminate|].
  destruct (setDeadlineErr w); [discriminate|].
  destruct (writeErr w); [discriminate|].
  destruct (readRes w) as [err | resp]; [discriminate|].
  destruct (Z.eqb_spec (NTPPacket.Stratum resp) 0) as [|Hst]; [discriminate|].
  match goal with |- context [?x <? 0] => destruct (Z.ltb_spec x 0) as [|Hrtt] end;
    [discriminate|].
  intros [= <-]. exists resp. cbn.
  repeat split; try assumption; try reflexivity.
Qed.

(** Without overflow the two expressions are the textbook formulas. *)
Lemma exchange_exact (t1 t2 t3 t4 : Time) :
  moderate (elapsed t2 t1) -> moderate (elapsed t3 t4) ->
  moderate (elapsed t4 t1) -> moderate (elapsed t3 t2) ->
  exchangeOffset t1 t2 t3 t4 = (elapsed t2 t1 + elapsed t3 t4) ÷ 2
  /\ exchangeRTT t1 t2 t3 t4 = elapsed t4 t1 - elapsed t3 t2.
Proof.
  unfold moderate, exchangeOffset, exchangeRTT, Time_Sub, div64, add64, sub64.
  intros H21 H34 H41 H32.
  rewrite !saturate_small by lia.
  rewrite (int64_small (_ + _)) by lia.
  split.
  - apply int64_small.
    set (s := elapsed t2 t1 + elapsed t3 t4) in *.
    assert (Hs : - 2 ^ 63 < s < 2 ^ 63) by (unfold s; lia).
    pose proof (Z.quot_rem s 2 ltac:(lia)) as Hqr.
    pose proof (Z.rem_bound_abs s 2 ltac:(lia)) as Hrb.
    lia.
  - apply int64_small. lia.
Qed.

(** The exchange once the network has delivered a full response. *)
Lemma syncWithServerBinary_delivered (server : string) (timeout : Duration)
    (w : Net (list Byte.byte)) (datagram : list Byte.byte) :
  dialErr w = None -> setDeadlineErr w = None -> writeErr w = None ->
  readRes w = inr datagram -> (48 <= length datagram)%nat ->
  syncWithServerBinary server timeout w
  = let buf := respBuffer datagram in
    let offset := exchangeOffset (now1 w) (rxTime buf) (txTime buf) (now4 w) in
    let rtt := exchangeRTT (now1 w) (rxTime buf) (txTime buf) (now4 w) in
    if byteAt buf 1 =? 0 then Err ErrZeroStratum
    else if rtt <? 0 then Err ErrNegativeRTT
    else Ok (SyncResult.mk
               (if splitHostPortErr w then JoinHostPort server DefaultNTPPort else server)
               (Time_Add (nowResult w) offset) offset rtt (byteAt buf 1) None).
Proof.
  intros Hd Hs Hw Hr Hlen.
  unfold syncWithServerBinary. rewrite Hd, Hs, Hw, Hr.
  pose proof (proj2 (conn_Read_full datagram) Hlen) as Hfull.
  unfold respBuffer, rxTime, txTime.
  destruct (conn_Read datagram) as [respBytes bytesRead]. cbn [fst snd] in *.
  rewrite Hfull. reflexivity.
Qed.

Lemma elapsed_wall_l (t u : Time) : mono t = None -> elapsed t u = wall t - wall u.
Proof. unfold elapsed. intros ->. reflexivity. Qed.

Lemma elapsed_wall_r (t u : Time) : mono u = None -> elapsed t u = wall t - wall u.
Proof. unfold elapsed. intros ->. destruct (mono t); reflexivity. Qed.

Lemma rxTime_range (buf : list Byte.byte) :
  0 <= wall (rxTime buf) < 2 ^ 32 * 10 ^ 9 /\ mono (rxTime buf) = None.
Proof. apply ntpTimeToTime_range, BigEndian_Uint32_range. Qed.

Lemma txTime_range (buf : list Byte.byte) :
  0 <= wall (txTime buf) < 2 ^ 32 * 10 ^ 9 /\ mono (txTime buf) = None.
Proof. apply ntpTimeToTime_range, BigEndian_Uint32_range. Qed.

Lemma binary_offset_and_rtt (server : string) (timeout : Duration)
    (w : Net (list Byte.byte)) (r : SyncResult.t) :
  syncWithServerBinary server timeout w = Ok r ->
  exists datagram,
    readRes w = inr datagram
    /\ let T1 := now1 w in
       let T2 := rxTime (respBuffer datagram) in
       let T3 := txTime (respBuffer datagram) in
       let T4 := now4 w in
       SyncResult.Offset r = exchangeOffset T1 T2 T3 T4
       /\ SyncResult.RTT r = exchangeRTT T1 T2 T3 T4
       /\ (moderate (wall T2 - wall T1) -> moderate (wall T3 - wall T4) ->
           moderate (elapsed T4 T1) ->
           SyncResult.Offset r = ((wall T2 - wall T1) + (wall T3 - wall T4)) ÷ 2
           /\ SyncResult.RTT r = elapsed T4 T1 - (wall T3 - wall T2)).
Proof.
  intros H. apply syncWithServerBinary_Ok in H as (datagram & Hr & _ & _ & _ & Ho & Hrtt & _).
  exists datagram. split; [exact Hr|]. cbv zeta.
  split; [exact Ho|]. split; [exact Hrtt|].
  set (T2 := rxTime (respBuffer datagram)) in *.
  set (T3 := txTime (respBuffer datagram)) in *.
  destruct (rxTime_range (respBuffer datagram)) as [Hw2 Hm2].
  destruct (txTime_range (respBuffer datagram)) as [Hw3 Hm3].
  fold T2 in Hw2, Hm2. fold T3 in Hw3, Hm3.
  intros H21 H34 H41.
  rewrite Ho, Hrtt.
  rewrite <- (elapsed_wall_l T2 (now1 w) Hm2), <- (elapsed_wall_l T3 (now4 w) Hm3),
          <- (elapsed_wall_l T3 T2 Hm3) in *.
  apply exchange_exact; try assumption.
  rewrite (elapsed_wall_l T3 T2 Hm3). unfold moderate. lia.
Qed.

Lemma struct_offset_and_rtt (server : string) (timeout : Duration)
    (w : Net NTPPacket.t) (r : SyncResult.t) :
  syncWithServer server timeout w = Ok r ->
  exists resp,
    readRes w = inr resp
    /\ let T1 := now1 w in
       let T2 := ntpTimeToTime (NTPPacket.RxTimeSec resp) (NTPPacket.RxTimeFrac resp) in
       let T3 := ntpTimeToTime (NTPPacket.TxTimeSec resp) (NTPPacket.TxTimeFrac resp) in
       let T4 := now4 w in
       SyncResult.Offset r = exchangeOffset T1 T2 T3 T4
       /\ SyncResult.RTT r = exchangeRTT T1 T2 T3 T4
       /\ (moderate (wall T2 - wall T1) -> moderate (wall T3 - wall T4) ->
           moderate (elapsed T4 T1) -> moderate (wall T3 - wall T2) ->
           SyncResult.Offset r = ((wall T2 - wall T1) + (wall T3 - wall T4)) ÷ 2
           /\ SyncResult.RTT r = elapsed T4 T1 - (wall T3 - wall T2)).
Proof.
  intros H. apply syncWithServer_Ok in H as (resp & Hr & _ & H). cbv zeta in H.
  destruct H as (_ & Ho & Hrtt & _).
  exists resp. split; [exact Hr|]. cbv zeta.
  split; [exact Ho|]. split; [exact Hrtt|].
  set (T2 := ntpTimeToTime (NTPPacket.RxTimeSec resp) (NTPPacket.RxTimeFrac resp)) in *.
  set (T3 := ntpTimeToTime (NTPPacket.TxTimeSec resp) (NTPPacket.TxTimeFrac resp)) in *.
  assert (Hm2 : mono T2 = None) by reflexivity.
  assert (Hm3 : mono T3 = None) by reflexivity.
  intros H21 H34 H41 H32.
  rewrite Ho, Hrtt.
  rewrite <- (elapsed_wall_l T2 (now1 w) Hm2), <- (elapsed_wall_l T3 (now4 w) Hm3),
          <- (elapsed_wall_l T3 T2 Hm3) in *.
  apply exchange_exact; assumption.
Qed.

(** C1, as stated, fails twice.  T1 and T4 are readings of the local
    clock, and [t4.Sub(t1)] is measured on the monotonic clock while the
    offset is computed from the wall-clock readings of the same T1 and T4:
    in an exchange during which the wall clock is set back by 1.1 s the
    RTT returned is +0.1 s, where (T4-T1)-(T3-T2) on the instants is -1 s.
    And the sum (T2-T1)+(T3-T4) is an [int64] that wraps: with the local
    clock in 2200 and the server in 2020 the sum is negative (about -360
    years) and the offset returned is positive (about +112 years). *)
Lemma C1_clock_step_counterexample :
  ~ (forall server timeout (w : Net (list Byte.byte)) r datagram,
       syncWithServerBinary server timeout w = Ok r ->
       readRes w = inr datagram ->
       let T1 := now1 w in
       let T2 := rxTime (respBuffer datagram) in
       let T3 := txTime (respBuffer datagram) in
       let T4 := now4 w in
       SyncResult.RTT r = (wall T4 - wall T1) - (wall T3 - wall T2))
  /\ syncWithServerBinary "pool.ntp.org" DefaultTimeout steppedNet = Ok steppedResult
  /\ SyncResult.RTT steppedResult = 100000000
  /\ (wall (now4 steppedNet) - wall (now1 steppedNet))
     - (wall (txTime (respBuffer sampleResponse))
        - wall (rxTime (respBuffer sampleResponse))) = - 1000000000
  /\ ~ (forall server timeout (w : Net (list Byte.byte)) r datagram,
          syncWithServerBinary server timeout w = Ok r ->
          readRes w = inr datagram ->
          let T1 := now1 w in
          let T2 := rxTime (respBuffer datagram) in
          let T3 := txTime (respBuffer datagram) in
          let T4 := now4 w in
          SyncResult.Offset r = ((wall T2 - wall T1) + (wall T3 - wall T4)) ÷ 2)
  /\ syncWithServerBinary "pool.ntp.org" DefaultTimeout farClockNet = Ok farClockResult
  /\ 0 < SyncResult.Offset farClockResult
  /\ (wall (rxTime (respBuffer sampleResponse)) - wall (now1 farClockNet))
     + (wall (txTime (respBuffer sampleResponse)) - wall (now4 farClockNet)) < 0.
Proof.
  assert (Hstep : syncWithServerBinary "pool.ntp.org" DefaultTimeout steppedNet
                  = Ok steppedResult) by (vm_compute; reflexivity).
  assert (Hfar : syncWithServerBinary "pool.ntp.org" DefaultTimeout farClockNet
                 = Ok farClockResult) by (vm_compute; reflexivity).
  split; [|split; [exact Hstep|]; split; [reflexivity|]; split; [vm_compute; reflexivity|];
           split; [|split; [exact Hfar|]; split; vm_compute; reflexivity]].
  - intros H. specialize (H _ _ _ _ _ Hstep eq_refl). vm_compute in H. discriminate H.
  - intros H. specialize (H _ _ _ _ _ Hfar eq_refl). vm_compute in H. discriminate H.
Qed.

(** C1, amended: for every completed exchange, of either variant, with T1
    and T4 the local clock readings before sending and after receiving
    and T2 and T3 the server's receive and transmit times decoded from
    the response: whenever the wall-clock differences T2-T1 and T3-T4 (and
    T3-T2, which the byte-level variant bounds by itself) and the time
    elapsed from T1 to T4 are below [2^62] ns, about 146 years, in
    absolute value, the offset of the result is ((T2-T1)+(T3-T4))/2 on the
    wall-clock readings, the division truncating toward zero, and its RTT
    is E-(T3-T2), where E is the time elapsed from T1 to T4 as [Time.Sub]
    measures it: on the monotonic clock when both readings carry one, as
    readings of [time.Now] do.  The RTT is (T4-T1)-(T3-T2) on the
    wall-clock readings when the wall clock has advanced by E between the
    two readings, that is, when it was not stepped during the exchange. *)
Theorem C1_offset_and_rtt_formulas :
  (forall server timeout (w : Net (list Byte.byte)) r,
     syncWithServerBinary server timeout w = Ok r ->
     exists datagram,
       readRes w = inr datagram
       /\ let T1 := now1 w in
          let T2 := rxTime (respBuffer datagram) in
          let T3 := txTime (respBuffer datagram) in
          let T4 := now4 w in
          (moderate (wall T2 - wall T1) -> moderate (wall T3 - wall T4) ->
           moderate (elapsed T4 T1) ->
           SyncResult.Offset r = ((wall T2 - wall T1) + (wall T3 - wall T4)) ÷ 2
           /\ SyncResult.RTT r = elapsed T4 T1 - (wall T3 - wall T2)
           /\ (elapsed T4 T1 = wall T4 - wall T1 ->
               SyncResult.RTT r = (wall T4 - wall T1) - (wall T3 - wall T2))))
  /\ (forall server timeout (w : Net NTPPacket.t) r,
        syncWithServer server timeout w = Ok r ->
        exists resp,
          readRes w = inr resp
          /\ let T1 := now1 w in
             let T2 := ntpTimeToTime (NTPPacket.RxTimeSec resp) (NTPPacket.RxTimeFrac resp) in
             let T3 := ntpTimeToTime (NTPPacket.TxTimeSec resp) (NTPPacket.TxTimeFrac resp) in
             let T4 := now4 w in
             (moderate (wall T2 - wall T1) -> moderate (wall T3 - wall T4) ->
              moderate (elapsed T4 T1) -> moderate (wall T3 - wall T2) ->
              SyncResult.Offset r = ((wall T2 - wall T1) + (wall T3 - wall T4)) ÷ 2
              /\ SyncResult.RTT r = elapsed T4 T1 - (wall T3 - wall T2)
              /\ (elapsed T4 T1 = wall T4 - wall T1 ->
                  SyncResult.RTT r = (wall T4 - wall T1) - (wall T3 - wall T2)))).
Proof.
  split.
  - intros server timeout w r Hrun.
    destruct (binary_offset_and_rtt server timeout w r Hrun)
      as (datagram & Hread & _ & _ & Hexact).
    exists datagram. split; [exact Hread|]. cbv zeta.
    intros H21 H34 H41. destruct (Hexact H21 H34 H41) as [Ho Hr].
    split; [exact Ho|]. split; [exact Hr|].
    intros Hwall. rewrite Hr, Hwall. reflexivity.
  - intros server timeout w r Hrun.
    destruct (struct_offset_and_rtt server timeout w r Hrun)
      as (resp & Hread & _ & _ & Hexact).
    exists resp. split; [exact Hread|]. cbv zeta.
    intros H21 H34 H41 H32. destruct (Hexact H21 H34 H41 H32) as [Ho Hr].
    split; [exact Ho|]. split; [exact Hr|].
    intros Hwall. rewrite Hr, Hwall. reflexivity.
Qed.

Lemma moderate_dec (d : Z) : (- 2 ^ 62 <? d) && (d <? 2 ^ 62) = true -> moderate d.
Proof.
  intros H. apply andb_true_iff in H as [H1 H2].
  apply Z.ltb_lt in H1, H2. split; assumption.
Qed.

(** The sample exchange, run by both variants: offset 0.45 s, from the
    byte-level variant, and RTT 0.1 s, from the struct variant, for which
    the wall clock was not stepped. *)
Lemma C1_offset_and_rtt_formulas_witness :
  syncWithServerBinary "pool.ntp.org" (5 * Second) sampleNet = Ok sampleResult
  /\ syncWithServer "pool.ntp.org" (5 * Second) (decoded sampleNet) = Ok sampleResult
  /\ SyncResult.Offset sampleResult = 450000000
  /\ SyncResult.RTT sampleResult = 100000000.
Proof.
  assert (Hbin : syncWithServerBinary "pool.ntp.org" (5 * Second) sampleNet
                 = Ok sampleResult) by (vm_compute; reflexivity).
  assert (Hstruct : syncWithServer "pool.ntp.org" (5 * Second) (decoded sampleNet)
                    = Ok sampleResult) by (vm_compute; reflexivity).
  split; [exact Hbin|]. split; [exact Hstruct|].
  split.
  - destruct (proj1 C1_offset_and_rtt_formulas _ _ _ _ Hbin) as (datagram & Hread & H).
    injection Hread as <-. cbv zeta in H.
    destruct H as (Ho & _); try (apply moderate_dec; vm_compute; reflexivity).
    rewrite Ho. vm_compute. reflexivity.
  - destruct (proj2 C1_offset_and_rtt_formulas _ _ _ _ Hstruct) as (resp & Hread & H).
    injection Hread as <-. cbv zeta in H.
    destruct H as (_ & _ & Hr); try (apply moderate_dec; vm_compute; reflexivity).
    rewrite Hr; vm_compute; reflexivity.
Defined.

(* ===================================================================== *)
(** ** Sequential failover *)
(* ===================================================================== *)

(** The loop when every remaining server fails: every server is contacted
    and the error kept is the one of the last server. *)
Lemma failover_all_fail (timeout : Duration) (nets : nat -> Net (list Byte.byte))
    (servers : list string) :
  forall (i : nat) (lastErr : option error) (contacted : list string),
    (forall k, (k < length servers)%nat ->
       exists e, syncWithServerBinary (nth k servers ""%string) timeout (nets (i + k)%nat) = Err e) ->
    exists lastErr',
      failover timeout nets i servers lastErr contacted
      = (None, lastErr', contacted ++ servers)
      /\ match servers with
         | [] => lastErr' = lastErr
         | _ :: _ =>
             exists e,
               syncWithServerBinary (nth (length servers - 1) servers ""%string) timeout
                 (nets (i + (length servers - 1))%nat) = Err e
               /\ lastErr' = Some e
         end.
Proof.
  induction servers as [|server rest IH]; intros i lastErr contacted Hall.
  - exists lastErr. cbn. rewrite app_nil_r. auto.
  - destruct (Hall 0%nat ltac:(cbn; lia)) as [e He].
    cbn [nth] in He. rewrite Nat.add_0_r in He.
    cbn [failover]. rewrite He.
    destruct (IH (S i) (Some e) (contacted ++ [server])) as (lastErr' & Hrun & Hlast).
    { intros k Hk. destruct (Hall (S k) ltac:(cbn; lia)) as [e' He'].
      exists e'. cbn [nth] in He'. rewrite <- He'. f_equal. f_equal. lia. }
    exists lastErr'. split.
    + rewrite Hrun. rewrite <- app_assoc. reflexivity.
    + destruct rest as [|server' rest'].
      * exists e. cbn. rewrite Nat.add_0_r. auto.
      * destruct Hlast as (e' & He' & ->). exists e'. split; [|reflexivity].
        rewrite <- He'. cbn [length nth]. 
        replace (S (S (length rest')) - 1)%nat with (S (length rest')) by lia.
        replace (S (length rest') - 1)%nat with (length rest') by lia.
        cbn [nth]. f_equal. f_equal. lia.
Qed.

(** The loop when the servers of [pre] fail and the next one succeeds: it
    stops there, and the servers of [post] are not contacted. *)
Lemma failover_first_success (timeout : Duration) (nets : nat -> Net (list Byte.byte))
    (pre : list string) (server : string) (post : list string) (r : SyncResult.t) :
  forall (i : nat) (lastErr : option error) (contacted : list string),
    (forall k, (k < length pre)%nat ->
       exists e, syncWithServerBinary (nth k pre ""%string) timeout (nets (i + k)%nat) = Err e) ->
    syncWithServerBinary server timeout (nets (i + length pre)%nat) = Ok r ->
    exists lastErr',
      failover timeout nets i (pre ++ server :: post) lastErr contacted
      = (Some r, lastErr', contacted ++ pre ++ [server]).
Proof.
  induction pre as [|s pre IH]; intros i lastErr contacted Hpre Hok.
  - cbn in *. rewrite Nat.add_0_r in Hok. rewrite Hok. eauto.
  - destruct (Hpre 0%nat ltac:(cbn; lia)) as [e He].
    cbn [nth] in He. rewrite Nat.add_0_r in He.
    cbn [app failover]. rewrite He.
    destruct (IH (S i) (Some e) (contacted ++ [s])) as (lastErr' & Hrun).
    { intros k Hk. destruct (Hpre (S k) ltac:(cbn; lia)) as [e' He'].
      exists e'. cbn [nth] in He'. rewrite <- He'. f_equal. f_equal. lia. }
    { rewrite <- Hok. f_equal. f_equal. cbn. lia. }
    exists lastErr'. rewrite Hrun. rewrite <- !app_assoc. reflexivity.
Qed.

(** Whatever the network does, the loop either finds no result or returns
    the result of one of its exchanges. *)
Lemma failover_result (timeout : Duration) (nets : nat -> Net (list Byte.byte))
    (servers : list string) :
  forall (i : nat) (lastErr : option error) (contacted : list string) r lastErr' contacted',
    failover timeout nets i servers lastErr contacted = (Some r, lastErr', contacted') ->
    exists k, (k < length servers)%nat
      /\ syncWithServerBinary (nth k servers ""%string) timeout (nets (i + k)%nat) = Ok r.
Proof.
  induction servers as [|server rest IH]; intros i lastErr contacted r lastErr' contacted' H.
  - discriminate H.
  - cbn [failover] in H.
    destruct (syncWithServerBinary server timeout (nets i)) as [r0 | e] eqn:Hrun.
    + injection H as <- _ _. exists 0%nat. cbn. rewrite Nat.add_0_r. split; [lia | exact Hrun].
    + apply IH in H as (k & Hk & Hok). exists (S k). cbn [length nth].
      split; [lia|]. rewrite <- Hok. f_equal. f_equal. lia.
Qed.

(** The client after [SyncWithMultiServer]: untouched, with an error, or
    holding the result of one attempt, without error. *)
Lemma SyncWithMultiServer_outcome (n : NTPSync.t) (nets : nat -> Net (list Byte.byte))
    (now : Time) :
  (exists err contacted, SyncWithMultiServer n nets now = (n, Some err, contacted))
  \/ (exists j r contacted,
        (j < length (NTPSync.Servers n))%nat
        /\ attempt n nets j = Ok r
        /\ SyncWithMultiServer n nets now = (adopt r now n, None, contacted)).
Proof.
  unfold SyncWithMultiServer, attempt.
  destruct (length (NTPSync.Servers n) =? 0)%nat; [left; eauto|].
  destruct (failover (NTPSync.Timeout n) nets 0 (NTPSync.Servers n) None [])
    as [[[r|] lastErr] contacted] eqn:Hrun.
  - right. apply failover_result in Hrun as (k & Hk & Hok).
    exists k, r, contacted. auto.
  - left. eauto.
Qed.

Lemma attempt_nth (n : NTPSync.t) (nets : nat -> Net (list Byte.byte)) (k : nat) :
  syncWithServerBinary (nth k (NTPSync.Servers n) ""%string) (NTPSync.Timeout n) (nets (0 + k)%nat)
  = attempt n nets k.
Proof. reflexivity. Qed.

(** C8: sequential failover goes through the configured servers in order.
    If the servers before some server all fail and that server's exchange
    succeeds, its offset and the adoption time become the client's
    [TimeOffset] and [LastSync], the call returns no error, and exactly
    the servers up to that one have been contacted.  If the list is not
    empty and every server fails, the client is unchanged and the error
    returned wraps the error of the last server of the list. *)
Theorem C8_sequential_failover (n : NTPSync.t) (nets : nat -> Net (list Byte.byte))
    (now : Time) :
  (forall pre server post r,
     NTPSync.Servers n = pre ++ server :: post ->
     (forall k, (k < length pre)%nat -> exists e, attempt n nets k = Err e) ->
     attempt n nets (length pre) = Ok r ->
     SyncWithMultiServer n nets now = (adopt r now n, None, pre ++ [server])
     /\ NTPSync.TimeOffset (adopt r now n) = SyncResult.Offset r
     /\ NTPSync.LastSync (adopt r now n) = now)
  /\ (NTPSync.Servers n <> [] ->
      (forall k, (k < length (NTPSync.Servers n))%nat -> exists e, attempt n nets k = Err e) ->
      exists e,
        attempt n nets (length (NTPSync.Servers n) - 1) = Err e
        /\ SyncWithMultiServer n nets now
           = (n, Some (ErrAllServersFailed (Some e)), NTPSync.Servers n)).
Proof.
  split.
  - intros pre server post r Hsrv Hpre Hok.
    split; [|split; reflexivity].
    unfold SyncWithMultiServer.
    destruct (Nat.eqb_spec (length (NTPSync.Servers n)) 0) as [H0|_].
    { rewrite Hsrv, length_app in H0. cbn in H0. lia. }
    destruct (failover_first_success (NTPSync.Timeout n) nets pre server post r 0 None [])
      as (lastErr' & Hrun).
    + intros k Hk. destruct (Hpre k Hk) as [e He]. exists e.
      rewrite <- He. unfold attempt. rewrite Hsrv.
      rewrite app_nth1 by exact Hk. reflexivity.
    + rewrite <- Hok. unfold attempt. rewrite Hsrv.
      rewrite app_nth2 by lia. rewrite Nat.sub_diag. reflexivity.
    + rewrite Hsrv, Hrun. reflexivity.
  - intros Hne Hall.
    unfold SyncWithMultiServer.
    destruct (Nat.eqb_spec (length (NTPSync.Servers n)) 0) as [H0|_].
    { destruct (NTPSync.Servers n); [congruence | discriminate H0]. }
    destruct (failover_all_fail (NTPSync.Timeout n) nets (NTPSync.Servers n) 0 None [] Hall)
      as (lastErr' & Hrun & Hlast).
    rewrite Hrun.
    destruct (NTPSync.Servers n) as [|s rest] eqn:Hsrv; [congruence|].
    destruct Hlast as (e & He & ->).
    exists e. split; [|reflexivity].
    unfold attempt. rewrite Hsrv. exact He.
Qed.

(** A client with three servers, the first unreachable: the second one's
    offset is adopted and the third is never contacted.  A client whose
    two servers are unreachable keeps its state. *)
Lemma C8_sequential_failover_witness :
  SyncWithMultiServer (client ["a.example"; "pool.ntp.org"; "c.example"]%string)
    firstDown adoptionTime
  = (adopt sampleResult adoptionTime
       (client ["a.example"; "pool.ntp.org"; "c.example"]%string),
     None, ["a.example"; "pool.ntp.org"]%string)
  /\ exists e,
       SyncWithMultiServer (client ["a.example"; "b.example"]%string)
         (fun _ => unreachable) adoptionTime
       = (client ["a.example"; "b.example"]%string,
          Some (ErrAllServersFailed (Some e)), ["a.example"; "b.example"]%string).
Proof.
  split.
  - refine (proj1 (proj1 (C8_sequential_failover
              (client ["a.example"; "pool.ntp.org"; "c.example"]%string)
              firstDown adoptionTime)
              ["a.example"%string] "pool.ntp.org"%string ["c.example"%string]
              sampleResult _ _ _)).
    + reflexivity.
    + intros k Hk. destruct k as [|k]; [|cbn in Hk; lia].
      eexists. vm_compute. reflexivity.
    + vm_compute. reflexivity.
  - destruct (proj2 (C8_sequential_failover
               (client ["a.example"; "b.example"]%string)
               (fun _ => unreachable) adoptionTime)) as (e & _ & Hrun).
    + discriminate.
    + intros k Hk.
      destruct k as [|[|k]]; [eexists; vm_compute; reflexivity
                             | eexists; vm_compute; reflexivity |].
      cbn in Hk. lia.
    + exists e. exact Hrun.
Defined.

(* ===================================================================== *)
(** ** Validation of the response *)
(* ===================================================================== *)

(** C2, as stated, fails: a response with stratum 16 and sound timestamps
    is returned as a success, and sequential failover adopts its offset. *)
Lemma C2_stratum_16_counterexample :
  ~ (forall server timeout (w : Net (list Byte.byte)) r,
       syncWithServerBinary server timeout w = Ok r ->
       1 <= SyncResult.Stratum r <= 15)
  /\ SyncWithMultiServer (client ["pool.ntp.org"%string]) (fun _ => stratum16Net) adoptionTime
     = (adopt stratum16Result adoptionTime (client ["pool.ntp.org"%string]), None,
        ["pool.ntp.org"%string]).
Proof.
  split.
  - intros H.
    assert (Hrun : syncWithServerBinary "pool.ntp.org" (5 * Second) stratum16Net
                   = Ok stratum16Result) by (vm_compute; reflexivity).
    apply H in Hrun. cbn in Hrun. lia.
  - vm_compute. reflexivity.
Qed.

(** C2, amended: a sync result is accepted only if its stratum is not 0.
    A successful result carries a stratum between 1 and 255; a response
    with stratum 0 is rejected as invalid; and a full response with any
    other stratum byte, 16 and above included, is accepted when its
    computed RTT is not negative.  The struct variant rejects stratum 0
    in the same way. *)
Theorem C2_only_stratum_zero_rejected :
  (forall server timeout (w : Net (list Byte.byte)) r,
     syncWithServerBinary server timeout w = Ok r ->
     1 <= SyncResult.Stratum r <= 255)
  /\ (forall server timeout (w : Net (list Byte.byte)) datagram,
        dialErr w = None -> setDeadlineErr w = None -> writeErr w = None ->
        readRes w = inr datagram -> (48 <= length datagram)%nat ->
        byteAt (respBuffer datagram) 1 = 0 ->
        syncWithServerBinary server timeout w = Err ErrZeroStratum)
  /\ (forall server timeout (w : Net (list Byte.byte)) rtt,
        computesRTT w rtt -> 0 <= rtt ->
        exists r, syncWithServerBinary server timeout w = Ok r
                  /\ SyncResult.Stratum r <> 0)
  /\ (forall server timeout (w : Net NTPPacket.t) r,
        syncWithServer server timeout w = Ok r -> SyncResult.Stratum r <> 0)
  /\ (forall server timeout (w : Net NTPPacket.t) resp,
        dialErr w = None -> setDeadlineErr w = None -> writeErr w = None ->
        readRes w = inr resp -> NTPPacket.Stratum resp = 0 ->
        syncWithServer server timeout w = Err ErrZeroStratum).
Proof.
  repeat split.
  - apply syncWithServerBinary_Ok in H as (datagram & _ & _ & Hst & _ & _ & _ & ->).
    pose proof (byteAt_range (respBuffer datagram) 1). lia.
  - apply syncWithServerBinary_Ok in H as (datagram & _ & _ & Hst & _ & _ & _ & ->).
    pose proof (byteAt_range (respBuffer datagram) 1). lia.
  - intros server timeout w datagram Hd Hs Hw Hr Hlen Hst.
    rewrite (syncWithServerBinary_delivered server timeout w datagram) by assumption.
    cbv zeta. rewrite Hst. reflexivity.
  - intros server timeout w rtt (Hd & Hs & Hw & datagram & Hr & Hlen & Hst & ->) Hrtt.
    rewrite (syncWithServerBinary_delivered server timeout w datagram) by assumption.
    cbv zeta.
    destruct (Z.eqb_spec (byteAt (respBuffer datagram) 1) 0) as [|_]; [contradiction|].
    match goal with |- context [?x <? 0] => destruct (Z.ltb_spec x 0) as [|_] end; [lia|].
    eexists. split; [reflexivity|]. exact Hst.
  - intros server timeout w r H.
    apply syncWithServer_Ok in H as (resp & _ & Hst & H). cbv zeta in H.
    destruct H as (_ & _ & _ & ->). exact Hst.
  - intros server timeout w resp Hd Hs Hw Hr Hst.
    unfold syncWithServer. rewrite Hd, Hs, Hw, Hr, Hst. reflexivity.
Qed.

(** The stratum-16 response is accepted, within the amended bounds. *)
Lemma C2_only_stratum_zero_rejected_witness :
  syncWithServerBinary "pool.ntp.org" (5 * Second) stratum16Net = Ok stratum16Result
  /\ 1 <= SyncResult.Stratum stratum16Result <= 255.
Proof.
  assert (Hrun : syncWithServerBinary "pool.ntp.org" (5 * Second) stratum16Net
                 = Ok stratum16Result) by (vm_compute; reflexivity).
  split; [exact Hrun|].
  exact (proj1 C2_only_stratum_zero_rejected _ _ _ _ Hrun).
Defined.

(** C7: when an exchange computes a negative RTT it returns the
    negative-RTT error and no result.  A sequential failover that makes
    this attempt leaves the client as it was, or holds the result of a
    different attempt, whose RTT is not negative: nothing of the discarded
    exchange reaches [TimeOffset] or [LastSync]. *)
Theorem C7_negative_rtt_discarded (n : NTPSync.t) (nets : nat -> Net (list Byte.byte))
    (now : Time) (i : nat) (rtt : Duration) :
  (i < length (NTPSync.Servers n))%nat ->
  computesRTT (nets i) rtt -> rtt < 0 ->
  attempt n nets i = Err ErrNegativeRTT
  /\ forall n' err contacted,
       SyncWithMultiServer n nets now = (n', err, contacted) ->
       n' = n
       \/ exists j r,
            j <> i /\ (j < length (NTPSync.Servers n))%nat
            /\ attempt n nets j = Ok r /\ 0 <= SyncResult.RTT r
            /\ n' = adopt r now n.
Proof.
  intros Hi (Hd & Hs & Hw & datagram & Hr & Hlen & Hst & ->) Hneg.
  assert (Herr : attempt n nets i = Err ErrNegativeRTT).
  { unfold attempt.
    rewrite (syncWithServerBinary_delivered _ _ (nets i) datagram) by assumption.
    cbv zeta.
    destruct (Z.eqb_spec (byteAt (respBuffer datagram) 1) 0) as [|_]; [contradiction|].
    match goal with |- context [?x <? 0] => destruct (Z.ltb_spec x 0) as [_|] end; [|lia].
    reflexivity. }
  split; [exact Herr|].
  intros n' err contacted Hrun.
  destruct (SyncWithMultiServer_outcome n nets now)
    as [(err' & contacted' & H) | (j & r & contacted' & Hj & Hok & H)];
    rewrite H in Hrun; injection Hrun as <- <- <-.
  - left. reflexivity.
  - right. exists j, r. repeat split; try assumption.
    + intros ->. rewrite Herr in Hok. discriminate Hok.
    + unfold attempt in Hok.
      apply syncWithServerBinary_Ok in Hok as (dg & _ & _ & _ & Hpos & _ & -> & _).
      exact Hpos.
Qed.

Lemma negativeRTTNet_computes : computesRTT negativeRTTNet (- 400000000).
Proof.
  repeat split. eexists. repeat split.
  - vm_compute. lia.
  - vm_compute. discriminate.
Qed.

(** The only server answers with a transmit time that makes the RTT
    -0.4 s: the attempt fails and the client is unchanged. *)
Lemma C7_negative_rtt_discarded_witness :
  attempt (client ["pool.ntp.org"%string]) (fun _ => negativeRTTNet) 0 = Err ErrNegativeRTT
  /\ fst (fst (SyncWithMultiServer (client ["pool.ntp.org"%string])
                 (fun _ => negativeRTTNet) adoptionTime))
     = client ["pool.ntp.org"%string].
Proof.
  destruct (C7_negative_rtt_discarded (client ["pool.ntp.org"%string])
              (fun _ => negativeRTTNet) adoptionTime 0 (- 400000000))
    as [Herr Hstate].
  - cbn. lia.
  - exact negativeRTTNet_computes.
  - lia.
  - split; [exact Herr|].
    destruct (SyncWithMultiServer (client ["pool.ntp.org"%string])
                (fun _ => negativeRTTNet) adoptionTime) as [[n' err] contacted] eqn:Hrun.
    destruct (Hstate _ _ _ eq_refl) as [H | (j & r & Hj & Hlt & _)].
    + exact H.
    + cbn in Hlt. lia.
Defined.

(* ===================================================================== *)
(** ** The parallel race *)
(* ===================================================================== *)

Lemma ranksFirst_refl (a : SyncResult.t) : ranksFirst a a.
Proof. unfold ranksFirst. lia. Qed.

Lemma ranksFirst_trans (a b c : SyncResult.t) :
  ranksFirst a b -> ranksFirst b c -> ranksFirst a c.
Proof. unfold ranksFirst. lia. Qed.

(** One step of the selection keeps a result that ranks first among the
    current one and the new one. *)
Lemma better_step (cur r : SyncResult.t) :
  exists c, better (Some cur) r = Some c
            /\ (c = cur \/ c = r) /\ ranksFirst c cur /\ ranksFirst c r.
Proof.
  unfold better, ranksFirst.
  destruct (Z.ltb_spec (SyncResult.Stratum r) (SyncResult.Stratum cur));
    destruct (Z.eqb_spec (SyncResult.Stratum r) (SyncResult.Stratum cur));
    destruct (Z.ltb_spec (SyncResult.RTT r) (SyncResult.RTT cur)); cbn;
    eexists; (split; [reflexivity|]); split; auto; lia.
Qed.

(** The selection over a whole channel, started from a current result. *)
Lemma fold_better_Some (l : list SyncResult.t) :
  forall cur, exists w,
    fold_left better l (Some cur) = Some w
    /\ (w = cur \/ In w l) /\ ranksFirst w cur /\ (forall r, In r l -> ranksFirst w r).
Proof.
  induction l as [|x l IH]; intros cur.
  - exists cur. cbn. repeat split; auto using ranksFirst_refl. intros r [].
  - destruct (better_step cur x) as (c & Hc & Hin & Hcur & Hx).
    destruct (IH c) as (w & Hw & Hwin & Hwc & Hwl).
    exists w. cbn [fold_left]. rewrite Hc, Hw.
    repeat split.
    + destruct Hwin as [-> | Hwin]; [|right; right; exact Hwin].
      destruct Hin as [-> | ->]; [left | right; left]; reflexivity.
    + eauto using ranksFirst_trans.
    + intros r [<- | Hr]; eauto using ranksFirst_trans.
Qed.

Lemma fold_better_None (l : list SyncResult.t) :
  match fold_left better l None with
  | None => l = []
  | Some w => In w l /\ forall r, In r l -> ranksFirst w r
  end.
Proof.
  destruct l as [|x l]; [reflexivity|].
  cbn [fold_left better].
  destruct (fold_better_Some l x) as (w & -> & Hin & Hx & Hl).
  split.
  - destruct Hin as [-> | Hin]; [left | right]; auto.
  - intros r [<- | Hr]; auto.
Qed.

Lemma In_sentResults (outcomes : list (result SyncResult.t)) (r : SyncResult.t) :
  In r (sentResults outcomes) <-> In (Ok r) outcomes.
Proof.
  induction outcomes as [|[r0 | e] rest IH]; cbn.
  - tauto.
  - rewrite IH. split; intros [H | H]; auto; left; congruence.
  - rewrite IH. split; [auto | intros [H | H]; [discriminate H | exact H]].
Qed.

Lemma sentErrors_app (a b : list (result SyncResult.t)) :
  sentErrors (a ++ b) = sentErrors a ++ sentErrors b.
Proof.
  induction a as [|[r | e] a IH]; cbn; [reflexivity | exact IH | f_equal; exact IH].
Qed.

(** The goroutines are those of the configured servers, each once. *)
Lemma completion_index (len : nat) (completion : list nat) (k : nat) :
  completion ≡ₚ seq 0 len -> (In k completion <-> (k < len)%nat).
Proof.
  intros Hperm. rewrite <- !list_elem_of_In, Hperm, list_elem_of_In, in_seq. lia.
Qed.

(** C9: the parallel race takes the outcome of every attempt, whatever
    the order in which the attempts complete.  When it returns no error,
    the client holds the offset of a successful attempt that ranks first
    among all successful attempts: no other has a lower stratum, nor the
    same stratum and a lower RTT.  When it returns an error, every
    attempt failed, the client is unchanged, and the error wraps the
    error of the attempt that completed last. *)
Theorem C9_parallel_race (n : NTPSync.t) (nets : nat -> Net (list Byte.byte))
    (completion : list nat) (now : Time) :
  NTPSync.Servers n <> [] ->
  completion ≡ₚ seq 0 (length (NTPSync.Servers n)) ->
  match SyncWithMultiServerParallel n nets completion now with
  | (n', None) =>
      exists j winner,
        (j < length (NTPSync.Servers n))%nat
        /\ attempt n nets j = Ok winner
        /\ n' = adopt winner now n
        /\ NTPSync.TimeOffset n' = SyncResult.Offset winner
        /\ forall k r, (k < length (NTPSync.Servers n))%nat ->
                       attempt n nets k = Ok r -> ranksFirst winner r
  | (n', Some err) =>
      n' = n
      /\ (forall k, (k < length (NTPSync.Servers n))%nat ->
                    exists e, attempt n nets k = Err e)
      /\ exists jlast e,
           last completion = Some jlast
           /\ attempt n nets jlast = Err e
           /\ err = ErrAllServersFailed (Some e)
  end.
Proof.
  intros Hne Hperm.
  unfold SyncWithMultiServerParallel.
  destruct (Nat.eqb_spec (length (NTPSync.Servers n)) 0) as [H0|Hlen].
  { destruct (NTPSync.Servers n); [congruence | discriminate H0]. }
  change (fun i => syncWithServerBinary (nth i (NTPSync.Servers n) ""%string)
                     (NTPSync.Timeout n) (nets i))
    with (attempt n nets).
  set (outcomes := map (attempt n nets) completion).
  assert (Hout : forall o, In o outcomes <->
                   exists k, (k < length (NTPSync.Servers n))%nat /\ attempt n nets k = o).
  { intros o. unfold outcomes. rewrite in_map_iff. split.
    - intros (k & <- & Hk). exists k. split; [|reflexivity].
      apply (completion_index _ _ _ Hperm). exact Hk.
    - intros (k & Hk & <-). exists k. split; [reflexivity|].
      apply (completion_index _ _ _ Hperm). exact Hk. }
  pose proof (fold_better_None (sentResults outcomes)) as Hsel.
  destruct (fold_left better (sentResults outcomes) None) as [winner|].
  - destruct Hsel as [Hin Hmin].
    apply In_sentResults, Hout in Hin as (j & Hj & Hwin).
    exists j, winner. repeat split; try assumption.
    intros k r Hk Hr. apply Hmin, In_sentResults, Hout. eauto.
  - assert (Hfail : forall k, (k < length (NTPSync.Servers n))%nat ->
                      exists e, attempt n nets k = Err e).
    { intros k Hk. destruct (attempt n nets k) as [r | e] eqn:Hk'; [|eauto].
      assert (Hin : In r (sentResults outcomes)) by (apply In_sentResults, Hout; eauto).
      rewrite Hsel in Hin. destruct Hin. }
    destruct completion as [|jlast front _] using rev_ind.
    { apply Permutation_nil_l in Hperm.
      destruct (length (NTPSync.Servers n)); [congruence | discriminate Hperm]. }
    assert (Hjlast : (jlast < length (NTPSync.Servers n))%nat).
    { apply (completion_index _ _ _ Hperm), in_or_app. right. left. reflexivity. }
    destruct (Hfail jlast Hjlast) as [e He].
    unfold outcomes. rewrite map_app, sentErrors_app, fold_left_app.
    cbn [map sentErrors]. rewrite He. cbn [sentErrors fold_left app].
    split; [reflexivity|]. split; [exact Hfail|].
    exists jlast, e. rewrite last_snoc. auto.
Qed.

(** Stratum 2 with RTT 10 ms against stratum 1 with RTT 90 ms, the first
    server completing first: the stratum-1 result is adopted. *)
Lemma C9_parallel_race_witness :
  SyncWithMultiServerParallel (client ["a.example"; "b.example"]%string) raceNets
    [0; 1]%nat adoptionTime
  = (adopt raceWinner adoptionTime (client ["a.example"; "b.example"]%string), None)
  /\ exists j winner,
       attempt (client ["a.example"; "b.example"]%string) raceNets j = Ok winner
       /\ forall k r, (k < 2)%nat ->
            attempt (client ["a.example"; "b.example"]%string) raceNets k = Ok r ->
            ranksFirst winner r.
Proof.
  assert (Hrun : SyncWithMultiServerParallel (client ["a.example"; "b.example"]%string)
                   raceNets [0; 1]%nat adoptionTime
                 = (adopt raceWinner adoptionTime
                      (client ["a.example"; "b.example"]%string), None))
    by (vm_compute; reflexivity).
  split; [exact Hrun|].
  pose proof (C9_parallel_race (client ["a.example"; "b.example"]%string) raceNets
                [0; 1]%nat adoptionTime ltac:(discriminate) ltac:(reflexivity)) as H.
  rewrite Hrun in H.
  destruct H as (j & winner & _ & Hwin & _ & _ & Hmin).
  exists j, winner. split; [exact Hwin | exact Hmin].
Defined.

(* ===================================================================== *)
(** ** The client's server list *)
(* ===================================================================== *)

Lemma hasServer_spec (server : string) (l : list string) :
  hasServer server l = true <-> server ∈ l.
Proof.
  induction l as [|s rest IH]; cbn.
  - split; [discriminate | intros H; inversion H].
  - rewrite elem_of_cons. destruct (String.eqb_spec s server) as [-> | Hne].
    + tauto.
    + rewrite IH. split; [auto | intros [-> | H]; [contradiction | exact H]].
Qed.

(** C10: [AddServer] with an address already in the client's list leaves
    the client unchanged (it has no error to report); with a new address
    it appends the address at the end of the list and changes nothing
    else; so a list without duplicates stays without duplicates. *)
Theorem C10_AddServer_no_duplicates (server : string) (n : NTPSync.t) :
  (server ∈ NTPSync.Servers n -> AddServer server n = n)
  /\ (server ∉ NTPSync.Servers n ->
      AddServer server n = NTPSync.set_Servers (NTPSync.Servers n ++ [server]) n
      /\ NTPSync.Servers (AddServer server n) = NTPSync.Servers n ++ [server])
  /\ (NoDup (NTPSync.Servers n) -> NoDup (NTPSync.Servers (AddServer server n))).
Proof.
  unfold AddServer.
  pose proof (hasServer_spec server (NTPSync.Servers n)) as Hspec.
  destruct (hasServer server (NTPSync.Servers n)).
  - split; [reflexivity|]. split; [|auto].
    intros Hnot. exfalso. apply Hnot, Hspec. reflexivity.
  - assert (Hnot : server ∉ NTPSync.Servers n).
    { intros Hin. apply Hspec in Hin. discriminate Hin. }
    split; [intros Hin; contradiction|].
    split; [intros _; split; reflexivity|].
    intros Hnd. cbn. apply NoDup_app. split; [exact Hnd|]. split.
    + intros x Hx Hx'. apply list_elem_of_singleton in Hx'. subst x. contradiction.
    + apply NoDup_singleton.
Qed.

(** Adding a second server appends it; adding it again changes nothing. *)
Lemma C10_AddServer_no_duplicates_witness :
  NTPSync.Servers (AddServer "time.google.com" (client ["pool.ntp.org"%string]))
  = ["pool.ntp.org"; "time.google.com"]%string
  /\ AddServer "time.google.com"
       (AddServer "time.google.com" (client ["pool.ntp.org"%string]))
     = AddServer "time.google.com" (client ["pool.ntp.org"%string])
  /\ NoDup (NTPSync.Servers (AddServer "time.google.com" (client ["pool.ntp.org"%string]))).
Proof.
  split; [|split].
  - apply (proj1 (proj2 (C10_AddServer_no_duplicates "time.google.com"
                           (client ["pool.ntp.org"%string])))).
    cbn. intros H. apply list_elem_of_singleton in H. discriminate H.
  - apply (proj1 (C10_AddServer_no_duplicates "time.google.com"
                    (AddServer "time.google.com" (client ["pool.ntp.org"%string])))).
    vm_compute. apply list_elem_of_further, list_elem_of_here.
  - apply (proj2 (proj2 (C10_AddServer_no_duplicates "time.google.com"
                           (client ["pool.ntp.org"%string])))).
    cbn. apply NoDup_singleton.
Defined.

(* ===================================================================== *)
(** ** The periodic scheduler *)
(* ===================================================================== *)

(** What [New] returns: nothing started, automatic sync off, and the stop
    channel open. *)
Lemma New_Ok (opts : Options.t) (n : NTPSync.t) (started : list goroutine) :
  New opts = Ok (n, started) ->
  Options.AutoSync opts = false /\ started = []
  /\ NTPSync.stopChan n = chanOpen /\ NTPSync.AutoSync n = false.
Proof.
  unfold New.
  destruct (length (Options.Servers opts) =? 0)%nat; [discriminate|]. cbv zeta.
  destruct (Options.EnableMultiServer opts);
    [destruct (ServerManager.NewServerManager _ _) as [sm | e]; [|discriminate]|];
    destruct (Options.AutoSync opts) eqn:Ha; cbn; try discriminate;
    intros [= <- <-]; cbn; auto.
Qed.

(** C4, on the code: every client that [New] returns has an open
    [stopChan], which [StartPeriodicSync] reads as "already running".  So
    [New] succeeds only without [AutoSync] and starts nothing; the
    scheduler of the new client is not running; [StartPeriodicSync] on it
    returns the already-running error, starts no goroutine and leaves the
    client unchanged.  Only after a [StopPeriodicSync] does the start
    succeed: it then starts the initial sync and exactly one loop, the
    scheduler runs, and a second start is refused without effect. *)
Theorem C4_start_refused_on_new_client (opts : Options.t) (n : NTPSync.t)
    (started : list goroutine) :
  New opts = Ok (n, started) ->
  Options.AutoSync opts = false
  /\ started = []
  /\ IsPeriodicSyncRunning n = false
  /\ StartPeriodicSync n = (n, [], Some ErrAlreadyRunning)
  /\ exists running,
       StartPeriodicSync (StopPeriodicSync n)
       = (running, [goInitialSync; goPeriodicSyncLoop], None)
       /\ IsPeriodicSyncRunning running = true
       /\ StartPeriodicSync running = (running, [], Some ErrAlreadyRunning).
Proof.
  intros Hnew. apply New_Ok in Hnew as (Ha & Hs & Hopen & Hauto).
  split; [exact Ha|]. split; [exact Hs|].
  split; [unfold IsPeriodicSyncRunning; rewrite Hopen; exact Hauto|].
  split; [unfold StartPeriodicSync; rewrite Hopen; reflexivity|].
  unfold StopPeriodicSync. rewrite Hopen.
  eexists. split; [reflexivity|]. split; reflexivity.
Qed.

(** A client for one server, built without [AutoSync]. *)
Lemma C4_start_refused_on_new_client_witness :
  New plainOptions = Ok (client ["pool.ntp.org"%string], [])
  /\ StartPeriodicSync (client ["pool.ntp.org"%string])
     = (client ["pool.ntp.org"%string], [], Some ErrAlreadyRunning).
Proof.
  assert (Hnew : New plainOptions = Ok (client ["pool.ntp.org"%string], []))
    by (vm_compute; reflexivity).
  split; [exact Hnew|].
  exact (proj1 (proj2 (proj2 (proj2
           (C4_start_refused_on_new_client plainOptions _ _ Hnew))))).
Defined.

(* ===================================================================== *)
(** ** The stable sort *)
(* ===================================================================== *)

Section SliceStable.
Context {A : Type} (less : A -> A -> bool).

Lemma sinkLeft_Permutation (x : A) (rprefix : list A) :
  sinkLeft less x rprefix ≡ₚ x :: rprefix.
Proof.
  induction rprefix as [|y r IH]; cbn; [reflexivity|].
  destruct (less x y); [|reflexivity].
  rewrite IH. apply Permutation_swap.
Qed.

Lemma SliceStable_Permutation (l : list A) : SliceStable less l ≡ₚ l.
Proof.
  unfold SliceStable. rewrite <- Permutation_rev.
  assert (H : forall acc, fold_left (fun rp x => sinkLeft less x rp) l acc ≡ₚ l ++ acc).
  { induction l as [|x l IH]; intros acc; cbn; [reflexivity|].
    rewrite IH, sinkLeft_Permutation. symmetry. apply Permutation_middle. }
  rewrite H, app_nil_r. reflexivity.
Qed.

(** Elements of a class of mutually tied elements never pass each other. *)
Lemma sinkLeft_filter (p : A -> bool) (x : A) (rprefix : list A) :
  (forall a b, p a = true -> p b = true -> less a b = false) ->
  List.filter p (sinkLeft less x rprefix) = List.filter p (x :: rprefix).
Proof.
  intros Htie. induction rprefix as [|y r IH]; [reflexivity|].
  cbn [sinkLeft]. destruct (less x y) eqn:Hxy; [|reflexivity].
  cbn [List.filter] in *. rewrite IH.
  destruct (p x) eqn:Hx, (p y) eqn:Hy; try reflexivity.
  rewrite (Htie x y Hx Hy) in Hxy. discriminate Hxy.
Qed.

(** Stability: the elements of a class of mutually tied elements come out
    in the order in which they went in. *)
Lemma SliceStable_stable (p : A -> bool) (l : list A) :
  (forall a b, p a = true -> p b = true -> less a b = false) ->
  List.filter p (SliceStable less l) = List.filter p l.
Proof.
  intros Htie. unfold SliceStable. rewrite filter_rev.
  assert (H : forall acc,
             List.filter p (fold_left (fun rp x => sinkLeft less x rp) l acc)
             = rev (List.filter p l) ++ List.filter p acc).
  { induction l as [|x l IH]; intros acc; [reflexivity|].
    cbn [fold_left]. rewrite IH, sinkLeft_filter by exact Htie.
    cbn [List.filter]. destruct (p x); [|reflexivity].
    cbn [rev]. rewrite <- app_assoc. reflexivity. }
  rewrite H. cbn [List.filter]. rewrite app_nil_r. apply rev_involutive.
Qed.

Hypothesis less_asym : forall a b, less a b = true -> less b a = false.
Hypothesis not_less_trans :
  forall a b c, less a b = false -> less b c = false -> less a c = false.

Lemma sinkLeft_sorted (x : A) (rprefix : list A) :
  StronglySorted (fun a b => less a b = false) rprefix ->
  StronglySorted (fun a b => less a b = false) (sinkLeft less x rprefix).
Proof.
  induction rprefix as [|y r IH]; intros Hs; cbn.
  - repeat constructor.
  - apply StronglySorted_inv in Hs as [Hr Hy].
    destruct (less x y) eqn:Hxy.
    + constructor; [exact (IH Hr)|].
      rewrite Forall_forall. intros z Hz.
      rewrite sinkLeft_Permutation in Hz. apply elem_of_cons in Hz as [-> | Hz].
      * apply less_asym. exact Hxy.
      * rewrite Forall_forall in Hy. apply Hy. exact Hz.
    + constructor; [constructor; assumption|].
      constructor; [exact Hxy|].
      rewrite Forall_forall in Hy |- *. intros z Hz.
      eapply not_less_trans; [exact Hxy | apply Hy; exact Hz].
Qed.

Lemma StronglySorted_rev_flip (R : A -> A -> Prop) (l : list A) :
  StronglySorted R l -> StronglySorted (fun a b => R b a) (rev l).
Proof.
  induction l as [|x l IH]; intros Hs; cbn; [constructor|].
  apply StronglySorted_inv in Hs as [Hl Hx].
  apply StronglySorted_app_2.
  - intros x1 x2 H1 H2. apply list_elem_of_singleton in H2. subst x2.
    rewrite Forall_forall in Hx. apply Hx.
    apply list_elem_of_In, in_rev, list_elem_of_In. exact H1.
  - exact (IH Hl).
  - repeat constructor.
Qed.

(** The result is sorted: no element is less than one before it. *)
Lemma SliceStable_sorted (l : list A) :
  StronglySorted (fun a b => less b a = false) (SliceStable less l).
Proof.
  unfold SliceStable.
  apply (StronglySorted_rev_flip (fun a b => less a b = false)).
  assert (H : forall acc,
             StronglySorted (fun a b => less a b = false) acc ->
             StronglySorted (fun a b => less a b = false)
               (fold_left (fun rp x => sinkLeft less x rp) l acc)).
  { induction l as [|x l IH]; intros acc Hacc; cbn; [exact Hacc|].
    apply IH, sinkLeft_sorted, Hacc. }
  apply H. constructor.
Qed.

End SliceStable.

(* ===================================================================== *)
(** ** Re-ranking in the server manager *)
(* ===================================================================== *)

(** The sort key of a status: reachable first, then stratum, then RTT. *)
Lemma less_spec (m : gmap string ServerStatus.t) (a b : string) :
  let si := ServerManager.status m a in
  let sj := ServerManager.status m b in
  let unreachable st := if ServerStatus.Reachable st then 0 else 1 in
  ServerManager.less m a b = true
  <-> unreachable si < unreachable sj
      \/ (unreachable si = unreachable sj
          /\ (ServerStatus.Stratum si < ServerStatus.Stratum sj
              \/ (ServerStatus.Stratum si = ServerStatus.Stratum sj
                  /\ ServerStatus.RTT si < ServerStatus.RTT sj))).
Proof.
  cbv zeta. unfold ServerManager.less.
  destruct (ServerStatus.Reachable (ServerManager.status m a)),
           (ServerStatus.Reachable (ServerManager.status m b)); cbn [Bool.eqb negb];
    try (split; [lia | intros [H | [H _]]; [lia | discriminate H]]);
    try (split; [discriminate | lia]);
    (destruct (Z.eqb_spec (ServerStatus.Stratum (ServerManager.status m a))
                          (ServerStatus.Stratum (ServerManager.status m b)));
     cbn [negb]; rewrite Z.ltb_lt; lia).
Qed.

Lemma ServerManager_less_asym (m : gmap string ServerStatus.t) (a b : string) :
  ServerManager.less m a b = true -> ServerManager.less m b a = false.
Proof.
  intros H. apply not_true_is_false. intros H'.
  apply less_spec in H, H'. cbv zeta in *. lia.
Qed.

Lemma ServerManager_not_less_trans (m : gmap string ServerStatus.t) (a b c : string) :
  ServerManager.less m a b = false -> ServerManager.less m b c = false ->
  ServerManager.less m a c = false.
Proof.
  intros Hab Hbc. apply not_true_is_false. intros Hac.
  apply not_true_iff_false in Hab, Hbc.
  rewrite less_spec in Hab, Hbc, Hac. cbv zeta in *. lia.
Qed.

(** What re-ranking does achieve: the new ranking lists the addresses the
    range over the map yielded, hence every known server once; no server
    is ranked after one it is less than; and servers that tie keep the
    relative order in which the range over the map yielded them. *)
Lemma reorderServers_ranking (iter : list string) (sm : ServerManager.t) :
  let sm' := ServerManager.reorderServers iter sm in
  ServerManager.serverOrder sm' ≡ₚ iter
  /\ (ServerManager.mapRange (ServerManager.servers sm) iter ->
      ServerManager.mapRange (ServerManager.servers sm') (ServerManager.serverOrder sm'))
  /\ StronglySorted (fun a b => ServerManager.less (ServerManager.servers sm) b a = false)
       (ServerManager.serverOrder sm')
  /\ forall tied : string -> bool,
       (forall a b, tied a = true -> tied b = true ->
                    ServerManager.less (ServerManager.servers sm) a b = false) ->
       List.filter tied (ServerManager.serverOrder sm') = List.filter tied iter.
Proof.
  cbv zeta. unfold ServerManager.reorderServers. cbn.
  pose proof (SliceStable_Permutation (ServerManager.less (ServerManager.servers sm)) iter)
    as Hperm.
  split; [exact Hperm|]. split; [|split].
  - intros [Hnd Hkeys]. split.
    + rewrite Hperm. exact Hnd.
    + intros a. rewrite Hperm. apply Hkeys.
  - apply SliceStable_sorted; [apply ServerManager_less_asym | apply ServerManager_not_less_trans].
  - intros tied Htied. apply SliceStable_stable. exact Htied.
Qed.

(** C5, on the code: the manager built for the servers a and b ranks them
    [a; b].  An update of a's status with the values it already has
    re-ranks; the two servers tie on all three keys.  When the range over
    the map yields b before a, which the language allows, the new ranking
    is [b; a]: the prior relative order of the tied servers is lost,
    because the slice that is sorted is filled from the map and not from
    the previous ranking; whatever the previous ranking was, the result
    is the same. *)
Theorem C5_reorder_forgets_prior_order :
  ServerManager.NewServerManager ["a.example"; "b.example"]%string DefaultTimeout
  = Ok managerAB
  /\ ServerManager.serverOrder managerAB = ["a.example"; "b.example"]%string
  /\ let st := ServerStatus.fresh "a.example" in
     let iter := ["b.example"; "a.example"]%string in
     let m := <["a.example"%string := st]> (ServerManager.servers managerAB) in
     ServerManager.mapRange m iter
     /\ ServerManager.less m "a.example" "b.example" = false
     /\ ServerManager.less m "b.example" "a.example" = false
     /\ ServerManager.UpdateServerStatus "a.example" st iter managerAB
        = (ServerManager.mk m ["b.example"; "a.example"]%string DefaultTimeout, None)
     /\ forall priorOrder,
          ServerManager.reorderServers iter
            (ServerManager.mk m priorOrder DefaultTimeout)
          = ServerManager.mk m ["b.example"; "a.example"]%string DefaultTimeout.
Proof.
  split; [reflexivity|]. split; [reflexivity|]. cbv zeta.
  split; [|split; [reflexivity|split; [reflexivity|split; reflexivity]]].
  split.
  - apply NoDup_cons. split; [|apply NoDup_singleton].
    intros H. apply list_elem_of_singleton in H. discriminate H.
  - intros a. rewrite <- elem_of_dom. cbn [ServerManager.servers managerAB].
    rewrite !dom_insert_L, dom_empty_L.
    rewrite !elem_of_union, !elem_of_singleton, !elem_of_cons, elem_of_nil, elem_of_empty.
    tauto.
Qed.

(* ===================================================================== *)
(** * Further properties of the package *)
(* ===================================================================== *)

(* ===================================================================== *)
(** ** The wire format *)
(* ===================================================================== *)

Lemma byteAt_byteOf (z : Z) : Z.of_N (Byte.to_N (byteOf z)) = z mod 256.
Proof.
  unfold byteOf.
  pose proof (Z.mod_pos_bound z 256 ltac:(lia)) as Hz.
  destruct (Byte.of_N (Z.to_N (z mod 256))) as [b|] eqn:Hb; cbn.
  - apply Byte.to_of_N in Hb. rewrite Hb. lia.
  - apply Byte.of_N_None_iff in Hb. lia.
Qed.

Lemma byteAt_app_r (pre l : list Byte.byte) (k : nat) :
  byteAt (pre ++ l) (length pre + k) = byteAt l k.
Proof.
  unfold byteAt. rewrite app_nth2 by lia.
  replace (length pre + k - length pre)%nat with k by lia. reflexivity.
Qed.

(** Bits that do not overlap add up. *)
Lemma lor_disjoint (q b k : Z) :
  0 <= k -> 0 <= b < 2 ^ k -> Z.lor (q * 2 ^ k) b = q * 2 ^ k + b.
Proof.
  intros Hk Hb.
  assert (Hland : Z.land (q * 2 ^ k) b = 0).
  { apply Z.bits_inj'; intros n Hn. rewrite Z.land_spec, Z.bits_0.
    destruct (Z.lt_ge_cases n k) as [Hlt | Hge].
    - rewrite Z.mul_pow2_bits_low by lia. reflexivity.
    - destruct (Z.eq_dec b 0) as [-> | Hb0]; [rewrite Z.bits_0; apply andb_false_r|].
      rewrite (Z.bits_above_log2 b n), andb_false_r; [reflexivity | lia |].
      apply Z.lt_le_trans with k; [|exact Hge].
      apply Z.log2_lt_pow2; lia. }
  rewrite <- Z.lxor_lor by exact Hland.
  symmetry. apply Z.add_nocarry_lxor. exact Hland.
Qed.

Lemma four_bytes (v : Z) :
  ((v / 2 ^ 24 mod 256 * 2 ^ 8 + v / 2 ^ 16 mod 256) * 2 ^ 8 + v / 2 ^ 8 mod 256) * 2 ^ 8
  + v mod 256 = v mod 2 ^ 32.
Proof.
  change 256 with (2 ^ 8).
  Z.div_mod_to_equations. lia.
Qed.

(** Reading back four bytes written by [PutUint32]. *)
Lemma Uint32_PutUint32 (pre post : list Byte.byte) (v : Z) :
  BigEndian_Uint32 (pre ++ BigEndian_PutUint32 v ++ post) (length pre) = v mod 2 ^ 32.
Proof.
  unfold BigEndian_Uint32.
  rewrite <- (Nat.add_0_r (length pre)) at 1.
  rewrite !byteAt_app_r.
  unfold BigEndian_PutUint32, byteAt. cbn [app nth].
  rewrite !byteAt_byteOf, !Z.shiftr_div_pow2, !Z.shiftl_mul_pow2 by lia.
  pose proof (Z.mod_pos_bound (v / 2 ^ 24) 256 ltac:(lia)).
  pose proof (Z.mod_pos_bound (v / 2 ^ 16) 256 ltac:(lia)).
  pose proof (Z.mod_pos_bound (v / 2 ^ 8) 256 ltac:(lia)).
  pose proof (Z.mod_pos_bound v 256 ltac:(lia)).
  rewrite (lor_disjoint _ (v / 2 ^ 16 mod 256 * 2 ^ 16) 24) by lia.
  replace (v / 2 ^ 24 mod 256 * 2 ^ 24 + v / 2 ^ 16 mod 256 * 2 ^ 16)
    with ((v / 2 ^ 24 mod 256 * 2 ^ 8 + v / 2 ^ 16 mod 256) * 2 ^ 16) by lia.
  rewrite (lor_disjoint _ (v / 2 ^ 8 mod 256 * 2 ^ 8) 16) by lia.
  replace ((v / 2 ^ 24 mod 256 * 2 ^ 8 + v / 2 ^ 16 mod 256) * 2 ^ 16
           + v / 2 ^ 8 mod 256 * 2 ^ 8)
    with (((v / 2 ^ 24 mod 256 * 2 ^ 8 + v / 2 ^ 16 mod 256) * 2 ^ 8
           + v / 2 ^ 8 mod 256) * 2 ^ 8) by lia.
  rewrite (lor_disjoint _ (v mod 256) 8) by lia.
  apply four_bytes.
Qed.

Lemma Uint32_skip_cons (x : Byte.byte) (rest : list Byte.byte) (i : nat) :
  BigEndian_Uint32 (x :: rest) (S i) = BigEndian_Uint32 rest i.
Proof. reflexivity. Qed.

Lemma Uint32_skip4 (w : Z) (rest : list Byte.byte) (i : nat) :
  BigEndian_Uint32 (BigEndian_PutUint32 w ++ rest) (S (S (S (S i))))
  = BigEndian_Uint32 rest i.
Proof. reflexivity. Qed.

Lemma Uint32_here (v : Z) (post : list Byte.byte) :
  BigEndian_Uint32 (BigEndian_PutUint32 v ++ post) 0 = v mod 2 ^ 32.
Proof. exact (Uint32_PutUint32 [] post v). Qed.

Lemma Uint32_last (v : Z) :
  BigEndian_Uint32 (BigEndian_PutUint32 v) 0 = v mod 2 ^ 32.
Proof. rewrite <- (app_nil_r (BigEndian_PutUint32 v)). apply Uint32_here. Qed.

Lemma byteAt_cons_byteOf (z : Z) (rest : list Byte.byte) :
  byteAt (byteOf z :: rest) 0 = z mod 256.
Proof. unfold byteAt. cbn [nth]. apply byteAt_byteOf. Qed.

Lemma byteAt_skip_cons (x : Byte.byte) (rest : list Byte.byte) (i : nat) :
  byteAt (x :: rest) (S i) = byteAt rest i.
Proof. reflexivity. Qed.

Lemma int8_byte (x : Z) : - 2 ^ 7 <= x < 2 ^ 7 -> int8 (x mod 256) = x.
Proof.
  intros Hx. unfold int8. change 256 with (2 ^ 8).
  Z.div_mod_to_equations. lia.
Qed.

Lemma timeToNTPTime_range (t : Time) :
  0 <= fst (timeToNTPTime t) < 2 ^ 32 /\ 0 <= snd (timeToNTPTime t) < 2 ^ 32.
Proof.
  split; [|apply timeToNTPTime_fraction].
  rewrite timeToNTPTime_seconds. apply Z.mod_pos_bound. lia.
Qed.

(** X1.  The request of the byte-level exchange is 48 bytes long; its
    first byte is 0x23 (no leap warning, version 4, client mode), bytes 1
    to 39 are zero, and the big-endian words at offsets 40 and 44 are the
    seconds and the fraction of [timeToNTPTime] at the sending time.  The
    struct variant's [createNTPPacket], written with [binary.Write], gives
    the same 48 bytes. *)
Theorem X1_request_wire_format (t : Time) :
  length (requestBytes t) = 48%nat
  /\ byteAt (requestBytes t) 0 = 0x23
  /\ (forall i, (1 <= i < 40)%nat -> byteAt (requestBytes t) i = 0)
  /\ BigEndian_Uint32 (requestBytes t) 40 = fst (timeToNTPTime t)
  /\ BigEndian_Uint32 (requestBytes t) 44 = snd (timeToNTPTime t)
  /\ binary_Write (createNTPPacket t) = requestBytes t.
Proof.
  pose proof (timeToNTPTime_range t) as [Hs Hf].
  unfold requestBytes, createNTPPacket.
  destruct (timeToNTPTime t) as [seconds fraction]. cbn [fst snd] in *.
  split; [reflexivity|]. split; [reflexivity|]. split; [|split; [|split]].
  - intros i Hi.
    do 40 (destruct i as [|i]; [first [lia | reflexivity]|]). lia.
  - cbn [app replicate]. rewrite !Uint32_skip_cons.
    rewrite Uint32_here. apply Z.mod_small. lia.
  - cbn [app replicate]. rewrite !Uint32_skip_cons, Uint32_skip4.
    rewrite Uint32_last. apply Z.mod_small. lia.
  - reflexivity.
Qed.

(** X2.  [binary.Write] produces 48 bytes, and [binary.Read] recovers from
    them every field of a packet whose fields fit their types. *)
Theorem X2_packet_wire_round_trip (p : NTPPacket.t) :
  wellTyped p ->
  length (binary_Write p) = 48%nat /\ binary_Read (binary_Write p) = p.
Proof.
  intros Hp. split; [reflexivity|].
  destruct p. unfold wellTyped in Hp. cbn in Hp.
  unfold binary_Read, binary_Write. cbn [NTPPacket.Settings NTPPacket.Stratum
    NTPPacket.Poll NTPPacket.Precision NTPPacket.RootDelay NTPPacket.RootDispersion
    NTPPacket.ReferenceID NTPPacket.RefTimeSec NTPPacket.RefTimeFrac
    NTPPacket.OrigTimeSec NTPPacket.OrigTimeFrac NTPPacket.RxTimeSec
    NTPPacket.RxTimeFrac NTPPacket.TxTimeSec NTPPacket.TxTimeFrac app].
  rewrite !byteAt_skip_cons, !byteAt_cons_byteOf.
  rewrite !Uint32_skip_cons, !Uint32_skip4, !Uint32_here, Uint32_last.
  rewrite !int8_byte by lia.
  change 256 with (2 ^ 8).
  rewrite !Z.mod_small by lia. reflexivity.
Qed.

Lemma X2_packet_wire_round_trip_witness :
  binary_Read (binary_Write (createNTPPacket (at2020 0 0)))
  = createNTPPacket (at2020 0 0).
Proof.
  apply (X2_packet_wire_round_trip (createNTPPacket (at2020 0 0))).
  vm_compute. repeat split; congruence.
Defined.

Lemma respBuffer_full (datagram : list Byte.byte) :
  (48 <= length datagram)%nat -> respBuffer datagram = take 48 datagram.
Proof.
  intros Hlen. unfold respBuffer, conn_Read. cbn [fst].
  replace (48 - length datagram)%nat with 0%nat by lia.
  cbn [replicate]. apply app_nil_r.
Qed.

(** X3.  The two variants of the exchange agree: on any network behaviour
    in which a delivered datagram has at least 48 bytes, the struct
    variant, reading the datagram with [binary.Read], returns exactly what
    the byte-level variant returns, result or error. *)
Theorem X3_exchange_variants_agree (server : string) (timeout : Duration)
    (w : Net (list Byte.byte)) :
  (forall datagram, readRes w = inr datagram -> (48 <= length datagram)%nat) ->
  syncWithServer server timeout (decoded w) = syncWithServerBinary server timeout w.
Proof.
  intros Hlen.
  unfold syncWithServer, syncWithServerBinary, decoded.
  cbn [splitHostPortErr dialErr setDeadlineErr now1 writeErr readRes now4 nowResult].
  destruct (dialErr w); [reflexivity|].
  destruct (setDeadlineErr w); [reflexivity|].
  destruct (writeErr w); [reflexivity|].
  destruct (readRes w) as [err | datagram]; [reflexivity|].
  specialize (Hlen datagram eq_refl).
  pose proof (respBuffer_full datagram Hlen) as Hbuf.
  pose proof (proj2 (conn_Read_full datagram) Hlen) as Hfull.
  unfold respBuffer in Hbuf.
  destruct (conn_Read datagram) as [respBytes bytesRead]. cbn [fst snd] in *.
  subst respBytes. rewrite Hfull. reflexivity.
Qed.

Lemma X3_exchange_variants_agree_witness :
  syncWithServer "pool.ntp.org" (5 * Second) (decoded sampleNet) = Ok sampleResult.
Proof.
  rewrite (X3_exchange_variants_agree "pool.ntp.org" (5 * Second) sampleNet).
  - vm_compute. reflexivity.
  - intros datagram [= <-]. vm_compute. lia.
Defined.

(** X4.  The byte-level exchange looks at the first 48 bytes only.  A
    datagram shorter than 48 bytes is rejected with the size error that
    carries its length, whatever it contains; a longer datagram is cut:
    the outcome is that of its first 48 bytes. *)
Theorem X4_response_size (server : string) (timeout : Duration)
    (w : Net (list Byte.byte)) (datagram : list Byte.byte) :
  dialErr w = None -> setDeadlineErr w = None -> writeErr w = None ->
  readRes w = inr datagram ->
  ((length datagram < 48)%nat ->
   syncWithServerBinary server timeout w
   = Err (ErrResponseSize (Z.of_nat (length datagram))))
  /\ ((48 <= length datagram)%nat ->
      syncWithServerBinary server timeout w
      = syncWithServerBinary server timeout
          (mkNet (splitHostPortErr w) None None (now1 w) None
                 (inr (take 48 datagram)) (now4 w) (nowResult w))).
Proof.
  intros Hd Hs Hw Hr. split; intros Hlen.
  - unfold syncWithServerBinary. rewrite Hd, Hs, Hw, Hr.
    unfold conn_Read.
    replace (Nat.min 48 (length datagram)) with (length datagram) by lia.
    destruct (Z.eqb_spec (Z.of_nat (length datagram)) 48) as [H48|_]; [lia|].
    reflexivity.
  - rewrite (syncWithServerBinary_delivered server timeout w datagram) by assumption.
    rewrite (syncWithServerBinary_delivered server timeout _ (take 48 datagram));
      try reflexivity.
    + cbn [now1 now4 nowResult splitHostPortErr].
      rewrite (respBuffer_full datagram Hlen).
      rewrite (respBuffer_full (take 48 datagram)), take_take; [reflexivity|].
      rewrite length_take. lia.
    + rewrite length_take. lia.
Qed.

Lemma X4_response_size_witness :
  syncWithServerBinary "pool.ntp.org" (5 * Second)
    (delivered (at2020 0 0) (at2020 1 1) (take 47 sampleResponse))
  = Err (ErrResponseSize 47).
Proof.
  apply (proj1 (X4_response_size "pool.ntp.org" (5 * Second)
                  (delivered (at2020 0 0) (at2020 1 1) (take 47 sampleResponse))
                  (take 47 sampleResponse) eq_refl eq_refl eq_refl eq_refl)).
  vm_compute. lia.
Defined.

(** X5.  Decoding a protocol timestamp and encoding it again: for 32-bit
    seconds and fraction, [ntpTimeToTime] gives an instant without
    monotonic reading between 1970-01-01 and 2106-02-07 whose unix second
    is (seconds - 2208988800) modulo 2^32, and [timeToNTPTime] of that
    instant gives back the same seconds and a fraction that is lower than
    the original by at most 5 units of 2^-32 s. *)
Theorem X5_timestamp_decode_encode (seconds fraction : Z) :
  0 <= seconds < 2 ^ 32 -> 0 <= fraction < 2 ^ 32 ->
  let t := ntpTimeToTime seconds fraction in
  mono t = None
  /\ Time_Unix t = (seconds - 2208988800) mod 2 ^ 32
  /\ 0 <= wall t < 2 ^ 32 * 10 ^ 9
  /\ fst (timeToNTPTime t) = seconds
  /\ fraction - 5 <= snd (timeToNTPTime t) <= fraction.
Proof.
  intros Hs Hf t.
  destruct (ntpTimeToTime_range seconds fraction Hf) as [Hw Hm]. fold t in Hw, Hm.
  assert (Hwall : wall t = (seconds - 2208988800) mod 2 ^ 32 * 10 ^ 9
                           + fraction * 10 ^ 9 / 2 ^ 32).
  { unfold t, ntpTimeToTime, time_Unix, div64, mul64, uint32, ntpEpoch. cbn [wall].
    change 0x100000000 with (2 ^ 32). change 1000000000 with (10 ^ 9).
    rewrite (int64_small (fraction * 10 ^ 9)) by lia.
    rewrite Z.quot_div_nonneg by lia.
    assert (Hq : 0 <= fraction * 10 ^ 9 / 2 ^ 32 < 10 ^ 9).
    { split; [apply Z.div_pos; lia | apply Z.div_lt_upper_bound; lia]. }
    rewrite int64_small by lia. reflexivity. }
  assert (Hq : 0 <= fraction * 10 ^ 9 / 2 ^ 32 < 10 ^ 9).
  { split; [apply Z.div_pos; lia | apply Z.div_lt_upper_bound; lia]. }
  pose proof (Z.mod_pos_bound (seconds - 2208988800) (2 ^ 32) ltac:(lia)) as Hsec.
  assert (Hunix : Time_Unix t = (seconds - 2208988800) mod 2 ^ 32).
  { unfold Time_Unix. rewrite Hwall. change 1000000000 with (10 ^ 9).
    rewrite Z.add_comm, Z.div_add by lia. rewrite Z.div_small by lia. lia. }
  assert (Hns : Time_Nanosecond t = fraction * 10 ^ 9 / 2 ^ 32).
  { unfold Time_Nanosecond. rewrite Hwall. change 1000000000 with (10 ^ 9).
    rewrite Z.add_comm, Z.mod_add by lia. apply Z.mod_small. lia. }
  split; [exact Hm|]. split; [exact Hunix|]. split; [exact Hw|]. split.
  - rewrite timeToNTPTime_seconds, Hunix.
    rewrite Zplus_mod_idemp_l.
    replace (seconds - 2208988800 + 2208988800) with seconds by lia.
    apply Z.mod_small. lia.
  - destruct (timeToNTPTime_fraction t) as [-> _]. rewrite Hns.
    set (ns := fraction * 10 ^ 9 / 2 ^ 32) in *.
    assert (H1 : ns * 2 ^ 32 <= fraction * 10 ^ 9).
    { unfold ns. rewrite Z.mul_comm. apply Z.mul_div_le. lia. }
    assert (H2 : fraction * 10 ^ 9 < (ns + 1) * 2 ^ 32).
    { unfold ns. pose proof (Z.mod_pos_bound (fraction * 10 ^ 9) (2 ^ 32) ltac:(lia)).
      pose proof (Z.div_mod (fraction * 10 ^ 9) (2 ^ 32) ltac:(lia)). lia. }
    split.
    + apply Z.div_le_lower_bound; lia.
    + apply Z.div_le_upper_bound; lia.
Qed.

(** The NTP timestamp of 2020-01-01T00:00:00.5Z comes back unchanged. *)
Lemma X5_timestamp_decode_encode_witness :
  fst (timeToNTPTime (ntpTimeToTime 3786825600 0x80000000)) = 3786825600
  /\ 0x80000000 - 5 <= snd (timeToNTPTime (ntpTimeToTime 3786825600 0x80000000))
     <= 0x80000000.
Proof.
  pose proof (X5_timestamp_decode_encode 3786825600 0x80000000
                ltac:(lia) ltac:(lia)) as H.
  cbv zeta in H. destruct H as (_ & _ & _ & Hs & Hf).
  split; [exact Hs | exact Hf].
Defined.

(* ===================================================================== *)
(** ** The strategies, seen from the caller *)
(* ===================================================================== *)






(** X7.  A sync strategy writes nothing but [TimeOffset] and [LastSync]:
    the server list, the timeouts, the scheduler fields, the counters, the
    last error and the server manager of the client are the same after
    [SyncWithMultiServer], [SyncWithBinary] and
    [SyncWithMultiServerParallel], whether they succeed or fail; and when
    they fail, [TimeOffset] and [LastSync] are the same as well. *)
Theorem X7_strategies_frame (n : NTPSync.t) (nets : nat -> Net (list Byte.byte))
    (completion : list nat) (now : Time) :
  let same n' :=
    NTPSync.Servers n' = NTPSync.Servers n
    /\ NTPSync.Timeout n' = NTPSync.Timeout n
    /\ NTPSync.SyncInterval n' = NTPSync.SyncInterval n
    /\ NTPSync.AutoSync n' = NTPSync.AutoSync n
    /\ NTPSync.stopChan n' = NTPSync.stopChan n
    /\ NTPSync.syncWaitGroup n' = NTPSync.syncWaitGroup n
    /\ NTPSync.serverManager n' = NTPSync.serverManager n
    /\ NTPSync.lastError n' = NTPSync.lastError n
    /\ NTPSync.successCount n' = NTPSync.successCount n
    /\ NTPSync.errorCount n' = NTPSync.errorCount n in
  (same (fst (fst (SyncWithMultiServer n nets now)))
   /\ (snd (fst (SyncWithMultiServer n nets now)) <> None ->
       fst (fst (SyncWithMultiServer n nets now)) = n))
  /\ (same (fst (fst (SyncWithBinary n nets now)))
      /\ (snd (fst (SyncWithBinary n nets now)) <> None ->
          fst (fst (SyncWithBinary n nets now)) = n))
  /\ (same (fst (SyncWithMultiServerParallel n nets completion now))
      /\ (snd (SyncWithMultiServerParallel n nets completion now) <> None ->
          fst (SyncWithMultiServerParallel n nets completion now) = n)).
Proof.
  intros same.
  assert (Hseq : same (fst (fst (SyncWithMultiServer n nets now)))
                 /\ (snd (fst (SyncWithMultiServer n nets now)) <> None ->
                     fst (fst (SyncWithMultiServer n nets now)) = n)).
  { destruct (SyncWithMultiServer_outcome n nets now)
      as [(err & c & H) | (j & r & c & _ & _ & H)]; rewrite H; cbn [fst snd].
    - split; [unfold same; repeat split | reflexivity].
    - split; [unfold same; repeat split | congruence]. }
  split; [exact Hseq|]. split; [exact Hseq|].
  unfold SyncWithMultiServerParallel.
  destruct (length (NTPSync.Servers n) =? 0)%nat;
    [cbn [fst snd]; split; [unfold same; repeat split | reflexivity]|].
  destruct (fold_left better _ None) as [winner|].
  - cbn [fst snd]. split; [unfold same; repeat split | congruence].
  - destruct (fold_left (fun _ err => Some err) _ None);
      cbn [fst snd]; (split; [unfold same; repeat split | reflexivity]).
Qed.

(** Two unreachable servers: failover fails and the client is the same. *)
Lemma X7_strategies_frame_witness :
  fst (fst (SyncWithMultiServer (client ["a.example"; "b.example"]%string)
              (fun _ => unreachable) adoptionTime))
  = client ["a.example"; "b.example"]%string.
Proof.
  apply (proj2 (proj1 (X7_strategies_frame (client ["a.example"; "b.example"]%string)
                         (fun _ => unreachable) [] adoptionTime))).
  vm_compute. discriminate.
Defined.

(* ===================================================================== *)
(** ** The client's server list and settings *)
(* ===================================================================== *)

Lemma set_Servers_same (n : NTPSync.t) : NTPSync.set_Servers (NTPSync.Servers n) n = n.
Proof. destruct n. reflexivity. Qed.

Lemma removeFirst_absent (server : string) (l : list string) :
  server ∉ l -> ServerManager.removeFirst server l = l.
Proof.
  induction l as [|s rest IH]; intros Hnot; [reflexivity|].
  apply not_elem_of_cons in Hnot as [Hne Hrest]. cbn.
  destruct (String.eqb_spec s server) as [-> | _]; [contradiction|].
  rewrite IH by exact Hrest. reflexivity.
Qed.

Lemma removeFirst_middle (server : string) (pre post : list string) :
  server ∉ pre -> ServerManager.removeFirst server (pre ++ server :: post) = pre ++ post.
Proof.
  induction pre as [|s pre IH]; intros Hnot; cbn.
  - rewrite String.eqb_refl. reflexivity.
  - apply not_elem_of_cons in Hnot as [Hne Hrest].
    destruct (String.eqb_spec s server) as [-> | _]; [contradiction|].
    rewrite IH by exact Hrest. reflexivity.
Qed.

Lemma AddServer_absent (server : string) (n : NTPSync.t) :
  server ∉ NTPSync.Servers n ->
  AddServer server n = NTPSync.set_Servers (NTPSync.Servers n ++ [server]) n.
Proof.
  intros Hnot. unfold AddServer.
  destruct (hasServer server (NTPSync.Servers n)) eqn:Hhas; [|reflexivity].
  apply hasServer_spec in Hhas. contradiction.
Qed.

Lemma RemoveServer_absent (server : string) (n : NTPSync.t) :
  server ∉ NTPSync.Servers n -> RemoveServer server n = (n, false).
Proof.
  intros Hnot. unfold RemoveServer.
  destruct (hasServer server (NTPSync.Servers n)) eqn:Hhas; [|reflexivity].
  apply hasServer_spec in Hhas. contradiction.
Qed.

Lemma RemoveServer_first (server : string) (n : NTPSync.t) (pre post : list string) :
  NTPSync.Servers n = pre ++ server :: post -> server ∉ pre ->
  RemoveServer server n = (NTPSync.set_Servers (pre ++ post) n, true).
Proof.
  intros Hsrv Hpre. unfold RemoveServer.
  assert (Hin : server ∈ NTPSync.Servers n).
  { rewrite Hsrv. apply elem_of_app. right. apply list_elem_of_here. }
  apply hasServer_spec in Hin. rewrite Hin, Hsrv.
  rewrite removeFirst_middle by exact Hpre. reflexivity.
Qed.

(** X8.  [RemoveServer] on the client reports whether the address was in
    the list and removes its first occurrence only: an absent address
    leaves the client unchanged and gives false; otherwise the entries
    before and after the first occurrence remain, in order, and the
    result is true.  From a list without duplicates the address is then
    gone. *)
Theorem X8_RemoveServer (server : string) (n : NTPSync.t) :
  (server ∉ NTPSync.Servers n -> RemoveServer server n = (n, false))
  /\ (forall pre post,
        NTPSync.Servers n = pre ++ server :: post -> server ∉ pre ->
        RemoveServer server n = (NTPSync.set_Servers (pre ++ post) n, true))
  /\ (NoDup (NTPSync.Servers n) ->
      server ∉ NTPSync.Servers (fst (RemoveServer server n))).
Proof.
  split; [exact (RemoveServer_absent server n)|].
  split; [exact (RemoveServer_first server n)|].
  intros Hnd.
  destruct (decide (server ∈ NTPSync.Servers n)) as [Hin | Hnot].
  - apply list_elem_of_split in Hin as (pre & post & Hsrv).
    rewrite Hsrv in Hnd. apply NoDup_app in Hnd as (_ & Hdis & Hpost).
    apply NoDup_cons in Hpost as [Hnp _].
    assert (Hpre : server ∉ pre).
    { intros Hin. apply (Hdis server Hin). apply list_elem_of_here. }
    rewrite (RemoveServer_first server n pre post Hsrv Hpre). cbn.
    rewrite elem_of_app. tauto.
  - rewrite (RemoveServer_absent server n Hnot). exact Hnot.
Qed.

(** Removing the second of three servers. *)
Lemma X8_RemoveServer_witness :
  RemoveServer "b.example" (client ["a.example"; "b.example"; "c.example"]%string)
  = (client ["a.example"; "c.example"]%string, true).
Proof.
  apply (proj1 (proj2 (X8_RemoveServer "b.example"
                         (client ["a.example"; "b.example"; "c.example"]%string)))
           ["a.example"%string] ["c.example"%string] eq_refl).
  intros H. apply list_elem_of_singleton in H. discriminate H.
Defined.

(** X9.  Adding an address that is not in the list and removing it again
    gives back the client as it was; removing an address and adding it
    again moves it to the end of the list. *)
Theorem X9_AddServer_RemoveServer (server : string) (n : NTPSync.t) :
  (server ∉ NTPSync.Servers n ->
   RemoveServer server (AddServer server n) = (n, true))
  /\ (forall pre post,
        NTPSync.Servers n = pre ++ server :: post -> server ∉ pre -> server ∉ post ->
        NTPSync.Servers (AddServer server (fst (RemoveServer server n)))
        = pre ++ post ++ [server]).
Proof.
  split.
  - intros Hnot.
    rewrite (AddServer_absent server n Hnot).
    rewrite (RemoveServer_first server _ (NTPSync.Servers n) []) by (auto; reflexivity).
    rewrite app_nil_r. destruct n. reflexivity.
  - intros pre post Hsrv Hpre Hpost.
    rewrite (RemoveServer_first server n pre post Hsrv Hpre). cbn [fst].
    rewrite AddServer_absent.
    + cbn. rewrite <- app_assoc. reflexivity.
    + cbn. rewrite elem_of_app. tauto.
Qed.

(** A second server is added and removed again. *)
Lemma X9_AddServer_RemoveServer_witness :
  RemoveServer "time.google.com"
    (AddServer "time.google.com" (client ["pool.ntp.org"%string]))
  = (client ["pool.ntp.org"%string], true).
Proof.
  apply (proj1 (X9_AddServer_RemoveServer "time.google.com"
                  (client ["pool.ntp.org"%string]))).
  cbn. intros H. apply list_elem_of_singleton in H. discriminate H.
Defined.

(** X10.  [New] refuses an empty server list, but [RemoveServer] can
    empty the list of a client.  When the only server of a client is
    removed, [RemoveServer] returns true and the list is empty; then,
    whatever the network would answer, [SyncWithMultiServer] and
    [SyncWithBinary] fail with the no-servers error, contact no server
    and leave the client unchanged, [SyncWithMultiServerParallel] fails
    with that error and leaves the client unchanged, and
    [GetStatusBinary] and [GetMultiServerStatus] return that error and no
    statuses. *)
Theorem X10_emptied_client (server : string) (n : NTPSync.t) :
  NTPSync.Servers n = [server] ->
  let n0 := fst (RemoveServer server n) in
  (forall opts, Options.Servers opts = [] -> New opts = Err ErrNoServersProvided)
  /\ snd (RemoveServer server n) = true
  /\ NTPSync.Servers n0 = []
  /\ (forall nets now,
        SyncWithMultiServer n0 nets now = (n0, Some ErrNoServersConfigured, [])
        /\ SyncWithBinary n0 nets now = (n0, Some ErrNoServersConfigured, []))
  /\ (forall nets completion now,
        SyncWithMultiServerParallel n0 nets completion now
        = (n0, Some ErrNoServersConfigured))
  /\ (forall nets nows, GetStatusBinary n0 nets nows = Err ErrNoServersConfigured)
  /\ (forall nets nows completion,
        GetMultiServerStatus n0 nets nows completion = Err ErrNoServersConfigured).
Proof.
  intros Hsrv n0. unfold n0.
  rewrite (RemoveServer_first server n [] [] Hsrv) by (intros H; inversion H).
  cbn [fst snd app].
  split; [intros opts Hopts; unfold New; rewrite Hopts; reflexivity|].
  split; [reflexivity|]. split; [reflexivity|].
  repeat split.
Qed.

(** The client [New] builds for one server, after that server is removed:
    [New] would not build it, and the sequential strategy contacts
    nobody. *)
Lemma X10_emptied_client_witness :
  New (Options.mk [] 0 0 false false) = Err ErrNoServersProvided
  /\ SyncWithMultiServer (fst (RemoveServer "pool.ntp.org" (client ["pool.ntp.org"%string])))
       (fun _ => sampleNet) adoptionTime
     = (fst (RemoveServer "pool.ntp.org" (client ["pool.ntp.org"%string])),
        Some ErrNoServersConfigured, []).
Proof.
  pose proof (X10_emptied_client "pool.ntp.org" (client ["pool.ntp.org"%string]) eq_refl)
    as H. cbv zeta in H.
  destruct H as (Hnew & _ & _ & Hseq & _).
  split.
  - apply Hnew. reflexivity.
  - exact (proj1 (Hseq (fun _ => sampleNet) adoptionTime)).
Defined.

(* ===================================================================== *)
(** ** Status queries *)
(* ===================================================================== *)

(** The status the query records for the server at index [i]. *)
Lemma statusLoop_map (timeout : Duration) (nets : nat -> Net (list Byte.byte))
    (nows : nat -> Time) (servers : list string) :
  forall i,
    statusLoop timeout nets nows i servers
    = map (fun k =>
             probeStatus (nth k servers ""%string)
               (syncWithServerBinary (nth k servers ""%string) timeout (nets (i + k)%nat))
               (nows (i + k)%nat))
          (seq 0 (length servers)).
Proof.
  induction servers as [|server rest IH]; intros i; [reflexivity|].
  cbn [statusLoop length seq map nth]. rewrite Nat.add_0_r. f_equal.
  rewrite IH, <- seq_shift, map_map.
  apply map_ext. intros k. cbn [nth].
  replace (S i + k)%nat with (i + S k)%nat by lia. reflexivity.
Qed.

(** X11.  [GetStatusBinary] on a client with servers returns one status
    per configured server, in the order of the list.  The status of a
    server carries the address as configured (without the port the
    exchange may append); it is reachable exactly when the exchange with
    that server succeeds, and then holds the RTT, stratum and offset of
    the result; otherwise its other fields are zero.  The query does not
    touch the client. *)
Theorem X11_GetStatusBinary (n : NTPSync.t) (nets : nat -> Net (list Byte.byte))
    (nows : nat -> Time) :
  NTPSync.Servers n <> [] ->
  exists statuses,
    GetStatusBinary n nets nows = Ok statuses
    /\ length statuses = length (NTPSync.Servers n)
    /\ forall i server,
         NTPSync.Servers n !! i = Some server ->
         exists st,
           statuses !! i = Some st
           /\ ServerStatus.Address st = server
           /\ match attempt n nets i with
              | Ok r =>
                  ServerStatus.Reachable st = true
                  /\ ServerStatus.LastResponse st = nows i
                  /\ ServerStatus.RTT st = SyncResult.RTT r
                  /\ ServerStatus.Stratum st = SyncResult.Stratum r
                  /\ ServerStatus.Offset st = SyncResult.Offset r
              | Err _ => st = ServerStatus.mk server false zeroTime 0 0 0
              end.
Proof.
  intros Hne. unfold GetStatusBinary.
  destruct (Nat.eqb_spec (length (NTPSync.Servers n)) 0) as [H0|_].
  { destruct (NTPSync.Servers n); [congruence | discriminate H0]. }
  eexists. split; [reflexivity|].
  rewrite statusLoop_map. split; [rewrite length_map, length_seq; reflexivity|].
  intros i server Hi.
  pose proof (lookup_lt_Some _ _ _ Hi) as Hlt.
  assert (Hnth : nth i (NTPSync.Servers n) ""%string = server).
  { apply nth_lookup_Some with (d := ""%string) in Hi. exact Hi. }
  eexists. split.
  - rewrite list_lookup_fmap, lookup_seq_lt by exact Hlt. reflexivity.
  - cbn [Nat.add]. fold (attempt n nets i). rewrite Hnth.
    destruct (attempt n nets i) as [r | e]; cbn; repeat split.
Qed.

Lemma X11_GetStatusBinary_witness :
  exists statuses,
    GetStatusBinary (client ["a.example"; "pool.ntp.org"]%string) firstDown
      (fun _ => adoptionTime) = Ok statuses
    /\ length statuses = 2%nat.
Proof.
  destruct (X11_GetStatusBinary (client ["a.example"; "pool.ntp.org"]%string) firstDown
              (fun _ => adoptionTime) ltac:(discriminate)) as (statuses & Hrun & Hlen & _).
  exists statuses. split; [exact Hrun | exact Hlen].
Defined.

(** X12.  [GetMultiServerStatus] probes the same servers concurrently: for
    the same behaviour of network and clock it returns the statuses of
    [GetStatusBinary], each once, in the order in which the probes
    complete; they are in list order when the probes complete in list
    order. *)
Theorem X12_GetMultiServerStatus (n : NTPSync.t) (nets : nat -> Net (list Byte.byte))
    (nows : nat -> Time) (completion : list nat) :
  NTPSync.Servers n <> [] ->
  completion ≡ₚ seq 0 (length (NTPSync.Servers n)) ->
  exists sequential concurrent,
    GetStatusBinary n nets nows = Ok sequential
    /\ GetMultiServerStatus n nets nows completion = Ok concurrent
    /\ concurrent ≡ₚ sequential
    /\ (completion = seq 0 (length (NTPSync.Servers n)) -> concurrent = sequential).
Proof.
  intros Hne Hperm. unfold GetStatusBinary, GetMultiServerStatus.
  destruct (Nat.eqb_spec (length (NTPSync.Servers n)) 0) as [H0|_].
  { destruct (NTPSync.Servers n); [congruence | discriminate H0]. }
  eexists _, _. split; [reflexivity|]. split; [reflexivity|].
  rewrite statusLoop_map. cbn [Nat.add]. split.
  - apply Permutation_map. exact Hperm.
  - intros ->. reflexivity.
Qed.

Lemma X12_GetMultiServerStatus_witness :
  exists sequential concurrent,
    GetStatusBinary (client ["a.example"; "pool.ntp.org"]%string) firstDown
      (fun _ => adoptionTime) = Ok sequential
    /\ GetMultiServerStatus (client ["a.example"; "pool.ntp.org"]%string) firstDown
         (fun _ => adoptionTime) [1; 0]%nat = Ok concurrent
    /\ concurrent ≡ₚ sequential.
Proof.
  destruct (X12_GetMultiServerStatus (client ["a.example"; "pool.ntp.org"]%string)
              firstDown (fun _ => adoptionTime) [1; 0]%nat
              ltac:(discriminate) (Permutation_swap _ _ _))
    as (sequential & concurrent & H1 & H2 & H3 & _).
  exists sequential, concurrent. auto.
Defined.

(* ===================================================================== *)
(** ** Settings and the calibrated clock *)
(* ===================================================================== *)

Lemma positive_default_timeout (d : Z) : 0 < (if d <=? 0 then DefaultTimeout else d).
Proof. unfold DefaultTimeout, Second. destruct (Z.leb_spec d 0); lia. Qed.

Lemma positive_default_interval (d : Z) : 0 < (if d <=? 0 then DefaultSyncInterval else d).
Proof. unfold DefaultSyncInterval, Hour, Second. destruct (Z.leb_spec d 0); lia. Qed.

Lemma New_settings (opts : Options.t) (n : NTPSync.t) (started : list goroutine) :
  New opts = Ok (n, started) ->
  NTPSync.Timeout n = (if Options.Timeout opts <=? 0 then DefaultTimeout
                       else Options.Timeout opts)
  /\ NTPSync.SyncInterval n = (if Options.SyncInterval opts <=? 0 then DefaultSyncInterval
                               else Options.SyncInterval opts)
  /\ NTPSync.Servers n = Options.Servers opts
  /\ NTPSync.TimeOffset n = 0 /\ NTPSync.LastSync n = zeroTime
  /\ NTPSync.lastError n = None
  /\ NTPSync.successCount n = 0 /\ NTPSync.errorCount n = 0
  /\ NTPSync.syncWaitGroup n = 0.
Proof.
  unfold New.
  destruct (length (Options.Servers opts) =? 0)%nat; [discriminate|]. cbv zeta.
  destruct (Options.EnableMultiServer opts);
    [destruct (ServerManager.NewServerManager _ _) as [sm | e]; [|discriminate]|];
    destruct (Options.AutoSync opts) eqn:Ha; cbn; try discriminate;
    intros [= <- <-]; cbn; repeat split.
Qed.
(** X13.  The request timeout and the sync interval of a client are
    always positive: [New], [SetTimeout], [SetSyncInterval] and
    [SetPeriodicSyncInterval] keep a positive value as given and replace a
    zero or negative one by the default, 5 seconds (in nanoseconds) for the
    timeout and one hour for the interval; each setter leaves the other setting alone. *)
Theorem X13_settings_positive :
  DefaultTimeout = 5000000000 /\ DefaultSyncInterval = 3600000000000
  /\ (forall opts n started,
     New opts = Ok (n, started) ->
     NTPSync.Timeout n = (if Options.Timeout opts <=? 0 then DefaultTimeout
                          else Options.Timeout opts)
     /\ NTPSync.SyncInterval n = (if Options.SyncInterval opts <=? 0 then DefaultSyncInterval
                                  else Options.SyncInterval opts)
     /\ 0 < NTPSync.Timeout n /\ 0 < NTPSync.SyncInterval n)
  /\ (forall d n,
        NTPSync.Timeout (SetTimeout d n) = (if d <=? 0 then DefaultTimeout else d)
        /\ 0 < NTPSync.Timeout (SetTimeout d n)
        /\ NTPSync.SyncInterval (SetTimeout d n) = NTPSync.SyncInterval n)
  /\ (forall d n,
        NTPSync.SyncInterval (SetSyncInterval d n) = (if d <=? 0 then DefaultSyncInterval else d)
        /\ 0 < NTPSync.SyncInterval (SetSyncInterval d n)
        /\ NTPSync.Timeout (SetSyncInterval d n) = NTPSync.Timeout n
        /\ SetPeriodicSyncInterval d n = SetSyncInterval d n).
Proof.
  split; [vm_compute; reflexivity|]. split; [vm_compute; reflexivity|].
  split; [|split].
  - intros opts n started Hnew.
    apply New_settings in Hnew as (-> & -> & _).
    split; [reflexivity|]. split; [reflexivity|].
    split; [apply positive_default_timeout | apply positive_default_interval].
  - intros d n. unfold SetTimeout.
    cbn [NTPSync.Timeout NTPSync.SyncInterval NTPSync.set_Timeout].
    split; [reflexivity|]. split; [apply positive_default_timeout | reflexivity].
  - intros d n. unfold SetSyncInterval, SetPeriodicSyncInterval.
    cbn [NTPSync.Timeout NTPSync.SyncInterval NTPSync.set_SyncInterval].
    split; [reflexivity|]. split; [apply positive_default_interval|].
    split; reflexivity.
Qed.

Lemma X13_settings_positive_witness :
  0 < NTPSync.Timeout (client ["pool.ntp.org"%string])
  /\ 0 < NTPSync.SyncInterval (client ["pool.ntp.org"%string]).
Proof.
  destruct (proj1 (proj2 (proj2 X13_settings_positive)) plainOptions (client ["pool.ntp.org"%string]) [])
    as (_ & _ & Ht & Hi).
  - vm_compute. reflexivity.
  - split; [exact Ht | exact Hi].
Defined.

Lemma Time_Add_elapsed (t : Time) (d : Duration) : elapsed (Time_Add t d) t = d.
Proof.
  unfold elapsed, Time_Add. cbn [wall mono].
  destruct (mono t) as [m|]; [|lia].
  destruct (decide (int64 (m + d) = m + d)); lia.
Qed.

(** X14.  [Now] is the local clock shifted by the current offset: the
    calibrated time minus the clock reading it was computed from is
    [TimeOffset], for any offset that is an [int64] duration.  After a
    strategy has adopted the result of an exchange, that difference is
    the offset of the result. *)
Theorem X14_Now_offset (n : NTPSync.t) (t : Time) :
  (- 2 ^ 63 <= NTPSync.TimeOffset n < 2 ^ 63 ->
   Time_Sub (Now n t) t = NTPSync.TimeOffset n
   /\ wall (Now n t) = wall t + NTPSync.TimeOffset n)
  /\ (forall server timeout w r now,
        syncWithServerBinary server timeout w = Ok r ->
        Time_Sub (Now (adopt r now n) t) t = SyncResult.Offset r).
Proof.
  split.
  - intros Hr. unfold Now, Time_Sub. rewrite Time_Add_elapsed.
    split; [apply saturate_small; lia | reflexivity].
  - intros server timeout w r now Hok.
    apply syncWithServerBinary_Ok in Hok as (dg & _ & _ & _ & _ & Ho & _).
    unfold Now, Time_Sub. rewrite Time_Add_elapsed. cbn.
    apply saturate_small. rewrite Ho. unfold exchangeOffset, div64.
    pose proof (int64_range
      (add64 (Time_Sub (rxTime (respBuffer dg)) (now1 w))
             (Time_Sub (txTime (respBuffer dg)) (now4 w)) ÷ 2)). lia.
Qed.

(** After adopting the sample result, the calibrated clock is 0.45 s
    ahead of the local clock. *)
Lemma X14_Now_offset_witness :
  Time_Sub (Now (adopt sampleResult adoptionTime (client ["pool.ntp.org"%string]))
              (at2020 7 7)) (at2020 7 7)
  = 450000000.
Proof.
  apply (proj2 (X14_Now_offset (client ["pool.ntp.org"%string]) (at2020 7 7))
           "pool.ntp.org"%string (5 * Second) sampleNet sampleResult adoptionTime).
  vm_compute. reflexivity.
Defined.

(* ===================================================================== *)
(** ** The scheduler as a state machine *)
(* ===================================================================== *)

Lemma call_keeps_shape (c : schedulerCall) (n : NTPSync.t) :
  schedulerShape n -> schedulerShape (call c n).
Proof.
  unfold schedulerShape.
  intros [(Hc & Ha & Hw) | (Ha & Hw)]; destruct c; cbn;
    unfold StartPeriodicSync, Start, StopPeriodicSync, Stop;
    destruct (NTPSync.stopChan n) eqn:Hchan; cbn; try rewrite Hw; auto; try congruence.
Qed.

Lemma calls_keep_shape (calls : list schedulerCall) :
  forall n, schedulerShape n -> schedulerShape (fold_left (fun n c => call c n) calls n).
Proof.
  induction calls as [|c calls IH]; intros n Hn; [exact Hn|].
  cbn [fold_left]. apply IH, call_keeps_shape, Hn.
Qed.

(** X15.  At most one background loop: after any sequence of calls of
    [StartPeriodicSync], [StopPeriodicSync], [Start] and [Stop] on a
    client built by [New], the wait group counts one loop when the
    scheduler is running and none when it is not; [IsRunning] and
    [IsPeriodicSyncRunning] agree; and a further call starts a loop only
    if none is counted, and then exactly one. *)
Theorem X15_at_most_one_loop (opts : Options.t) (n : NTPSync.t)
    (started0 : list goroutine) (calls : list schedulerCall) (next : schedulerCall) :
  New opts = Ok (n, started0) ->
  let n' := fold_left (fun n c => call c n) calls n in
  NTPSync.syncWaitGroup n' = (if IsPeriodicSyncRunning n' then 1 else 0)
  /\ IsRunning n' = IsPeriodicSyncRunning n'
  /\ (started next n' = []
      \/ (NTPSync.syncWaitGroup n' = 0
          /\ NTPSync.syncWaitGroup (call next n') = 1
          /\ (started next n' = [goInitialSync; goPeriodicSyncLoop]
              \/ started next n' = [goInitialSync; goSyncLoop]))).
Proof.
  intros Hnew n'.
  assert (Hshape : schedulerShape n').
  { apply calls_keep_shape. apply New_settings in Hnew as Hs.
    apply New_Ok in Hnew as (_ & _ & _ & Ha).
    right. split; [exact Ha | apply Hs]. }
  clearbody n'. unfold schedulerShape in Hshape.
  unfold IsPeriodicSyncRunning, IsRunning.
  split; [|split; [reflexivity|]].
  - destruct Hshape as [(-> & -> & ->) | (-> & ->)]; [reflexivity|].
    destruct (NTPSync.stopChan n'); reflexivity.
  - destruct next; cbn; unfold StartPeriodicSync, Start;
      try (left; reflexivity);
      destruct (NTPSync.stopChan n') eqn:Hchan; cbn; try (left; reflexivity);
      right; (destruct Hshape as [(Hc & _) | (_ & ->)]; [congruence|]); auto.
Qed.

(** The test's workaround, then a second start through the older API. *)
Lemma X15_at_most_one_loop_witness :
  NTPSync.syncWaitGroup
    (fold_left (fun n c => call c n)
       [callStopPeriodicSync; callStartPeriodicSync; callStart]
       (client ["pool.ntp.org"%string]))
  = 1.
Proof.
  pose proof (X15_at_most_one_loop plainOptions (client ["pool.ntp.org"%string]) []
                [callStopPeriodicSync; callStartPeriodicSync; callStart]
                callStart ltac:(vm_compute; reflexivity)) as H.
  cbv zeta in H. destruct H as (Hw & _). exact Hw.
Defined.

(** X16.  Stopping and starting compose as expected on every client
    state.  [StopPeriodicSync] leaves the scheduler not running, does
    nothing on a client whose channel is already closed, and is
    idempotent.  A start right after a stop always succeeds, starts the
    initial sync and one loop, and leaves the scheduler running; a start
    right after a successful start is refused with the already-running
    error and changes nothing.  None of them touches the server list, the
    offset, the last sync time or the counters. *)
Theorem X16_stop_then_start (n : NTPSync.t) :
  IsPeriodicSyncRunning (StopPeriodicSync n) = false
  /\ (NTPSync.stopChan n = chanClosed -> StopPeriodicSync n = n)
  /\ StopPeriodicSync (StopPeriodicSync n) = StopPeriodicSync n
  /\ (exists running,
        StartPeriodicSync (StopPeriodicSync n)
        = (running, [goInitialSync; goPeriodicSyncLoop], None)
        /\ IsPeriodicSyncRunning running = true
        /\ StartPeriodicSync running = (running, [], Some ErrAlreadyRunning)
        /\ NTPSync.Servers running = NTPSync.Servers n
        /\ NTPSync.TimeOffset running = NTPSync.TimeOffset n
        /\ NTPSync.LastSync running = NTPSync.LastSync n
        /\ NTPSync.successCount running = NTPSync.successCount n
        /\ NTPSync.errorCount running = NTPSync.errorCount n).
Proof.
  unfold StopPeriodicSync, IsPeriodicSyncRunning.
  destruct (NTPSync.stopChan n) eqn:Hchan.
  - cbn. split; [reflexivity|]. split; [discriminate|]. split; [reflexivity|].
    eexists. repeat split.
  - rewrite Hchan. split; [reflexivity|]. split; [reflexivity|]. split; [reflexivity|].
    unfold StartPeriodicSync. rewrite Hchan. cbn.
    eexists. repeat split.
Qed.

Lemma X16_stop_then_start_witness :
  StopPeriodicSync (StopPeriodicSync (client ["pool.ntp.org"%string]))
  = StopPeriodicSync (StopPeriodicSync (StopPeriodicSync (client ["pool.ntp.org"%string]))).
Proof.
  symmetry.
  apply (proj1 (proj2 (X16_stop_then_start
                         (StopPeriodicSync (client ["pool.ntp.org"%string]))))).
  reflexivity.
Defined.

(** The bookkeeping after one [Sync]: shared by the forced sync and the
    iterations of the loop. *)
Lemma Sync_cases (n : NTPSync.t) (nets : nat -> Net (list Byte.byte)) (now : Time) :
  (exists err contacted, Sync n nets now = (n, Some err, contacted))
  \/ (exists j r contacted,
        (j < length (NTPSync.Servers n))%nat /\ attempt n nets j = Ok r
        /\ Sync n nets now = (adopt r now n, None, contacted)).
Proof. exact (SyncWithMultiServer_outcome n nets now). Qed.

(** X17.  [ForceSyncNow] returns the error of the sync it runs and counts
    the attempt exactly once.  On failure the error counter goes up by
    one, the error becomes the last error, and offset, last sync time and
    success counter stay as they were.  On success the success counter
    goes up by one, the offset is that of a successful exchange, and the
    last sync time is the later clock reading; the last error is not
    cleared: an error recorded earlier is still reported after a
    success. *)
Theorem X17_ForceSyncNow (n : NTPSync.t) (nets : nat -> Net (list Byte.byte))
    (now now' : Time) :
  snd (ForceSyncNow n nets now now') = snd (fst (Sync n nets now))
  /\ match snd (ForceSyncNow n nets now now') with
     | Some e =>
         NTPSync.errorCount (fst (ForceSyncNow n nets now now'))
         = add64 (NTPSync.errorCount n) 1
         /\ NTPSync.successCount (fst (ForceSyncNow n nets now now'))
            = NTPSync.successCount n
         /\ NTPSync.lastError (fst (ForceSyncNow n nets now now')) = Some e
         /\ NTPSync.TimeOffset (fst (ForceSyncNow n nets now now')) = NTPSync.TimeOffset n
         /\ NTPSync.LastSync (fst (ForceSyncNow n nets now now')) = NTPSync.LastSync n
     | None =>
         NTPSync.successCount (fst (ForceSyncNow n nets now now'))
         = add64 (NTPSync.successCount n) 1
         /\ NTPSync.errorCount (fst (ForceSyncNow n nets now now')) = NTPSync.errorCount n
         /\ NTPSync.lastError (fst (ForceSyncNow n nets now now')) = NTPSync.lastError n
         /\ NTPSync.LastSync (fst (ForceSyncNow n nets now now')) = now'
         /\ exists j r,
              (j < length (NTPSync.Servers n))%nat /\ attempt n nets j = Ok r
              /\ NTPSync.TimeOffset (fst (ForceSyncNow n nets now now'))
                 = SyncResult.Offset r
     end.
Proof.
  unfold ForceSyncNow.
  destruct (Sync_cases n nets now)
    as [(err & c & H) | (j & r & c & Hj & Hok & H)]; rewrite H; cbn.
  - repeat split.
  - repeat split. exists j, r. repeat split; assumption.
Qed.

Lemma count_up (c : Z) : 0 <= c < 2 ^ 63 - 1 -> add64 c 1 = c + 1.
Proof. intros Hc. unfold add64. apply int64_small. lia. Qed.

Lemma periodicSyncLoop_counts (ticks : list Tick) :
  forall n,
    0 <= NTPSync.successCount n -> 0 <= NTPSync.errorCount n ->
    NTPSync.successCount n + NTPSync.errorCount n + Z.of_nat (length ticks) < 2 ^ 63 ->
    let n' := periodicSyncLoop ticks n in
    0 <= NTPSync.successCount n' /\ 0 <= NTPSync.errorCount n'
    /\ NTPSync.successCount n' + NTPSync.errorCount n'
       = NTPSync.successCount n + NTPSync.errorCount n + Z.of_nat (length ticks)
    /\ NTPSync.syncWaitGroup n' = NTPSync.syncWaitGroup n - 1
    /\ NTPSync.Servers n' = NTPSync.Servers n.
Proof.
  induction ticks as [|tick rest IH]; intros n Hs He Hb.
  - cbn. repeat split; lia.
  - cbn [periodicSyncLoop length] in *.
    destruct (Sync_cases n (tickNets tick) (tickNow tick))
      as [(err & c & H) | (j & r & c & Hj & Hok & H)]; rewrite H; cbv zeta.
    + match goal with |- context [periodicSyncLoop rest ?x] => set (m := x) end.
      assert (Hms : NTPSync.successCount m = NTPSync.successCount n) by reflexivity.
      assert (Hme : NTPSync.errorCount m = NTPSync.errorCount n + 1)
        by (cbn; apply count_up; lia).
      assert (Hmw : NTPSync.syncWaitGroup m = NTPSync.syncWaitGroup n) by reflexivity.
      assert (Hmv : NTPSync.Servers m = NTPSync.Servers n) by reflexivity.
      specialize (IH m ltac:(lia) ltac:(lia) ltac:(lia)). cbv zeta in IH.
      destruct IH as (H1 & H2 & H3 & H4 & H5).
      repeat split; try assumption; try lia; congruence.
    + match goal with |- context [periodicSyncLoop rest ?x] => set (m := x) end.
      assert (Hms : NTPSync.successCount m = NTPSync.successCount n + 1)
        by (cbn; apply count_up; lia).
      assert (Hme : NTPSync.errorCount m = NTPSync.errorCount n) by reflexivity.
      assert (Hmw : NTPSync.syncWaitGroup m = NTPSync.syncWaitGroup n) by reflexivity.
      assert (Hmv : NTPSync.Servers m = NTPSync.Servers n) by reflexivity.
      specialize (IH m ltac:(lia) ltac:(lia) ltac:(lia)). cbv zeta in IH.
      destruct IH as (H1 & H2 & H3 & H4 & H5).
      repeat split; try assumption; try lia; congruence.
Qed.

(** X18.  The loop of the scheduler, run on its own until the stop
    signal, counts every firing of its timer exactly once, as a success
    or as an error, whatever the network does: the two counters together
    grow by the number of firings (as long as they stay within [int64]).
    A failure never ends the loop.  When it returns, the loop has left
    the wait group and the server list is as it was. *)
Theorem X18_periodicSyncLoop_counts (ticks : list Tick) (n : NTPSync.t) :
  0 <= NTPSync.successCount n -> 0 <= NTPSync.errorCount n ->
  NTPSync.successCount n + NTPSync.errorCount n + Z.of_nat (length ticks) < 2 ^ 63 ->
  NTPSync.successCount (periodicSyncLoop ticks n)
  + NTPSync.errorCount (periodicSyncLoop ticks n)
  = NTPSync.successCount n + NTPSync.errorCount n + Z.of_nat (length ticks)
  /\ NTPSync.syncWaitGroup (periodicSyncLoop ticks n) = NTPSync.syncWaitGroup n - 1
  /\ NTPSync.Servers (periodicSyncLoop ticks n) = NTPSync.Servers n.
Proof.
  intros Hs He Hb.
  destruct (periodicSyncLoop_counts ticks n Hs He Hb) as (_ & _ & H). exact H.
Qed.

(** Two firings, the server down at the first and answering at the second. *)
Lemma X18_periodicSyncLoop_counts_witness :
  NTPSync.successCount
    (periodicSyncLoop [mkTick (fun _ => unreachable) adoptionTime adoptionTime;
                       mkTick (fun _ => sampleNet) adoptionTime adoptionTime]
       (client ["pool.ntp.org"%string]))
  + NTPSync.errorCount
      (periodicSyncLoop [mkTick (fun _ => unreachable) adoptionTime adoptionTime;
                         mkTick (fun _ => sampleNet) adoptionTime adoptionTime]
         (client ["pool.ntp.org"%string]))
  = 2.
Proof.
  apply (X18_periodicSyncLoop_counts
           [mkTick (fun _ => unreachable) adoptionTime adoptionTime;
            mkTick (fun _ => sampleNet) adoptionTime adoptionTime]
           (client ["pool.ntp.org"%string])); cbn; lia.
Defined.

(* ===================================================================== *)
(** ** The server manager *)
(* ===================================================================== *)

(** The loop of [NewServerManager], from any manager whose addresses are
    not among the new ones. *)
Lemma NewServerManager_fold (srvs : list string) :
  forall sm,
    NoDup (ServerManager.serverOrder sm ++ srvs) ->
    consistent sm ->
    let sm' := fold_left
                 (fun sm server =>
                    ServerManager.mk
                      (<[server := ServerStatus.fresh server]> (ServerManager.servers sm))
                      (ServerManager.serverOrder sm ++ [server]) (ServerManager.timeout sm))
                 srvs sm in
    consistent sm'
    /\ ServerManager.serverOrder sm' = ServerManager.serverOrder sm ++ srvs
    /\ ServerManager.timeout sm' = ServerManager.timeout sm
    /\ (forall s, s ∈ srvs -> ServerManager.servers sm' !! s = Some (ServerStatus.fresh s))
    /\ (forall s, s ∉ srvs ->
          ServerManager.servers sm' !! s = ServerManager.servers sm !! s).
Proof.
  induction srvs as [|server rest IH]; intros sm Hnd Hcons.
  - cbn. rewrite app_nil_r. split; [exact Hcons|]. split; [reflexivity|].
    split; [reflexivity|]. split; [intros s Hs; inversion Hs | reflexivity].
  - cbn [fold_left].
    set (sm1 := ServerManager.mk _ _ _).
    assert (Hnd1 : NoDup (ServerManager.serverOrder sm1 ++ rest)).
    { cbn. rewrite <- app_assoc. exact Hnd. }
    assert (Hfresh : (server ∉ ServerManager.serverOrder sm) /\ (server ∉ rest)).
    { apply NoDup_app in Hnd as (_ & Hdis & Hr). apply NoDup_cons in Hr as [Hr _].
      split; [|exact Hr]. intros Hin. apply (Hdis server Hin), list_elem_of_here. }
    assert (Hcons1 : consistent sm1).
    { destruct Hcons as [Hnd0 Hkeys]. split; cbn.
      - apply NoDup_app. split; [exact Hnd0|]. split; [|apply NoDup_singleton].
        intros x Hx Hx'. apply list_elem_of_singleton in Hx'. subst x.
        apply (proj1 Hfresh Hx).
      - intros a. rewrite elem_of_app, list_elem_of_singleton, lookup_insert_is_Some.
        rewrite Hkeys. destruct (decide (server = a)); subst; intuition congruence. }
    destruct (IH sm1 Hnd1 Hcons1) as (Hc & Ho & Ht & Hin & Hout). cbv zeta.
    split; [exact Hc|]. split; [rewrite Ho; cbn; rewrite <- app_assoc; reflexivity|].
    split; [rewrite Ht; reflexivity|]. split.
    + intros s Hs. apply elem_of_cons in Hs as [-> | Hs]; [|apply Hin, Hs].
      rewrite Hout by apply Hfresh. cbn. apply lookup_insert_eq.
    + intros s Hs. apply not_elem_of_cons in Hs as [Hne Hs].
      rewrite Hout by exact Hs. cbn. apply lookup_insert_ne. congruence.
Qed.

Lemma consistent_empty (tmo : Duration) : consistent (ServerManager.mk ∅ [] tmo).
Proof.
  split; cbn; [apply NoDup_nil_2|].
  intros a. rewrite lookup_empty. split; [intros H; inversion H | intros [x Hx]; discriminate].
Qed.

(** X19.  For a list of distinct addresses [NewServerManager] builds a
    manager whose ranking is the list as given, whose map holds exactly
    these addresses, each with a fresh unreachable status, and whose
    timeout is positive.  The agreement between ranking and map, each
    address of the map once in the ranking, is then kept by [AddServer],
    [RemoveServer] and [UpdateServerStatus]. *)
Theorem X19_manager_consistency :
  (forall srvs tmo,
     srvs <> [] -> NoDup srvs ->
     exists sm,
       ServerManager.NewServerManager srvs tmo = Ok sm
       /\ consistent sm
       /\ ServerManager.serverOrder sm = srvs
       /\ 0 < ServerManager.timeout sm
       /\ forall s, s ∈ srvs ->
            ServerManager.servers sm !! s = Some (ServerStatus.fresh s))
  /\ (forall sm server,
        consistent sm ->
        consistent (fst (ServerManager.AddServer server sm))
        /\ consistent (fst (ServerManager.RemoveServer server sm)))
  /\ (forall sm server st iter,
        consistent sm ->
        ServerManager.mapRange (ServerManager.servers sm) iter ->
        consistent (fst (ServerManager.UpdateServerStatus server st iter sm))).
Proof.
  split; [|split].
  - intros srvs tmo Hne Hnd. unfold ServerManager.NewServerManager.
    destruct (Nat.eqb_spec (length srvs) 0) as [H0|_].
    { destruct srvs; [congruence | discriminate H0]. }
    eexists. split; [reflexivity|].
    destruct (NewServerManager_fold srvs
                (ServerManager.mk ∅ [] (if tmo <=? 0 then DefaultTimeout else tmo)))
      as (Hc & Ho & Ht & Hin & _); [exact Hnd | apply consistent_empty|].
    cbv zeta in *. split; [exact Hc|]. split; [exact Ho|].
    split; [rewrite Ht; apply positive_default_timeout | exact Hin].
  - intros sm server [Hnd Hkeys]. split.
    + unfold ServerManager.AddServer.
      destruct (ServerManager.servers sm !! server) eqn:Hl; [split; assumption|].
      cbn. split; cbn.
      * apply NoDup_app. split; [exact Hnd|]. split; [|apply NoDup_singleton].
        intros x Hx Hx'. apply list_elem_of_singleton in Hx'. subst x.
        apply Hkeys in Hx as [y Hy]. congruence.
      * intros a. rewrite elem_of_app, list_elem_of_singleton, lookup_insert_is_Some.
        rewrite Hkeys. destruct (decide (server = a)); subst; intuition congruence.
    + unfold ServerManager.RemoveServer.
      destruct (ServerManager.servers sm !! server) eqn:Hl; [|split; assumption].
      assert (Hin : server ∈ ServerManager.serverOrder sm) by (apply Hkeys; eauto).
      apply list_elem_of_split in Hin as (pre & post & Horder).
      rewrite Horder in Hnd.
      assert (Hparts : (server ∉ pre) /\ (server ∉ post) /\ NoDup (pre ++ post)).
      { apply NoDup_app in Hnd as (Hpre & Hdis & Hpost).
        apply NoDup_cons in Hpost as [Hnp Hpost].
        split; [intros Hin; apply (Hdis server Hin), list_elem_of_here|].
        split; [exact Hnp|]. apply NoDup_app. split; [exact Hpre|]. split; [|exact Hpost].
        intros x Hx Hx'. apply (Hdis x Hx). apply list_elem_of_further, Hx'. }
      destruct Hparts as (Hpre & Hpost & Hnd').
      cbn. rewrite Horder, removeFirst_middle by exact Hpre.
      split; cbn; [exact Hnd'|].
      intros a. rewrite lookup_delete_is_Some, <- Hkeys, Horder.
      rewrite !elem_of_app, elem_of_cons.
      destruct (decide (server = a)); subst; intuition congruence.
  - intros sm server st iter [Hnd Hkeys] [Hndi Hkeysi].
    unfold ServerManager.UpdateServerStatus.
    destruct (ServerManager.servers sm !! server) eqn:Hl; [|split; assumption].
    cbn. pose proof (SliceStable_Permutation
                       (ServerManager.less (<[server:=st]> (ServerManager.servers sm)))
                       iter) as Hperm.
    split; cbn.
    + rewrite Hperm. exact Hndi.
    + intros a. rewrite Hperm, Hkeysi, lookup_insert_is_Some.
      destruct (decide (server = a)); subst; intuition eauto.
Qed.

Lemma X19_manager_consistency_witness :
  exists sm,
    ServerManager.NewServerManager ["a.example"; "b.example"]%string 0 = Ok sm
    /\ consistent sm.
Proof.
  destruct (proj1 X19_manager_consistency ["a.example"; "b.example"]%string 0)
    as (sm & Hnew & Hcons & _).
  - discriminate.
  - apply NoDup_cons. split; [|apply NoDup_singleton].
    intros H. apply list_elem_of_singleton in H. discriminate H.
  - exists sm. split; [exact Hnew | exact Hcons].
Defined.

(** X20.  [AddServer] on the manager refuses an address that is already
    known, with the exists-error and no change.  A new address is put
    last in the ranking with a fresh unreachable status, which
    [GetServerStatus] then returns, and the status of every other address
    is as before. *)
Theorem X20_manager_AddServer (server : string) (sm : ServerManager.t) :
  (is_Some (ServerManager.servers sm !! server) ->
   ServerManager.AddServer server sm = (sm, Some (ErrServerExists server)))
  /\ (ServerManager.servers sm !! server = None ->
      exists sm',
        ServerManager.AddServer server sm = (sm', None)
        /\ ServerManager.GetServers sm' = ServerManager.GetServers sm ++ [server]
        /\ ServerManager.GetServerStatus server sm' = Ok (ServerStatus.fresh server)
        /\ ServerStatus.Reachable (ServerStatus.fresh server) = false
        /\ forall other, other <> server ->
             ServerManager.GetServerStatus other sm'
             = ServerManager.GetServerStatus other sm).
Proof.
  unfold ServerManager.AddServer. split.
  - intros [st Hst]. rewrite Hst. reflexivity.
  - intros Hnone. rewrite Hnone. eexists. split; [reflexivity|].
    unfold ServerManager.GetServerStatus, ServerManager.GetServers. cbn.
    split; [reflexivity|]. split; [rewrite lookup_insert_eq; reflexivity|].
    split; [reflexivity|].
    intros other Hne. rewrite lookup_insert_ne by congruence. reflexivity.
Qed.

Lemma X20_manager_AddServer_witness :
  ServerManager.AddServer "a.example" managerAB
  = (managerAB, Some (ErrServerExists "a.example")).
Proof.
  apply (proj1 (X20_manager_AddServer "a.example" managerAB)).
  eexists. vm_compute. reflexivity.
Defined.

(** X21.  [RemoveServer] on the manager refuses an unknown address, with
    the unknown-error and no change.  A known address of a consistent
    manager disappears from the map and from the ranking, the other
    addresses keep their status and their relative order.  Adding an
    unknown address to a consistent manager and removing it again gives
    back the manager as it was. *)
Theorem X21_manager_RemoveServer (server : string) (sm : ServerManager.t) :
  (ServerManager.servers sm !! server = None ->
   ServerManager.RemoveServer server sm = (sm, Some (ErrServerUnknown server)))
  /\ (is_Some (ServerManager.servers sm !! server) -> consistent sm ->
      exists sm' pre post,
        ServerManager.RemoveServer server sm = (sm', None)
        /\ ServerManager.GetServers sm = pre ++ server :: post
        /\ ServerManager.GetServers sm' = pre ++ post
        /\ (server ∉ ServerManager.GetServers sm')
        /\ ServerManager.GetServerStatus server sm' = Err (ErrServerUnknown server)
        /\ forall other, other <> server ->
             ServerManager.GetServerStatus other sm'
             = ServerManager.GetServerStatus other sm)
  /\ (ServerManager.servers sm !! server = None -> consistent sm ->
      ServerManager.RemoveServer server (fst (ServerManager.AddServer server sm))
      = (sm, None)).
Proof.
  split; [|split].
  - intros Hnone. unfold ServerManager.RemoveServer. rewrite Hnone. reflexivity.
  - intros [st Hst] [Hnd Hkeys]. unfold ServerManager.RemoveServer. rewrite Hst.
    assert (Hin : server ∈ ServerManager.serverOrder sm) by (apply Hkeys; eauto).
    apply list_elem_of_split in Hin as (pre & post & Horder).
    rewrite Horder in Hnd.
    assert (Hparts : (server ∉ pre) /\ (server ∉ post)).
    { apply NoDup_app in Hnd as (Hpre & Hdis & Hpost).
      apply NoDup_cons in Hpost as [Hnp Hpost].
      split; [intros Hin; apply (Hdis server Hin), list_elem_of_here | exact Hnp]. }
    destruct Hparts as [Hpre Hpost].
    eexists _, pre, post. split; [reflexivity|].
    unfold ServerManager.GetServers, ServerManager.GetServerStatus. cbn.
    rewrite Horder, removeFirst_middle by exact Hpre.
    split; [reflexivity|]. split; [reflexivity|].
    split; [rewrite elem_of_app; tauto|].
    split; [rewrite lookup_delete_eq; reflexivity|].
    intros other Hne. rewrite lookup_delete_ne by congruence. reflexivity.
  - intros Hnone [Hnd Hkeys].
    unfold ServerManager.AddServer. rewrite Hnone. cbn [fst].
    unfold ServerManager.RemoveServer. cbn. rewrite lookup_insert_eq.
    assert (Hnot : server ∉ ServerManager.serverOrder sm).
    { intros Hin. apply Hkeys in Hin as [st Hst]. congruence. }
    rewrite (removeFirst_middle server (ServerManager.serverOrder sm) []) by exact Hnot.
    rewrite app_nil_r, delete_insert_eq.
    rewrite delete_id by exact Hnone. destruct sm. reflexivity.
Qed.

Lemma X21_manager_RemoveServer_witness :
  ServerManager.RemoveServer "c.example"
    (fst (ServerManager.AddServer "c.example" managerAB))
  = (managerAB, None).
Proof.
  apply (proj2 (proj2 (X21_manager_RemoveServer "c.example" managerAB))).
  - vm_compute. reflexivity.
  - split; cbn.
    + apply NoDup_cons. split; [|apply NoDup_singleton].
      intros H. apply list_elem_of_singleton in H. discriminate H.
    + intros a. rewrite <- elem_of_dom, !dom_insert_L, dom_empty_L.
      rewrite !elem_of_union, !elem_of_singleton, !elem_of_cons, elem_of_nil, elem_of_empty.
      tauto.
Defined.

(** X22.  [UpdateServerStatus] refuses an unknown address, with the
    unknown-error and no change.  For a known address it stores the
    status exactly as given (it does not compare the status's own address
    field with the key), leaves every other status as it was, and
    produces a ranking that lists the addresses the range over the map
    yielded. *)
Theorem X22_manager_UpdateServerStatus (server : string) (st : ServerStatus.t)
    (iter : list string) (sm : ServerManager.t) :
  (ServerManager.servers sm !! server = None ->
   ServerManager.UpdateServerStatus server st iter sm
   = (sm, Some (ErrServerUnknown server)))
  /\ (is_Some (ServerManager.servers sm !! server) ->
      exists sm',
        ServerManager.UpdateServerStatus server st iter sm = (sm', None)
        /\ ServerManager.GetServerStatus server sm' = Ok st
        /\ (forall other, other <> server ->
              ServerManager.GetServerStatus other sm'
              = ServerManager.GetServerStatus other sm)
        /\ ServerManager.GetServers sm' ≡ₚ iter
        /\ ServerManager.timeout sm' = ServerManager.timeout sm).
Proof.
  unfold ServerManager.UpdateServerStatus. split.
  - intros Hnone. rewrite Hnone. reflexivity.
  - intros [old Hold]. rewrite Hold. eexists. split; [reflexivity|].
    unfold ServerManager.GetServerStatus, ServerManager.GetServers. cbn.
    split; [rewrite lookup_insert_eq; reflexivity|].
    split; [intros other Hne; rewrite lookup_insert_ne by congruence; reflexivity|].
    split; [apply SliceStable_Permutation | reflexivity].
Qed.

Lemma X22_manager_UpdateServerStatus_witness :
  ServerManager.UpdateServerStatus "c.example" (ServerStatus.fresh "c.example")
    ["a.example"; "b.example"]%string managerAB
  = (managerAB, Some (ErrServerUnknown "c.example")).
Proof.
  apply (proj1 (X22_manager_UpdateServerStatus "c.example" (ServerStatus.fresh "c.example")
                  ["a.example"; "b.example"]%string managerAB)).
  vm_compute. reflexivity.
Defined.

(** The loop of [GetBestServer] on a ranking whose addresses are all in
    the map: it returns the first reachable address, if there is one. *)
Lemma firstReachable_spec (m : gmap string ServerStatus.t) (order : list string) :
  (forall a, a ∈ order -> is_Some (m !! a)) ->
  (exists pre server post,
     order = pre ++ server :: post
     /\ ServerManager.firstReachable m order = Returns (Some server)
     /\ ServerStatus.Reachable (ServerManager.status m server) = true
     /\ forall a, a ∈ pre -> ServerStatus.Reachable (ServerManager.status m a) = false)
  \/ (ServerManager.firstReachable m order = Returns None
      /\ forall a, a ∈ order -> ServerStatus.Reachable (ServerManager.status m a) = false).
Proof.
  induction order as [|s rest IH]; intros Hall.
  - right. split; [reflexivity|]. intros a Ha. inversion Ha.
  - destruct (Hall s (list_elem_of_here _ _)) as [st Hst].
    cbn [ServerManager.firstReachable]. rewrite Hst.
    assert (Hstatus : ServerManager.status m s = st).
    { unfold ServerManager.status. rewrite Hst. reflexivity. }
    destruct (ServerStatus.Reachable st) eqn:Hr.
    + left. exists [], s, rest. split; [reflexivity|]. split; [reflexivity|].
      split; [rewrite Hstatus; exact Hr|]. intros a Ha. inversion Ha.
    + destruct IH as [(pre & server & post & -> & Hrun & Hreach & Hpre) | (Hrun & Hnone)].
      * intros a Ha. apply Hall, list_elem_of_further, Ha.
      * left. exists (s :: pre), server, post. split; [reflexivity|].
        split; [exact Hrun|]. split; [exact Hreach|].
        intros a Ha. apply elem_of_cons in Ha as [-> | Ha]; [|apply Hpre, Ha].
        rewrite Hstatus. exact Hr.
      * right. split; [exact Hrun|].
        intros a Ha. apply elem_of_cons in Ha as [-> | Ha]; [|apply Hnone, Ha].
        rewrite Hstatus. exact Hr.
Qed.

(** X23.  On a consistent manager [GetBestServer] never dereferences a
    missing entry.  It fails, with the no-server error, exactly when the
    manager has no server.  Otherwise it returns an address of the
    ranking: the first one whose status is reachable, when there is one;
    and when no server is reachable, the first address of the ranking,
    which is then unreachable, without any error. *)
Theorem X23_GetBestServer (sm : ServerManager.t) :
  consistent sm ->
  match ServerManager.GetBestServer sm with
  | Panics => False
  | Returns (Err e) => e = ErrNoServerAvailable /\ ServerManager.serverOrder sm = []
  | Returns (Ok best) =>
      exists pre post,
        ServerManager.serverOrder sm = pre ++ best :: post
        /\ (forall a, a ∈ pre ->
              ServerStatus.Reachable
                (ServerManager.status (ServerManager.servers sm) a) = false)
        /\ (ServerStatus.Reachable
              (ServerManager.status (ServerManager.servers sm) best) = true
            \/ (pre = []
                /\ forall a, a ∈ ServerManager.serverOrder sm ->
                     ServerStatus.Reachable
                       (ServerManager.status (ServerManager.servers sm) a) = false))
  end.
Proof.
  intros [Hnd Hkeys]. unfold ServerManager.GetBestServer.
  destruct (ServerManager.serverOrder sm) as [|first rest] eqn:Horder; [auto|].
  destruct (firstReachable_spec (ServerManager.servers sm) (first :: rest))
    as [(pre & server & post & Hsplit & Hrun & Hreach & Hpre) | (Hrun & Hnone)].
  - intros a Ha. apply Hkeys. exact Ha.
  - rewrite Hrun. exists pre, post. auto.
  - rewrite Hrun. exists [], rest. split; [reflexivity|].
    split; [intros a Ha; inversion Ha|]. right. auto.
Qed.

Lemma managerAB_consistent : consistent managerAB.
Proof.
  split; cbn.
  - apply NoDup_cons. split; [|apply NoDup_singleton].
    intros H. apply list_elem_of_singleton in H. discriminate H.
  - intros a. rewrite <- elem_of_dom, !dom_insert_L, dom_empty_L.
    rewrite !elem_of_union, !elem_of_singleton, !elem_of_cons, elem_of_nil, elem_of_empty.
    tauto.
Qed.

(** No server of the new manager is reachable: the first one is returned. *)
Lemma X23_GetBestServer_witness :
  ServerManager.GetBestServer managerAB = Returns (Ok "a.example"%string)
  /\ ServerStatus.Reachable
       (ServerManager.status (ServerManager.servers managerAB) "a.example") = false.
Proof.
  pose proof (X23_GetBestServer managerAB managerAB_consistent) as H.
  assert (Hrun : ServerManager.GetBestServer managerAB = Returns (Ok "a.example"%string))
    by (vm_compute; reflexivity).
  rewrite Hrun in H. destruct H as (pre & post & _ & _ & [Hr | [_ Hall]]).
  - vm_compute in Hr. discriminate Hr.
  - split; [exact Hrun|]. apply Hall. apply list_elem_of_here.
Defined.

(** X24.  Right after an update of a consistent manager, the best server
    is the head of the new ranking, and no server of the manager is
    ranked better: none is less than it in the order reachable first,
    then lower stratum, then lower RTT.  In particular it is reachable
    whenever some server is. *)
Theorem X24_best_after_update (server : string) (st : ServerStatus.t)
    (iter : list string) (sm : ServerManager.t) :
  consistent sm ->
  ServerManager.mapRange (ServerManager.servers sm) iter ->
  is_Some (ServerManager.servers sm !! server) ->
  exists sm' best rest,
    ServerManager.UpdateServerStatus server st iter sm = (sm', None)
    /\ ServerManager.serverOrder sm' = best :: rest
    /\ ServerManager.GetBestServer sm' = Returns (Ok best)
    /\ (forall a, is_Some (ServerManager.servers sm' !! a) ->
          ServerManager.less (ServerManager.servers sm') a best = false)
    /\ ((exists a, a ∈ ServerManager.serverOrder sm'
                   /\ ServerStatus.Reachable
                        (ServerManager.status (ServerManager.servers sm') a) = true) ->
        ServerStatus.Reachable
          (ServerManager.status (ServerManager.servers sm') best) = true).
Proof.
  intros [Hnd Hkeys] [Hndi Hkeysi] [old Hold].
  unfold ServerManager.UpdateServerStatus, ServerManager.reorderServers. rewrite Hold.
  cbn [ServerManager.servers ServerManager.serverOrder ServerManager.timeout].
  remember (<[server := st]> (ServerManager.servers sm)) as m' eqn:Hm'.
  remember (SliceStable (ServerManager.less m') iter) as order' eqn:Horder'.
  assert (Hperm : order' ≡ₚ iter) by (subst order'; apply SliceStable_Permutation).
  assert (Hsorted : StronglySorted (fun a b => ServerManager.less m' b a = false) order')
    by (subst order'; apply SliceStable_sorted;
        [apply ServerManager_less_asym | apply ServerManager_not_less_trans]).
  assert (Hkeys' : forall a, a ∈ order' <-> is_Some (m' !! a)).
  { intros a. rewrite Hperm, Hkeysi, Hm'. rewrite lookup_insert_is_Some.
    destruct (decide (server = a)); subst; intuition eauto. }
  clear Horder'.
  destruct order' as [|best rest].
  { exfalso. assert (Hin : server ∈ @nil string).
    { apply Hkeys'. rewrite Hm', lookup_insert_eq. eauto. }
    inversion Hin. }
  apply StronglySorted_inv in Hsorted as [_ Hbest].
  rewrite Forall_forall in Hbest.
  assert (Hmin : forall a, is_Some (m' !! a) -> ServerManager.less m' a best = false).
  { intros a Ha. apply Hkeys' in Ha. apply elem_of_cons in Ha as [-> | Ha].
    - destruct (ServerManager.less m' best best) eqn:Hbb; [|reflexivity].
      pose proof (ServerManager_less_asym m' best best Hbb). congruence.
    - apply Hbest, Ha. }
  assert (Hreach : (exists a, a ∈ best :: rest
                     /\ ServerStatus.Reachable (ServerManager.status m' a) = true) ->
                   ServerStatus.Reachable (ServerManager.status m' best) = true).
  { intros (a & Ha & Hr).
    destruct (ServerStatus.Reachable (ServerManager.status m' best)) eqn:Hb; [reflexivity|].
    assert (Hless : ServerManager.less m' a best = true).
    { apply less_spec. cbv zeta. rewrite Hr, Hb. lia. }
    rewrite Hmin in Hless by (apply Hkeys'; exact Ha). discriminate Hless. }
  exists (ServerManager.mk m' (best :: rest) (ServerManager.timeout sm)), best, rest.
  split; [reflexivity|].
  cbn [ServerManager.serverOrder ServerManager.servers].
  split; [reflexivity|]. split; [|split; [exact Hmin | exact Hreach]].
  unfold ServerManager.GetBestServer. cbn [ServerManager.serverOrder ServerManager.servers].
  destruct (firstReachable_spec m' (best :: rest))
    as [(pre & s & post & Hsplit & Hrun & Hr & Hpre) | (Hrun & Hnone)].
  - intros a Ha. apply Hkeys'. exact Ha.
  - rewrite Hrun. destruct pre as [|p pre].
    + injection Hsplit as <- _. reflexivity.
    + exfalso. injection Hsplit as <- Hrest.
      assert (Hb : ServerStatus.Reachable (ServerManager.status m' best) = true).
      { apply Hreach. exists s. split; [|exact Hr].
        rewrite Hrest. apply list_elem_of_further, elem_of_app. right. apply list_elem_of_here. }
      rewrite (Hpre best (list_elem_of_here _ _)) in Hb. discriminate Hb.
  - rewrite Hrun. reflexivity.
Qed.

(** The second server answers: it becomes the head and the best server. *)
Lemma X24_best_after_update_witness :
  exists sm' rest,
    ServerManager.UpdateServerStatus "b.example"
      (ServerStatus.mk "b.example" true adoptionTime 100000000 2 450000000)
      ["a.example"; "b.example"]%string managerAB = (sm', None)
    /\ ServerManager.serverOrder sm' = "b.example"%string :: rest
    /\ ServerManager.GetBestServer sm' = Returns (Ok "b.example"%string).
Proof.
  destruct (X24_best_after_update "b.example"
              (ServerStatus.mk "b.example" true adoptionTime 100000000 2 450000000)
              ["a.example"; "b.example"]%string managerAB managerAB_consistent)
    as (sm' & best & rest & Hupd & Horder & Hbest & _).
  - exact managerAB_consistent.
  - eexists. vm_compute. reflexivity.
  - exists sm', rest.
    assert (Hb : best = "b.example"%string).
    { vm_compute in Hupd. injection Hupd as <-. cbn in Horder. congruence. }
    subst best. auto.
Defined.

(** The loop of [NewServerManager] on any list: the map holds exactly the
    listed addresses besides the old ones, all new ones fresh, and the
    ranking grows by the list as given, duplicates included. *)
Lemma NewServerManager_fold_any (srvs : list string) :
  forall sm,
    let sm' := fold_left
                 (fun sm server =>
                    ServerManager.mk
                      (<[server := ServerStatus.fresh server]> (ServerManager.servers sm))
                      (ServerManager.serverOrder sm ++ [server]) (ServerManager.timeout sm))
                 srvs sm in
    ServerManager.serverOrder sm' = ServerManager.serverOrder sm ++ srvs
    /\ (forall s, s ∈ srvs -> ServerManager.servers sm' !! s = Some (ServerStatus.fresh s))
    /\ (forall s, s ∉ srvs ->
          ServerManager.servers sm' !! s = ServerManager.servers sm !! s).
Proof.
  induction srvs as [|server rest IH]; intros sm.
  - cbn. rewrite app_nil_r. split; [reflexivity|].
    split; [intros s Hs; inversion Hs | reflexivity].
  - cbn [fold_left]. set (sm1 := ServerManager.mk _ _ _).
    destruct (IH sm1) as (Ho & Hin & Hout). cbv zeta.
    split; [rewrite Ho; cbn; rewrite <- app_assoc; reflexivity|]. split.
    + intros s Hs.
      destruct (decide (s ∈ rest)) as [Hr | Hr]; [apply Hin, Hr|].
      apply elem_of_cons in Hs as [-> | Hs]; [|contradiction].
      rewrite Hout by exact Hr. cbn. apply lookup_insert_eq.
    + intros s Hs. apply not_elem_of_cons in Hs as [Hne Hs].
      rewrite Hout by exact Hs. cbn. apply lookup_insert_ne. congruence.
Qed.

Lemma derefAll_missing (m : gmap string ServerStatus.t) (order : list string) (s : string) :
  s ∈ order -> m !! s = None -> ServerManager.derefAll m order = Panics.
Proof.
  induction order as [|a rest IH]; intros Hin Hnone; [inversion Hin|].
  cbn. destruct (decide (a = s)) as [-> | Hne].
  - rewrite Hnone. reflexivity.
  - apply elem_of_cons in Hin as [-> | Hin]; [congruence|].
    rewrite (IH Hin Hnone). destruct (m !! a); reflexivity.
Qed.

Lemma firstReachable_missing (m : gmap string ServerStatus.t) (order : list string)
    (s : string) :
  allUnreachable m -> s ∈ order -> m !! s = None ->
  ServerManager.firstReachable m order = Panics.
Proof.
  intros Hun. induction order as [|a rest IH]; intros Hin Hnone; [inversion Hin|].
  cbn. destruct (m !! a) as [st|] eqn:Ha; [|reflexivity].
  rewrite (Hun a st Ha).
  apply elem_of_cons in Hin as [-> | Hin]; [congruence|].
  exact (IH Hin Hnone).
Qed.

(** X25.  A configured list that names an address twice breaks the
    manager.  [NewServerManager] accepts it and keeps both occurrences in
    the ranking, with a single entry in the map.  Removing the address
    then deletes the map entry and the first occurrence only: the ranking
    still names an address that the map does not hold, and
    [GetAllServerStatuses] and [GetBestServer] dereference the missing
    entry and panic. *)
Theorem X25_duplicate_address_panics (server : string) (others : list string)
    (tmo : Duration) :
  server ∈ others ->
  exists sm sm',
    ServerManager.NewServerManager (server :: others) tmo = Ok sm
    /\ ServerManager.GetServers sm = server :: others
    /\ ServerManager.RemoveServer server sm = (sm', None)
    /\ ServerManager.GetServers sm' = others
    /\ ServerManager.GetServerStatus server sm' = Err (ErrServerUnknown server)
    /\ ServerManager.GetAllServerStatuses sm' = Panics
    /\ ServerManager.GetBestServer sm' = Panics.
Proof.
  intros Hdup. unfold ServerManager.NewServerManager. cbn [length Nat.eqb].
  destruct (NewServerManager_fold_any (server :: others)
              (ServerManager.mk ∅ [] (if tmo <=? 0 then DefaultTimeout else tmo)))
    as (Ho & Hin & Hout).
  cbv zeta in *. set (sm := fold_left _ _ _) in *. cbn [ServerManager.serverOrder app] in Ho.
  assert (Hkey : ServerManager.servers sm !! server = Some (ServerStatus.fresh server))
    by (apply Hin, list_elem_of_here).
  assert (Hun : allUnreachable (delete server (ServerManager.servers sm))).
  { intros a st Ha. apply lookup_delete_Some in Ha as [Hne Ha].
    destruct (decide (a ∈ server :: others)) as [Hl | Hl].
    - rewrite (Hin a Hl) in Ha. injection Ha as <-. reflexivity.
    - rewrite (Hout a Hl) in Ha. cbn in Ha. rewrite lookup_empty in Ha. discriminate Ha. }
  eexists sm, _. split; [reflexivity|].
  unfold ServerManager.RemoveServer, ServerManager.GetServers. rewrite Hkey, Ho.
  split; [reflexivity|]. split; [reflexivity|].
  cbn [ServerManager.removeFirst ServerManager.serverOrder]. rewrite String.eqb_refl.
  split; [reflexivity|].
  unfold ServerManager.GetServerStatus, ServerManager.GetAllServerStatuses,
    ServerManager.GetBestServer.
  cbn [ServerManager.servers ServerManager.serverOrder].
  rewrite lookup_delete_eq. split; [reflexivity|].
  split; [apply (derefAll_missing _ _ server Hdup), lookup_delete_eq|].
  destruct others as [|o others']; [inversion Hdup|].
  rewrite (firstReachable_missing _ _ server Hun Hdup) by apply lookup_delete_eq.
  reflexivity.
Qed.

Lemma X25_duplicate_address_panics_witness :
  exists sm sm',
    ServerManager.NewServerManager ["a.example"; "b.example"; "a.example"]%string 0 = Ok sm
    /\ ServerManager.RemoveServer "a.example" sm = (sm', None)
    /\ ServerManager.GetBestServer sm' = Panics.
Proof.
  destruct (X25_duplicate_address_panics "a.example" ["b.example"; "a.example"]%string 0)
    as (sm & sm' & Hnew & _ & Hrm & _ & _ & _ & Hbest).
  - apply list_elem_of_further, list_elem_of_here.
  - exists sm, sm'. auto.
Defined.

(* ===================================================================== *)
(** ** Probing every server *)
(* ===================================================================== *)

Lemma nth_lookup_lt (l : list string) (j : nat) :
  (j < length l)%nat -> l !! j = Some (nth j l ""%string).
Proof.
  intros Hj. destruct (lookup_lt_is_Some_2 l j Hj) as [x Hx].
  rewrite Hx. f_equal. symmetry. apply nth_lookup_Some with (d := ""%string) in Hx. exact Hx.
Qed.

Lemma nth_inj (l : list string) (i j : nat) :
  NoDup l -> (i < length l)%nat -> (j < length l)%nat ->
  nth i l ""%string = nth j l ""%string -> i = j.
Proof.
  intros Hnd Hi Hj Heq.
  apply (NoDup_lookup l i j (nth i l ""%string) Hnd).
  - apply nth_lookup_lt, Hi.
  - rewrite Heq. apply nth_lookup_lt, Hj.
Qed.

(** The final loop of [ProbeAllServers] on a ranking whose addresses are
    all in the map. *)
Lemma anyReachable_spec (m : gmap string ServerStatus.t) (order : list string) :
  (forall a, a ∈ order -> is_Some (m !! a)) ->
  exists b,
    anyReachable m order = Returns b
    /\ (b = true <-> exists a st, a ∈ order /\ m !! a = Some st
                                  /\ ServerStatus.Reachable st = true).
Proof.
  induction order as [|s rest IH]; intros Hall.
  - exists false. split; [reflexivity|]. split; [discriminate|].
    intros (a & st & Ha & _). inversion Ha.
  - destruct (Hall s (list_elem_of_here _ _)) as [st Hst].
    cbn [anyReachable]. rewrite Hst.
    destruct (ServerStatus.Reachable st) eqn:Hr.
    + exists true. split; [reflexivity|]. split; [|reflexivity].
      intros _. exists s, st. split; [apply list_elem_of_here | auto].
    + destruct IH as (b & Hrun & Hb).
      { intros a Ha. apply Hall, list_elem_of_further, Ha. }
      exists b. split; [exact Hrun|]. rewrite Hb. split.
      * intros (a & st' & Ha & Hl & Hr'). exists a, st'.
        split; [apply list_elem_of_further, Ha | auto].
      * intros (a & st' & Ha & Hl & Hr'). exists a, st'.
        apply elem_of_cons in Ha as [-> | Ha]; [congruence | auto].
Qed.

(** The updates of the goroutines [js], taken in that order, on a manager
    that knows exactly the addresses of [order0]. *)
Lemma fold_probeUpdate (order0 : list string) (timeout : Duration)
    (nets : nat -> Net (list Byte.byte)) (nows : nat -> Time)
    (iters : nat -> list string) (js : list nat) :
  NoDup order0 ->
  (forall j, NoDup (iters j) /\ forall a, a ∈ iters j <-> a ∈ order0) ->
  NoDup js -> (forall j, j ∈ js -> (j < length order0)%nat) ->
  forall sm,
    (forall a, a ∈ order0 <-> is_Some (ServerManager.servers sm !! a)) ->
    ServerManager.serverOrder sm ≡ₚ order0 ->
    let sm' := fold_left (probeUpdate order0 timeout nets nows iters) js sm in
    (forall a, a ∈ order0 <-> is_Some (ServerManager.servers sm' !! a))
    /\ ServerManager.serverOrder sm' ≡ₚ order0
    /\ ServerManager.timeout sm' = ServerManager.timeout sm
    /\ (forall j, j ∈ js ->
          ServerManager.servers sm' !! nth j order0 ""%string
          = Some (probeStatus (nth j order0 ""%string)
                    (syncWithServerBinary (nth j order0 ""%string) timeout (nets j))
                    (nows j)))
    /\ (forall a, (forall j, j ∈ js -> nth j order0 ""%string <> a) ->
          ServerManager.servers sm' !! a = ServerManager.servers sm !! a).
Proof.
  intros Hnd Hiters.
  induction js as [|j js IH]; intros Hndj Hlt sm Hkeys Hord.
  - cbn. split; [exact Hkeys|]. split; [exact Hord|]. split; [reflexivity|].
    split; [intros j Hj; inversion Hj | reflexivity].
  - apply NoDup_cons in Hndj as [Hj Hndj].
    assert (Hjlt : (j < length order0)%nat) by apply Hlt, list_elem_of_here.
    cbn [fold_left].
    set (key := nth j order0 ""%string).
    set (st := probeStatus key (syncWithServerBinary key timeout (nets j)) (nows j)).
    assert (Hin : key ∈ order0).
    { apply list_elem_of_lookup. exists j. apply nth_lookup_lt, Hjlt. }
    destruct (proj1 (Hkeys key) Hin) as [old Hold].
    assert (Hstep : probeUpdate order0 timeout nets nows iters sm j
                    = ServerManager.mk (<[key := st]> (ServerManager.servers sm))
                        (SliceStable
                           (ServerManager.less (<[key := st]> (ServerManager.servers sm)))
                           (iters j))
                        (ServerManager.timeout sm)).
    { unfold probeUpdate, ServerManager.UpdateServerStatus. fold key. rewrite Hold.
      reflexivity. }
    rewrite Hstep. set (sm1 := ServerManager.mk _ _ _).
    destruct (IH Hndj (fun i Hi => Hlt i (list_elem_of_further _ _ _ Hi)) sm1)
      as (Hk & Ho & Ht & Hdone & Hrest).
    { intros a. cbn. rewrite lookup_insert_is_Some, <- Hkeys.
      destruct (decide (key = a)); subst; intuition congruence. }
    { cbn. rewrite SliceStable_Permutation.
      apply NoDup_Permutation; [apply Hiters | exact Hnd | apply Hiters]. }
    cbv zeta. split; [exact Hk|]. split; [exact Ho|]. split; [exact Ht|]. split.
    + intros i Hi. apply elem_of_cons in Hi as [-> | Hi]; [|apply Hdone, Hi].
      rewrite Hrest.
      * cbn. fold key. apply lookup_insert_eq.
      * intros i Hi Heq. apply nth_inj in Heq; try assumption.
        -- subst i. contradiction.
        -- apply Hlt, list_elem_of_further, Hi.
    + intros a Ha. rewrite Hrest.
      * cbn. apply lookup_insert_ne. apply Ha, list_elem_of_here.
      * intros i Hi. apply Ha, list_elem_of_further, Hi.
Qed.

(** The error remembered after the goroutines of [js] have written it. *)
Lemma fold_lastErr (order0 : list string) (timeout : Duration)
    (nets : nat -> Net (list Byte.byte)) (front : list nat) (jlast : nat) (e : error)
    (init : option error) :
  syncWithServerBinary (nth jlast order0 ""%string) timeout (nets jlast) = Err e ->
  fold_left (fun lastErr j =>
               match syncWithServerBinary (nth j order0 ""%string) timeout (nets j) with
               | Err err => Some err
               | Ok _ => lastErr
               end) (front ++ [jlast]) init = Some e.
Proof.
  intros He. rewrite fold_left_app. cbn. rewrite He. reflexivity.
Qed.

(** X26.  [ProbeAllServers] on a consistent manager with servers, for any
    order in which the probes finish and any order in which the ranges
    over the map yield the addresses: it does not panic; afterwards the
    manager is consistent and knows the same servers; the status of every
    server is the one its own probe produced (reachable with the
    measurements of its result, or unreachable with zero fields); the
    call succeeds exactly when at least one probe succeeded; and when it
    fails, the error wraps the error of the probe that recorded its
    failure last. *)
Theorem X26_ProbeAllServers (sm : ServerManager.t) (nets : nat -> Net (list Byte.byte))
    (nows : nat -> Time) (iters : nat -> list string) (errOrder updOrder : list nat) :
  consistent sm ->
  ServerManager.serverOrder sm <> [] ->
  (forall j, ServerManager.mapRange (ServerManager.servers sm) (iters j)) ->
  errOrder ≡ₚ seq 0 (length (ServerManager.serverOrder sm)) ->
  updOrder ≡ₚ seq 0 (length (ServerManager.serverOrder sm)) ->
  let probe j server :=
    syncWithServerBinary server (ServerManager.timeout sm) (nets j) in
  exists sm' err,
    ProbeAllServers sm nets nows iters errOrder updOrder = Returns (sm', err)
    /\ consistent sm'
    /\ ServerManager.serverOrder sm' ≡ₚ ServerManager.serverOrder sm
    /\ (forall j server,
          ServerManager.serverOrder sm !! j = Some server ->
          ServerManager.servers sm' !! server
          = Some (probeStatus server (probe j server) (nows j)))
    /\ (err = None <->
        exists j server r,
          ServerManager.serverOrder sm !! j = Some server /\ probe j server = Ok r)
    /\ (err <> None ->
        exists jlast server e,
          last errOrder = Some jlast
          /\ ServerManager.serverOrder sm !! jlast = Some server
          /\ probe jlast server = Err e
          /\ err = Some (ErrAllUnreachable e)).
Proof.
  intros [Hnd Hkeys] Hne Hiters Herr Hupd probe.
  set (order0 := ServerManager.serverOrder sm) in *.
  set (timeout := ServerManager.timeout sm) in *.
  assert (Hlen : (0 < length order0)%nat) by (destruct order0; [congruence | cbn; lia]).
  assert (Hiters' : forall j, NoDup (iters j) /\ forall a, a ∈ iters j <-> a ∈ order0).
  { intros j. destruct (Hiters j) as [Hn Hk]. split; [exact Hn|].
    intros a. rewrite Hk, Hkeys. reflexivity. }
  assert (Hupd_in : forall j, j ∈ updOrder <-> (j < length order0)%nat).
  { intros j. rewrite list_elem_of_In. apply completion_index, Hupd. }
  assert (Hupd_nd : NoDup updOrder).
  { rewrite Hupd. apply NoDup_ListNoDup, seq_NoDup. }
  destruct (fold_probeUpdate order0 timeout nets nows iters updOrder Hnd Hiters' Hupd_nd
              (fun j Hj => proj1 (Hupd_in j) Hj) sm Hkeys (Permutation_refl _))
    as (Hk & Ho & Ht & Hdone & _).
  cbv zeta in *.
  unfold ProbeAllServers. fold order0. fold timeout.
  destruct (Nat.eqb_spec (length order0) 0) as [H0|_]; [lia|].
  set (sm' := fold_left (probeUpdate order0 timeout nets nows iters) updOrder sm) in *.
  assert (Hstatus : forall j server,
            order0 !! j = Some server ->
            ServerManager.servers sm' !! server
            = Some (probeStatus server (probe j server) (nows j))).
  { intros j server Hj.
    pose proof (lookup_lt_Some _ _ _ Hj) as Hlt.
    assert (Hnth : nth j order0 ""%string = server).
    { apply nth_lookup_Some with (d := ""%string) in Hj. exact Hj. }
    rewrite <- Hnth. apply Hdone, Hupd_in, Hlt. }
  assert (Hcons : consistent sm').
  { split.
    - rewrite Ho. exact Hnd.
    - intros a. rewrite Ho. apply Hk. }
  destruct (anyReachable_spec (ServerManager.servers sm') (ServerManager.serverOrder sm'))
    as (b & Hrun & Hb).
  { intros a Ha. apply Hk. rewrite <- Ho. exact Ha. }
  assert (Hsuccess : b = true <->
                     exists j server r, order0 !! j = Some server /\ probe j server = Ok r).
  { rewrite Hb. split.
    - intros (a & st & Ha & Hl & Hr). rewrite Ho in Ha.
      apply list_elem_of_lookup in Ha as [j Hj].
      rewrite (Hstatus j a Hj) in Hl. injection Hl as <-.
      destruct (probe j a) as [r | e] eqn:Hp; [eauto | discriminate Hr].
    - intros (j & server & r & Hj & Hp).
      exists server, (probeStatus server (probe j server) (nows j)).
      split; [rewrite Ho; apply list_elem_of_lookup; eauto|].
      split; [apply Hstatus, Hj | rewrite Hp; reflexivity]. }
  rewrite Hrun. destruct b.
  - exists sm', None. split; [reflexivity|]. split; [exact Hcons|]. split; [exact Ho|].
    split; [exact Hstatus|]. split; [|congruence].
    split; [intros _; apply Hsuccess; reflexivity | reflexivity].
  - assert (Hfail : forall j, (j < length order0)%nat ->
                      exists e, probe j (nth j order0 ""%string) = Err e).
    { intros j Hj. destruct (probe j (nth j order0 ""%string)) as [r | e] eqn:Hp; [|eauto].
      assert (Htrue : false = true); [|discriminate Htrue].
      apply Hsuccess. exists j, (nth j order0 ""%string), r.
      split; [apply nth_lookup_lt, Hj | exact Hp]. }
    destruct errOrder as [|jlast front _] using rev_ind.
    { apply Permutation_nil_l in Herr.
      destruct (length order0); [lia | discriminate Herr]. }
    assert (Hjlast : (jlast < length order0)%nat).
    { apply (completion_index _ _ _ Herr), in_or_app. right. left. reflexivity. }
    destruct (Hfail jlast Hjlast) as [e He].
    rewrite (fold_lastErr order0 timeout nets front jlast e None He).
    exists sm', (Some (ErrAllUnreachable e)).
    split; [reflexivity|]. split; [exact Hcons|]. split; [exact Ho|].
    split; [exact Hstatus|]. split.
    + split; [discriminate|]. intros H. apply Hsuccess in H. discriminate H.
    + intros _. exists jlast, (nth jlast order0 ""%string), e.
      rewrite last_snoc. split; [reflexivity|].
      split; [apply nth_lookup_lt, Hjlast|]. split; [exact He | reflexivity].
Qed.

(** Both servers of the race answer: the probe succeeds and leaves a
    consistent manager. *)
Lemma X26_ProbeAllServers_witness :
  exists sm',
    ProbeAllServers managerAB raceNets (fun _ => adoptionTime)
      (fun _ => ["a.example"; "b.example"]%string) [1; 0]%nat [0; 1]%nat
    = Returns (sm', None)
    /\ consistent sm'.
Proof.
  destruct (X26_ProbeAllServers managerAB raceNets (fun _ => adoptionTime)
              (fun _ => ["a.example"; "b.example"]%string) [1; 0]%nat [0; 1]%nat)
    as (sm' & err & Hrun & Hcons & _ & _ & Hok & _).
  - exact managerAB_consistent.
  - discriminate.
  - intros _. exact managerAB_consistent.
  - apply perm_swap.
  - reflexivity.
  - exists sm'. assert (Herr : err = None).
    { apply Hok. exists 0%nat, "a.example"%string. eexists.
      split; [reflexivity | vm_compute; reflexivity]. }
    subst err. split; assumption.
Defined.
